(** * AD7745 capacitance-to-digital converter driver

    A shallow embedding of [AD7745_Driver.py] (class [AD7745]) and the
    verification of its register codec, its bus transactions, its
    acquisition loop, its input and filter selection, its DAC-trim
    calibration scan, its unit conversions and its construction.

    Python integers are [Z]; Python floats are the kernel's binary64
    [float]; the driver object and the host adapter it owns are threaded
    through a state-and-exception monad, and every call the driver makes on
    the adapter is appended to a call log, so that statements about what
    reaches the bus, and in which order, are statements about that log. *)

From Stdlib Require Import ZArith List Bool String Lia.
From Stdlib Require Import Floats Uint63 ZifyUint63.
Import ListNotations.

(* 4.096 is read as the nearest binary64, as Python reads it. *)
Set Warnings "-inexact-float".

Open Scope string_scope.
Open Scope Z_scope.
Open Scope list_scope.

(** ** Exceptions and the driver monad *)

(** The exceptions the driver raises.  Messages built with f-strings are
    kept as their arguments rather than as formatted text. *)
Inductive io_error : Type :=
| ExcitationError                       (* "Excitation output cannot be driven properly!..." *)
| SensorNotReady                        (* "Sensor was not ready in time!" *)
| CalibrationFailed (start raw : Z).    (* "Failed to find a valid CDAC value!, last attempt was {start} @ {hex(raw)}" *)

Inductive exn : Type :=
| RuntimeError (msg : string)
| ValueError (what : string) (value : Z)
| InvalidLiteral (token : string)       (* the ValueError of [int(token, 0)] *)
| IndexError
| IOError (e : io_error).

(** What a call of a driver method ends in: a value, a raised exception, or
    a polling loop that did not finish within the iterations granted. *)
Inductive outcome (A : Type) : Type :=
| Return (a : A)
| Raise (e : exn)
| OutOfFuel.

Arguments Return {A} a.
Arguments Raise {A} e.
Arguments OutOfFuel {A}.

(** The calls the driver makes on the host adapter, as logged. *)
Inductive call : Type :=
| StartI2C (index addr : Z)
| WriteByteI2C (index byte : Z)
| EndI2C (index : Z) (repeat : bool)
| ReadBytesI2C (index addr len : Z)
| SetLEDRGB (r g b : Z).

(** The answer of [readBytesI2C].  The adapter answers with a line of text;
    the driver tests characters 1..2 for "NG" and otherwise splits what
    follows the tenth character at the blanks and hands every piece to
    [int(_, 0)].  Every line is of one of three kinds, and the model keeps
    the kind: the line is a refusal; or some piece is no integer literal,
    and [token] is the first such piece; or every piece is one, and
    [bytes] are their values. *)
Inductive rx : Type :=
| RxNG
| RxMalformed (token : string)
| RxData (bytes : list Z).

(** The host adapter ([binhoHostAdapter]) as the driver uses it, over the
    adapter's own state [B], together with the wall clock ([time.time]). *)
Class HostAdapter (B : Type) : Type := {
  startI2C : Z -> Z -> B -> string * B;
  writeByteI2C : Z -> Z -> B -> string * B;
  endI2C : Z -> bool -> B -> string * B;
  readBytesI2C : Z -> Z -> Z -> B -> rx * B;
  setLEDRGB : Z -> Z -> Z -> B -> B;
  time_time : B -> float * B
}.

(** The driver object: the adapter it owns, the [cont_conv] attribute, the
    log of adapter calls, and the start codes printed on the console by the
    calibration scan. *)
Record driver (B : Type) : Type := {
  i2cbus : B;
  cont_conv : bool;
  calls : list call;
  console : list Z
}.

Arguments i2cbus {B} _.
Arguments cont_conv {B} _.
Arguments calls {B} _.
Arguments console {B} _.

Definition M (B A : Type) : Type := driver B -> outcome A * driver B.

Definition ret {B A} (a : A) : M B A := fun d => (Return a, d).

Definition raise {B A} (e : exn) : M B A := fun d => (Raise e, d).

Definition out_of_fuel {B A} : M B A := fun d => (OutOfFuel, d).

Definition bind {B A C} (m : M B A) (k : A -> M B C) : M B C :=
  fun d =>
    match m d with
    | (Return a, d') => k a d'
    | (Raise e, d') => (Raise e, d')
    | (OutOfFuel, d') => (OutOfFuel, d')
    end.

Declare Scope drv_scope.
Delimit Scope drv_scope with drv.
Notation "x <- m ;; k" := (bind m (fun x => k))
  (at level 61, m at next level, right associativity) : drv_scope.
Notation "m ;; k" := (bind m (fun _ => k))
  (at level 61, right associativity) : drv_scope.
Open Scope drv_scope.

Section Driver.

Context {B : Type} `{HostAdapter B}.

(** An adapter call that answers: run it on the adapter and log it. *)
Definition on_bus {A} (c : call) (f : B -> A * B) : M B A :=
  fun d =>
    let (a, b') := f (i2cbus d) in
    (Return a,
     {| i2cbus := b'; cont_conv := cont_conv d;
        calls := calls d ++ [c]; console := console d |}).

Definition led (r g b : Z) : M B unit :=
  on_bus (SetLEDRGB r g b) (fun s => (tt, setLEDRGB r g b s)).

Definition now : M B float :=
  fun d =>
    let (t, b') := time_time (i2cbus d) in
    (Return t,
     {| i2cbus := b'; cont_conv := cont_conv d;
        calls := calls d; console := console d |}).

Definition print_cal (start : Z) : M B unit :=
  fun d =>
    (Return tt,
     {| i2cbus := i2cbus d; cont_conv := cont_conv d;
        calls := calls d; console := console d ++ [start] |}).

Definition get_cont_conv : M B bool := fun d => (Return (cont_conv d), d).

(** [l[i]] on a Python list. *)
Definition item (l : list Z) (i : nat) : M B Z :=
  match nth_error l i with
  | Some v => ret v
  | None => raise IndexError
  end.

End Driver.

(** ** The register map *)

Module AD7745.

Definition I2C_INDEX := 0.

Definition WRITE_ADDR := 0x90.
Definition READ_ADDR := 0x91.

Definition STATUS_ADDR := 0x00.
Definition STATUS_EXCERR := Z.shiftl 1 3.
Definition STATUS_RDY := Z.shiftl 1 2.
Definition STATUS_RDYVT := Z.shiftl 1 1.
Definition STATUS_RDYCAP := Z.shiftl 1 0.

Definition CAP_DATA_H_ADDR := 0x01.
Definition CAP_DATA_M_ADDR := 0x02.
Definition CAP_DATA_L_ADDR := 0x03.

Definition VT_DATA_H_ADDR := 0x04.
Definition VT_DATA_M_ADDR := 0x05.
Definition VT_DATA_L_ADDR := 0x06.

Definition CAP_SETUP_ADDR := 0x07.
Definition CAP_SETUP_CAPEN := Z.shiftl 1 7.
Definition CAP_SETUP_CIN2 := Z.shiftl 1 6.
Definition CAP_SETUP_CAPDIFF := Z.shiftl 1 5.
Definition CAP_SETUP_CAPCHOP := 1.

Definition VT_SETUP_ADDR := 0x08.
Definition VT_SETUP_VTEN := Z.shiftl 1 7.
Definition VT_SETUP_VTMD1 := Z.shiftl 1 6.
Definition VT_SETUP_VTMD0 := Z.shiftl 1 5.
Definition VT_SETUP_EXTREF := Z.shiftl 1 4.
Definition VT_SETUP_VTSHORT := Z.shiftl 1 1.
Definition VT_SETUP_VTCHOP := 1.

Definition EXC_SETUP_ADDR := 0x09.
Definition EXC_SETUP_CLKCTRL := Z.shiftl 1 7.
Definition EXC_SETUP_EXCON := Z.shiftl 1 6.
Definition EXC_SETUP_EXCB := Z.shiftl 1 5.
Definition EXC_SETUP_UEXCB := Z.shiftl 1 4.
Definition EXC_SETUP_EXCA := Z.shiftl 1 3.
Definition EXC_SETUP_UEXCA := Z.shiftl 1 2.
Definition EXC_SETUP_EXCLVL1 := Z.shiftl 1 1.
Definition EXC_SETUP_EXCLVL0 := 1.

Definition CONFIG_ADDR := 0x0A.
Definition CONFIG_VTFS1 := Z.shiftl 1 7.
Definition CONFIG_VTFS0 := Z.shiftl 1 6.
Definition CONFIG_CAPFS2 := Z.shiftl 1 5.
Definition CONFIG_CAPFS1 := Z.shiftl 1 4.
Definition CONFIG_CAPFS0 := Z.shiftl 1 3.
Definition CONFIG_MD2 := Z.shiftl 1 2.
Definition CONFIG_MD1 := Z.shiftl 1 1.
Definition CONFIG_MD0 := 1.

Definition CAP_DAC_A_ADDR := 0x0B.
Definition CAP_DAC_A_DACAENA := Z.shiftl 1 7.
Definition CAP_DAC_A_DACA7bit := 0x7F.

Definition CAP_DAC_B_ADDR := 0x0C.
Definition CAP_DAC_B_DACBENB := Z.shiftl 1 7.
Definition CAP_DAC_B_DACB7bit := 0x7F.

Definition CAP_OFFSET_H_ADDR := 0x0D.
Definition CAP_OFFSET_L_ADDR := 0x0E.

Definition CAP_GRAIN_H_ADDR := 0x0F.
Definition CAP_GRAIN_L_ADDR := 0x10.

Definition VOLT_GRAIN_H_ADDR := 0x11.
Definition VOLT_GRAIN_L_ADDR := 0x12.

Inductive CapFilter : Type :=
| CONV87Hz | CONV79Hz | CONV44Hz | CONV22Hz
| CONV14Hz | CONV11Hz | CONV9Hz | CONV8Hz.

Record vt_setup_reg : Type := {
  VTEN : bool; VTMD1 : bool; VTMD0 : bool;
  EXTREF : bool; VTSHORT : bool; VTCHOP : bool
}.

Record cap_setup_reg : Type := {
  CAPEN : bool; CIN2 : bool; CAPDIFF : bool; CAPCHOP : bool
}.

Record exc_setup_reg : Type := {
  CLKCTRL : bool; EXCON : bool; EXCB : bool; UEXCB : bool;
  EXCA : bool; UEXCA : bool; EXCLVL1 : bool; EXCLVL0 : bool
}.

Record configuration_reg : Type := {
  VTFS1 : bool; VTFS0 : bool;
  CAPFS2 : bool; CAPFS1 : bool; CAPFS0 : bool;
  MD2 : bool; MD1 : bool; MD0 : bool
}.

Record cap_daca_reg : Type := { DACAENA : bool; DACA7bit : Z }.

Record cap_dacb_reg : Type := { DACBENB : bool; DACB7bit : Z }.

Record status_reg : Type := {
  EXCERR : bool; RDY : bool; RDYVT : bool; RDYCAP : bool
}.

(** [bool(x & mask)] *)
Definition flag (x mask : Z) : bool := negb (Z.land x mask =? 0).

(** [value += MASK] under [if field:] *)
Definition add_if (field : bool) (mask value : Z) : Z :=
  if field then value + mask else value.

(** *** The register codec

    Each setter accumulates the masks of the fields that are set and writes
    the sum; each getter tests the masks of the byte it read.  The
    accumulation and the tests are named here, the bus traffic follows. *)

Definition cap_setup_encode (val : cap_setup_reg) : Z :=
  let value := 0 in
  let value := add_if (CAPEN val) CAP_SETUP_CAPEN value in
  let value := add_if (CIN2 val) CAP_SETUP_CIN2 value in
  let value := add_if (CAPDIFF val) CAP_SETUP_CAPDIFF value in
  let value := add_if (CAPCHOP val) CAP_SETUP_CAPCHOP value in
  value.

Definition cap_setup_decode (read_data : Z) : cap_setup_reg :=
  {| CAPEN := flag read_data CAP_SETUP_CAPEN;
     CIN2 := flag read_data CAP_SETUP_CIN2;
     CAPDIFF := flag read_data CAP_SETUP_CAPDIFF;
     CAPCHOP := flag read_data CAP_SETUP_CAPCHOP |}.

Definition vt_setup_encode (val : vt_setup_reg) : Z :=
  let reg_value := 0 in
  let reg_value := add_if (VTEN val) VT_SETUP_VTEN reg_value in
  let reg_value := add_if (VTMD1 val) VT_SETUP_VTMD1 reg_value in
  let reg_value := add_if (VTMD0 val) VT_SETUP_VTMD0 reg_value in
  let reg_value := add_if (EXTREF val) VT_SETUP_EXTREF reg_value in
  let reg_value := add_if (VTSHORT val) VT_SETUP_VTSHORT reg_value in
  let reg_value := add_if (VTCHOP val) VT_SETUP_VTCHOP reg_value in
  reg_value.

Definition vt_setup_decode (read_string : Z) : vt_setup_reg :=
  {| VTEN := flag read_string VT_SETUP_VTEN;
     VTMD1 := flag read_string VT_SETUP_VTMD1;
     VTMD0 := flag read_string VT_SETUP_VTMD0;
     EXTREF := flag read_string VT_SETUP_EXTREF;
     VTSHORT := flag read_string VT_SETUP_VTSHORT;
     VTCHOP := flag read_string VT_SETUP_VTCHOP |}.

Definition exc_setup_encode (val : exc_setup_reg) : Z :=
  let value := 0 in
  let value := add_if (CLKCTRL val) EXC_SETUP_CLKCTRL value in
  let value := add_if (EXCON val) EXC_SETUP_EXCON value in
  let value := add_if (EXCB val) EXC_SETUP_EXCB value in
  let value := add_if (UEXCB val) EXC_SETUP_UEXCB value in
  let value := add_if (EXCA val) EXC_SETUP_EXCA value in
  let value := add_if (UEXCA val) EXC_SETUP_UEXCA value in
  let value := add_if (EXCLVL1 val) EXC_SETUP_EXCLVL1 value in
  let value := add_if (EXCLVL0 val) EXC_SETUP_EXCLVL0 value in
  value.

Definition exc_setup_decode (read_string : Z) : exc_setup_reg :=
  {| CLKCTRL := flag read_string EXC_SETUP_CLKCTRL;
     EXCON := flag read_string EXC_SETUP_EXCON;
     EXCB := flag read_string EXC_SETUP_EXCB;
     UEXCB := flag read_string EXC_SETUP_UEXCB;
     EXCA := flag read_string EXC_SETUP_EXCA;
     UEXCA := flag read_string EXC_SETUP_UEXCA;
     EXCLVL1 := flag read_string EXC_SETUP_EXCLVL1;
     EXCLVL0 := flag read_string EXC_SETUP_EXCLVL0 |}.

Definition configuration_encode (val : configuration_reg) : Z :=
  let value := 0 in
  let value := add_if (VTFS1 val) CONFIG_VTFS1 value in
  let value := add_if (VTFS0 val) CONFIG_VTFS0 value in
  let value := add_if (CAPFS2 val) CONFIG_CAPFS2 value in
  let value := add_if (CAPFS1 val) CONFIG_CAPFS1 value in
  let value := add_if (CAPFS0 val) CONFIG_CAPFS0 value in
  let value := add_if (MD2 val) CONFIG_MD2 value in
  let value := add_if (MD1 val) CONFIG_MD1 value in
  let value := add_if (MD0 val) CONFIG_MD0 value in
  value.

Definition configuration_decode (read_string : Z) : configuration_reg :=
  {| VTFS1 := flag read_string CONFIG_VTFS1;
     VTFS0 := flag read_string CONFIG_VTFS0;
     CAPFS2 := flag read_string CONFIG_CAPFS2;
     CAPFS1 := flag read_string CONFIG_CAPFS1;
     CAPFS0 := flag read_string CONFIG_CAPFS0;
     MD2 := flag read_string CONFIG_MD2;
     MD1 := flag read_string CONFIG_MD1;
     MD0 := flag read_string CONFIG_MD0 |}.

Definition status_decode (read_string : Z) : status_reg :=
  {| EXCERR := flag read_string STATUS_EXCERR;
     RDY := flag read_string STATUS_RDY;
     RDYVT := flag read_string STATUS_RDYVT;
     RDYCAP := flag read_string STATUS_RDYCAP |}.

(** The byte the DAC A setter writes once the range check has passed. *)
Definition cap_daca_encode (val : cap_daca_reg) : Z :=
  if DACAENA val then Z.lor (Z.shiftl 1 7) (DACA7bit val) else DACA7bit val.

Definition cap_daca_decode (read_string : Z) : cap_daca_reg :=
  {| DACAENA := flag read_string CAP_DAC_A_DACAENA;
     DACA7bit := Z.land read_string CAP_DAC_A_DACA7bit |}.

Definition cap_dacb_decode (read_string : Z) : cap_dacb_reg :=
  {| DACBENB := flag read_string CAP_DAC_B_DACBENB;
     DACB7bit := Z.land read_string CAP_DAC_B_DACB7bit |}.

(** The three filter bits [cap_filter] assigns for each setting. *)
Definition filter_fields (filter_setting : CapFilter) : bool * bool * bool :=
  match filter_setting with
  | CONV87Hz => (false, false, false)
  | CONV79Hz => (false, false, true)
  | CONV44Hz => (false, true, false)
  | CONV22Hz => (false, true, true)
  | CONV14Hz => (true, false, false)
  | CONV11Hz => (true, false, true)
  | CONV9Hz => (true, true, false)
  | CONV8Hz => (true, true, true)
  end.

(** ** Unit conversion *)

(** Python's conversion of an [int] to a [float]: the nearest binary64,
    ties to even.  (Python raises [OverflowError] where this yields an
    infinity, from 2^1024 on.) *)
Definition float_of_int (z : Z) : float :=
  SF2Prim (binary_normalize prec emax z 0 false).

(** [cap_val * (4.096 / 0x800000)] *)
Definition cap_val_to_pf (cap_val : Z) : float :=
  (float_of_int cap_val * (4.096 / float_of_int 0x800000))%float.

(** ** The device controller *)

Section Methods.

Context {B : Type} `{HostAdapter B}.

Definition _check_device_success (ret_str : string) : M B unit :=
  if (ret_str =? "-OK")%string then ret tt
  else if (ret_str =? "-NG")%string then raise (RuntimeError "Binho returned NG!")
  else raise (RuntimeError "Binho returned Unknown command!").

Definition write_byte (register value : Z) : M B unit :=
  r <- on_bus (StartI2C I2C_INDEX WRITE_ADDR) (startI2C I2C_INDEX WRITE_ADDR);;
  _check_device_success r;;
  r <- on_bus (WriteByteI2C I2C_INDEX register) (writeByteI2C I2C_INDEX register);;
  _check_device_success r;;
  r <- on_bus (WriteByteI2C I2C_INDEX value) (writeByteI2C I2C_INDEX value);;
  _check_device_success r;;
  r <- on_bus (EndI2C 0 false) (endI2C 0 false);;
  _check_device_success r.

Definition read_byte (addr byte_len : Z) : M B (list Z) :=
  r <- on_bus (StartI2C I2C_INDEX WRITE_ADDR) (startI2C I2C_INDEX WRITE_ADDR);;
  _check_device_success r;;
  r <- on_bus (WriteByteI2C I2C_INDEX addr) (writeByteI2C I2C_INDEX addr);;
  _check_device_success r;;
  r <- on_bus (EndI2C I2C_INDEX true) (endI2C I2C_INDEX true);;
  _check_device_success r;;
  read_string <- on_bus (ReadBytesI2C I2C_INDEX READ_ADDR byte_len)
                        (readBytesI2C I2C_INDEX READ_ADDR byte_len);;
  match read_string with
  | RxNG => raise (RuntimeError "Binho returned NG!")
  | RxMalformed token => raise (InvalidLiteral token)
  | RxData bytes => ret bytes
  end.

Definition status : M B status_reg :=
  l <- read_byte STATUS_ADDR 1;;
  read_string <- item l 0;;
  ret (status_decode read_string).

Definition cap_data : M B Z :=
  read_data <- read_byte CAP_DATA_H_ADDR 3;;
  cap_h <- item read_data 0;;
  cap_m <- item read_data 1;;
  cap_l <- item read_data 2;;
  ret (Z.shiftl cap_h 16 + Z.shiftl cap_m 8 + cap_l).

Definition vt_data : M B Z :=
  read_data <- read_byte CAP_DATA_H_ADDR 3;;
  vt_h <- item read_data 0;;
  vt_m <- item read_data 1;;
  vt_l <- item read_data 2;;
  ret (Z.shiftl vt_h 16 + Z.shiftl vt_m 8 + vt_l).

Definition cap_setup : M B cap_setup_reg :=
  l <- read_byte CAP_SETUP_ADDR 1;;
  read_data <- item l 0;;
  ret (cap_setup_decode read_data).

Definition set_cap_setup (val : cap_setup_reg) : M B unit :=
  write_byte CAP_SETUP_ADDR (cap_setup_encode val).

Definition vt_setup : M B vt_setup_reg :=
  l <- read_byte VT_SETUP_ADDR 1;;
  read_string <- item l 0;;
  ret (vt_setup_decode read_string).

Definition set_vt_setup (val : vt_setup_reg) : M B unit :=
  write_byte VT_SETUP_ADDR (vt_setup_encode val).

Definition exc_setup : M B exc_setup_reg :=
  l <- read_byte EXC_SETUP_ADDR 1;;
  read_string <- item l 0;;
  ret (exc_setup_decode read_string).

Definition set_exc_setup (val : exc_setup_reg) : M B unit :=
  write_byte EXC_SETUP_ADDR (exc_setup_encode val).

Definition configuration : M B configuration_reg :=
  l <- read_byte CONFIG_ADDR 3;;
  read_string <- item l 0;;
  ret (configuration_decode read_string).

Definition set_configuration (val : configuration_reg) : M B unit :=
  write_byte CONFIG_ADDR (configuration_encode val).

Definition cap_daca : M B cap_daca_reg :=
  l <- read_byte CAP_DAC_A_ADDR 1;;
  read_string <- item l 0;;
  ret (cap_daca_decode read_string).

Definition set_cap_daca (val : cap_daca_reg) : M B unit :=
  if (DACA7bit val >? 127) || (DACA7bit val <? 0)
  then raise (ValueError "DACA7bit" (DACA7bit val))
  else if DACAENA val
       then write_byte CAP_DAC_A_ADDR (Z.lor (Z.shiftl 1 7) (DACA7bit val))
       else write_byte CAP_DAC_A_ADDR (DACA7bit val).

Definition cap_dacb : M B cap_dacb_reg :=
  l <- read_byte CAP_DAC_B_ADDR 1;;
  read_string <- item l 0;;
  ret (cap_dacb_decode read_string).

Definition set_cap_dacb (val : cap_dacb_reg) : M B unit :=
  if (DACB7bit val >? 177) || (DACB7bit val <? 0)
  then raise (ValueError "DACB7bit" (DACB7bit val))
  else if DACBENB val
       then write_byte CAP_DAC_B_ADDR (Z.lor (Z.shiftl 1 7) (DACB7bit val))
       else write_byte CAP_DAC_B_ADDR (DACB7bit val).

Definition cap_offset : M B Z :=
  reg_val <- read_byte CAP_OFFSET_H_ADDR 2;;
  off_h <- item reg_val 0;;
  off_l <- item reg_val 1;;
  ret (Z.shiftl off_h 8 + off_l).

Definition set_cap_offset (val : Z) : M B unit :=
  let off_h := Z.shiftr val 8 in
  let off_l := Z.land val 0xFF in
  write_byte CAP_OFFSET_H_ADDR off_h;;
  write_byte CAP_OFFSET_L_ADDR off_l.

Definition cap_gain : M B Z :=
  reg_val <- read_byte CAP_OFFSET_H_ADDR 2;;
  grain_h <- item reg_val 0;;
  grain_l <- item reg_val 1;;
  ret (Z.shiftl grain_h 8 + grain_l).

Definition set_cap_gain (val : Z) : M B unit :=
  let grain_h := Z.shiftr val 8 in
  let grain_l := Z.land val 0xFF in
  write_byte CAP_GRAIN_H_ADDR grain_h;;
  write_byte CAP_GRAIN_L_ADDR grain_l.

Definition volt_gain : M B Z :=
  reg_val <- read_byte VOLT_GRAIN_H_ADDR 2;;
  grain_h <- item reg_val 0;;
  grain_l <- item reg_val 1;;
  ret (Z.shiftl grain_h 8 + grain_l).

(** ** Acquisition *)

(** The body of [while True:] in [get_raw_cap_val], [fuel] iterations at
    most. *)
Fixpoint poll (fuel : nat) (start_time timeout : float) : M B Z :=
  match fuel with
  | O => out_of_fuel
  | S fuel' =>
      stat_reg <- status;;
      if negb (RDYCAP stat_reg) then cap_data
      else if EXCERR stat_reg then
        led 255 0 0;;
        raise (IOError ExcitationError)
      else
        t <- now;;
        if (timeout <? t - start_time)%float then
          led 255 0 0;;
          raise (IOError SensorNotReady)
        else poll fuel' start_time timeout
  end.

Definition get_raw_cap_val (fuel : nat) (timeout : float) : M B Z :=
  c <- get_cont_conv;;
  (if negb c then
     conf <- configuration;;
     let conf :=
       {| VTFS1 := VTFS1 conf; VTFS0 := VTFS0 conf;
          CAPFS2 := CAPFS2 conf; CAPFS1 := CAPFS1 conf; CAPFS0 := CAPFS0 conf;
          MD2 := false; MD1 := true; MD0 := false |} in
     set_configuration conf
   else ret tt);;
  start_time <- now;;
  poll fuel start_time timeout.

Definition get_cap_val (fuel : nat) (timeout : float) : M B float :=
  v <- get_raw_cap_val fuel timeout;;
  ret (cap_val_to_pf v).

Definition cap_filter (filter_setting : CapFilter) : M B unit :=
  conf_val <- configuration;;
  let '(fs2, fs1, fs0) := filter_fields filter_setting in
  let conf_val :=
    {| VTFS1 := VTFS1 conf_val; VTFS0 := VTFS0 conf_val;
       CAPFS2 := fs2; CAPFS1 := fs1; CAPFS0 := fs0;
       MD2 := MD2 conf_val; MD1 := MD1 conf_val; MD0 := MD0 conf_val |} in
  set_configuration conf_val.

(** ** Calibration *)

(** The [while start <= 127:] loop of [cal_low_val]; it yields the value of
    [start] the loop is left with.  Every iteration that continues adds one
    to [start], so [128 - start] iterations always suffice and [n] is given
    that value. *)
Fixpoint scan (n : nat) (fuel : nat) (start : Z) : M B Z :=
  if start <=? 127 then
    match n with
    | O => out_of_fuel
    | S n' =>
        print_cal start;;
        set_cap_daca {| DACAENA := true; DACA7bit := start |};;
        get_raw_cap_val fuel 10;;
        v <- get_raw_cap_val fuel 10;;
        if v >? 0 then scan n' fuel (start + 1)
        else ret start
    end
  else ret start.

Definition cal_low_val (fuel : nat) (st_val : Z) : M B Z :=
  (* self.cap_daca_reg(DACAENA=True, DACA7bit=0): the value is built and
     dropped, nothing is assigned *)
  let _ := {| DACAENA := true; DACA7bit := 0 |} in
  get_raw_cap_val fuel 10;;
  get_raw_cap_val fuel 10;;
  start <- scan (Z.to_nat (128 - st_val)) fuel st_val;;
  set_cap_daca {| DACAENA := true; DACA7bit := start - 1 |};;
  get_raw_cap_val fuel 10;;
  v <- get_raw_cap_val fuel 10;;
  ok <- (if negb (v =? 0) then
           v' <- get_raw_cap_val fuel 10;;
           ret (negb (v' =? 0xFFFFFF))
         else ret false);;
  if (ok : bool) then ret start
  else
    led 255 0 0;;
    raw <- get_raw_cap_val fuel 10;;
    raise (IOError (CalibrationFailed start raw)).

End Methods.

(** ** Input selection and the remaining calibration registers *)

Inductive CapInput : Type :=
| CAP1_EXC1 | CAP2_EXC2 | CAP_DIFF_CIN1 | CAP_DIFF_CIN2.

Section MoreMethods.

Context {B : Type} `{HostAdapter B}.

Definition set_volt_gain (val : Z) : M B unit :=
  let grain_h := Z.shiftr val 8 in
  let grain_l := Z.land val 0xFF in
  write_byte VOLT_GRAIN_H_ADDR grain_h;;
  write_byte VOLT_GRAIN_L_ADDR grain_l.

(** [conf_val.MD0 = True; conf_val.MD1 = False; conf_val.MD2 = False] and
    [conf_val.MD0 = False; conf_val.MD1 = True; conf_val.MD2 = False] *)
Definition mode_continuous (conf_val : configuration_reg) : configuration_reg :=
  {| VTFS1 := VTFS1 conf_val; VTFS0 := VTFS0 conf_val;
     CAPFS2 := CAPFS2 conf_val; CAPFS1 := CAPFS1 conf_val;
     CAPFS0 := CAPFS0 conf_val;
     MD2 := false; MD1 := false; MD0 := true |}.

Definition mode_single (conf_val : configuration_reg) : configuration_reg :=
  {| VTFS1 := VTFS1 conf_val; VTFS0 := VTFS0 conf_val;
     CAPFS2 := CAPFS2 conf_val; CAPFS1 := CAPFS1 conf_val;
     CAPFS0 := CAPFS0 conf_val;
     MD2 := false; MD1 := true; MD0 := false |}.

(** The final [else: raise ValueError] of [cap_input] is for a value that
    is no member of [CapInput]; the type leaves it out. *)
Definition cap_input (input_setting : CapInput) : M B unit :=
  conf_val <- configuration;;
  match input_setting with
  | CAP1_EXC1 =>
      set_cap_setup
        {| CAPEN := true; CIN2 := false; CAPDIFF := false; CAPCHOP := false |};;
      set_exc_setup
        {| CLKCTRL := false; EXCON := false; EXCB := false; UEXCB := false;
           EXCA := true; UEXCA := false; EXCLVL1 := true; EXCLVL0 := true |};;
      set_configuration (mode_continuous conf_val)
  | CAP2_EXC2 =>
      set_cap_setup
        {| CAPEN := true; CIN2 := true; CAPDIFF := false; CAPCHOP := false |};;
      set_exc_setup
        {| CLKCTRL := false; EXCON := false; EXCB := true; UEXCB := false;
           EXCA := false; UEXCA := false; EXCLVL1 := true; EXCLVL0 := true |};;
      set_configuration (mode_continuous conf_val)
  | CAP_DIFF_CIN1 =>
      set_cap_setup
        {| CAPEN := true; CIN2 := false; CAPDIFF := false; CAPCHOP := false |};;
      set_exc_setup
        {| CLKCTRL := false; EXCON := false; EXCB := false; UEXCB := true;
           EXCA := true; UEXCA := false; EXCLVL1 := true; EXCLVL0 := true |};;
      set_configuration (mode_continuous conf_val)
  | CAP_DIFF_CIN2 =>
      set_cap_setup
        {| CAPEN := true; CIN2 := true; CAPDIFF := false; CAPCHOP := false |};;
      set_exc_setup
        {| CLKCTRL := false; EXCON := false; EXCB := false; UEXCB := true;
           EXCA := true; UEXCA := false; EXCLVL1 := true; EXCLVL0 := true |};;
      c <- get_cont_conv;;
      set_configuration (if c then mode_continuous conf_val
                         else mode_single conf_val)
  end.

(** The size of the DAC step computed from a gain register value:
    [f_gain_cal = (2**16 + gain) / 2**16], [c_ref = 4.096 * f_gain_cal],
    [c_dac_range = c_ref * 3.2], [c_dac_lsb = c_dac_range / 127].  The
    first quotient is Python's division of two integers, which is the
    binary64 quotient of their conversions while both are below 2^53 in
    magnitude, as two register bytes are. *)
Definition dac_lsb_of_gain (gain : Z) : float :=
  let f_gain_cal := (float_of_int (2 ^ 16 + gain) / float_of_int (2 ^ 16))%float in
  let c_ref := (4.096 * f_gain_cal)%float in
  let c_dac_range := (c_ref * 3.2)%float in
  (c_dac_range / float_of_int 127)%float.

(** The property [cap_dac_lsb].  The attribute [_cap_dac_lsb] it fills on
    first use is passed in and handed back with the result. *)
Definition cap_dac_lsb (_cap_dac_lsb : option float) : M B (float * option float) :=
  match _cap_dac_lsb with
  | None =>
      gain <- cap_gain;;
      let c_dac_lsb := dac_lsb_of_gain gain in
      ret (c_dac_lsb, Some c_dac_lsb)
  | Some c_dac_lsb => ret (c_dac_lsb, Some c_dac_lsb)
  end.

End MoreMethods.

(** ** Construction *)

(** The adapter calls that set the adapter up: [__init__] makes all three,
    [set_clock] the last.  They are threaded through the adapter's state
    like the others; the call log keeps the bus transactions and the
    indicator, not these. *)
Class HostSetup (B : Type) : Type := {
  setOperationMode : Z -> string -> B -> string * B;
  setPullUpStateI2C : Z -> string -> B -> string * B;
  setClockI2C : Z -> Z -> B -> string * B
}.

Section Construction.

Context {B : Type} `{HostAdapter B} `{HostSetup B}.

(** An adapter call outside the log. *)
Definition on_adapter {A} (f : B -> A * B) : M B A :=
  fun d =>
    let (a, b') := f (i2cbus d) in
    (Return a,
     {| i2cbus := b'; cont_conv := cont_conv d;
        calls := calls d; console := console d |}).

Definition set_clock (freq : Z) : M B unit :=
  if negb ((0 <=? freq) && (freq <=? 400000))
  then raise (ValueError "Frequency" freq)
  else
    r <- on_adapter (setClockI2C I2C_INDEX freq);;
    _check_device_success r.

(** [__init__], from an adapter [binho]; the replies of the first two
    calls are dropped. *)
Definition __init__ (binho : B) : outcome unit * driver B :=
  (on_adapter (setOperationMode I2C_INDEX "I2C");;
   on_adapter (setPullUpStateI2C 0 "EN");;
   set_clock 400000;;
   (fun d => (Return tt,
              {| i2cbus := i2cbus d; cont_conv := true;
                 calls := calls d; console := console d |}));;
   set_vt_setup
     {| VTEN := false; VTMD1 := false; VTMD0 := false;
        EXTREF := false; VTSHORT := false; VTCHOP := false |};;
   set_configuration
     {| VTFS1 := true; VTFS0 := true;
        CAPFS2 := true; CAPFS1 := true; CAPFS0 := true;
        MD2 := false; MD1 := false; MD0 := false |})
  {| i2cbus := binho; cont_conv := false; calls := []; console := [] |}.

End Construction.

End AD7745.

Import AD7745.

(** ** A simulated device behind the adapter

    A register file with the chip's address pointer.  The status register
    and the capacitance data registers are not stored: the status byte is a
    function of how many times the status was read before, the conversion
    result a function of the code in DAC A and of how many results were
    read before.  The wall clock advances by a fixed step at every query. *)

Module Sim.

Record behaviour : Type := {
  status_byte : nat -> Z;
  cap_sample : Z -> nat -> Z;
  tick : float
}.

Inductive phase : Type := Idle | Pointer | Data.

Record device : Type := {
  model : behaviour;
  regs : Z -> Z;
  pointer : Z;
  stage : phase;
  polls : nat;
  samples : nat;
  clock : float;
  lamp : option (Z * Z * Z)
}.

Definition upd (f : Z -> Z) (a v : Z) : Z -> Z :=
  fun x => if x =? a then v else f x.

(** The code held in DAC A. *)
Definition dac_code (s : device) : Z :=
  Z.land (regs s CAP_DAC_A_ADDR) CAP_DAC_A_DACA7bit.

(** The 24-bit conversion result the data registers hold. *)
Definition sample (s : device) : Z :=
  cap_sample (model s) (dac_code s) (samples s) mod 0x1000000.

Definition read_reg (s : device) (a : Z) : Z :=
  if a =? STATUS_ADDR then status_byte (model s) (polls s)
  else if a =? CAP_DATA_H_ADDR then (sample s / 0x10000) mod 0x100
  else if a =? CAP_DATA_M_ADDR then (sample s / 0x100) mod 0x100
  else if a =? CAP_DATA_L_ADDR then sample s mod 0x100
  else regs s a.

Definition covers (p n a : Z) : bool := (p <=? a) && (a <? p + n).

Definition start (index addr : Z) (s : device) : string * device :=
  if addr =? WRITE_ADDR then
    ("-OK",
     {| model := model s; regs := regs s; pointer := pointer s;
        stage := Pointer; polls := polls s; samples := samples s;
        clock := clock s; lamp := lamp s |})
  else ("-NG", s).

Definition write (index byte : Z) (s : device) : string * device :=
  match stage s with
  | Idle => ("-NG", s)
  | Pointer =>
      ("-OK",
       {| model := model s; regs := regs s; pointer := byte;
          stage := Data; polls := polls s; samples := samples s;
          clock := clock s; lamp := lamp s |})
  | Data =>
      ("-OK",
       {| model := model s; regs := upd (regs s) (pointer s) byte;
          pointer := pointer s + 1;
          stage := Data; polls := polls s; samples := samples s;
          clock := clock s; lamp := lamp s |})
  end.

Definition stop (index : Z) (repeat : bool) (s : device) : string * device :=
  ("-OK",
   {| model := model s; regs := regs s; pointer := pointer s;
      stage := Idle; polls := polls s; samples := samples s;
      clock := clock s; lamp := lamp s |}).

Definition read (index addr len : Z) (s : device) : rx * device :=
  if addr =? READ_ADDR then
    (RxData (map (fun i => read_reg s (pointer s + Z.of_nat i))
                 (seq 0 (Z.to_nat len))),
     {| model := model s; regs := regs s; pointer := pointer s + len;
        stage := stage s;
        polls := if covers (pointer s) len STATUS_ADDR
                 then S (polls s) else polls s;
        samples := if covers (pointer s) len CAP_DATA_H_ADDR
                   then S (samples s) else samples s;
        clock := clock s; lamp := lamp s |})
  else (RxNG, s).

Definition light (r g b : Z) (s : device) : device :=
  {| model := model s; regs := regs s; pointer := pointer s;
     stage := stage s; polls := polls s; samples := samples s;
     clock := clock s; lamp := Some (r, g, b) |}.

Definition wall_clock (s : device) : float * device :=
  (clock s,
   {| model := model s; regs := regs s; pointer := pointer s;
      stage := stage s; polls := polls s; samples := samples s;
      clock := (clock s + tick (model s))%float; lamp := lamp s |}).

#[export] Instance adapter : HostAdapter device := {
  startI2C := start;
  writeByteI2C := write;
  endI2C := stop;
  readBytesI2C := read;
  setLEDRGB := light;
  time_time := wall_clock
}.

(** A driver on a device with the given behaviour and register contents,
    before any call.  [__init__] sets [cont_conv] to [True]; the attribute
    is public, and [cont] is the value it holds when the first call is
    made. *)
Definition boot (b : behaviour) (r : Z -> Z) (cont : bool) : driver device :=
  {| i2cbus := {| model := b; regs := r; pointer := 0; stage := Idle;
                  polls := 0; samples := 0; clock := 0; lamp := None |};
     cont_conv := cont; calls := []; console := [] |}.

End Sim.

Import Sim.

(** ** Running the driver on the simulated device *)

(** Every status read reports capacitance data ready (RDYCAP clear). *)
Definition always_ready (b : behaviour) : Prop :=
  forall n, RDYCAP (status_decode (status_byte b n)) = false.

(** The device after [write_byte a v]. *)
Definition poke (a v : Z) (s : device) : device :=
  {| model := model s; regs := upd (regs s) a v; pointer := a + 1;
     stage := Idle; polls := polls s; samples := samples s;
     clock := clock s; lamp := lamp s |}.

(** What [read_byte a n] yields, and the device after it. *)
Definition peek (a n : Z) (s : device) : list Z :=
  map (fun i => read_reg s (a + Z.of_nat i)) (seq 0 (Z.to_nat n)).

Definition fetch (a n : Z) (s : device) : device :=
  {| model := model s; regs := regs s; pointer := a + n;
     stage := Idle;
     polls := if covers a n STATUS_ADDR then S (polls s) else polls s;
     samples := if covers a n CAP_DATA_H_ADDR then S (samples s) else samples s;
     clock := clock s; lamp := lamp s |}.

(** The adapter calls of one [write_byte] and of one [read_byte]. *)
Definition write_calls (a v : Z) : list call :=
  [StartI2C 0 0x90; WriteByteI2C 0 a; WriteByteI2C 0 v; EndI2C 0 false].

Definition read_calls (a n : Z) : list call :=
  [StartI2C 0 0x90; WriteByteI2C 0 a; EndI2C 0 true; ReadBytesI2C 0 0x91 n].

(** The driver after its device went through [f] with the calls [l]. *)
Definition on (f : device -> device) (l : list call) (d : driver device) :
  driver device :=
  {| i2cbus := f (i2cbus d); cont_conv := cont_conv d;
     calls := calls d ++ l; console := console d |}.

(** What one acquisition does to a device that reports data ready: the
    clock is queried, the status is read once, the data registers once. *)
Definition acquire (s : device) : device :=
  fetch CAP_DATA_H_ADDR 3 (fetch STATUS_ADDR 1 (snd (wall_clock s))).

Definition acquire_calls : list call :=
  read_calls STATUS_ADDR 1 ++ read_calls CAP_DATA_H_ADDR 3.

(** The conversion result that the read number [i] from now on (counted
    from 0) yields if DAC A holds [code] then. *)
Definition nth_sample (s : device) (code : Z) (i : nat) : Z :=
  cap_sample (model s) code (samples s + i) mod 0x1000000.

(** One step of the calibration on a ready device: DAC A is set to [c]
    with the enable bit, one result is thrown away, the next is read. *)
Definition probe (c : Z) (s : device) : device :=
  acquire (acquire
    (poke CAP_DAC_A_ADDR
       (cap_daca_encode {| DACAENA := true; DACA7bit := c |}) s)).

Definition probed (c : Z) (d : driver device) : driver device :=
  on acquire acquire_calls
    (on acquire acquire_calls
       (on (poke CAP_DAC_A_ADDR
              (cap_daca_encode {| DACAENA := true; DACA7bit := c |}))
           (write_calls CAP_DAC_A_ADDR
              (cap_daca_encode {| DACAENA := true; DACA7bit := c |}))
           d)).

Definition printed (st : Z) (d : driver device) : driver device :=
  {| i2cbus := i2cbus d; cont_conv := cont_conv d;
     calls := calls d; console := console d ++ [st] |}.

(** The byte [cap_filter] writes back when it has read [byte]. *)
Definition refiltered (f : CapFilter) (byte : Z) : Z :=
  let conf_val := configuration_decode byte in
  let '(fs2, fs1, fs0) := filter_fields f in
  configuration_encode
    {| VTFS1 := VTFS1 conf_val; VTFS0 := VTFS0 conf_val;
       CAPFS2 := fs2; CAPFS1 := fs1; CAPFS0 := fs0;
       MD2 := MD2 conf_val; MD1 := MD1 conf_val; MD0 := MD0 conf_val |}.

(** The byte the start of a single-shot acquisition writes back when it
    has read [byte]. *)
Definition single_shot (byte : Z) : Z :=
  let conf := configuration_decode byte in
  configuration_encode
    {| VTFS1 := VTFS1 conf; VTFS0 := VTFS0 conf;
       CAPFS2 := CAPFS2 conf; CAPFS1 := CAPFS1 conf; CAPFS0 := CAPFS0 conf;
       MD2 := false; MD1 := true; MD0 := false |}.

(** The three capacitance-filter bits and the three mode bits of the
    configuration byte, and the filter bits a setting stands for. *)
Definition CAPFS_MASK : Z := Z.lor CONFIG_CAPFS2 (Z.lor CONFIG_CAPFS1 CONFIG_CAPFS0).

Definition MD_MASK : Z := Z.lor CONFIG_MD2 (Z.lor CONFIG_MD1 CONFIG_MD0).

Definition filter_bits (f : CapFilter) : Z :=
  let '(fs2, fs1, fs0) := filter_fields f in
  add_if fs2 CONFIG_CAPFS2 (add_if fs1 CONFIG_CAPFS1 (add_if fs0 CONFIG_CAPFS0 0)).

(** *** The conversion on primitive integers

    [pf63] is [cap_val_to_pf] on a 63-bit machine integer; properties of
    every 24-bit count are checked by running it over the whole range. *)
Definition pf63 (i : int) : float :=
  (of_uint63 i * (4.096 / of_uint63 8388608))%float.

Fixpoint all_from (n : nat) (P : int -> bool) (i : int) : bool :=
  match n with
  | O => true
  | S n' => if P i then all_from n' P (i + 1)%uint63 else false
  end.

Fixpoint all_blocks (m n : nat) (P : int -> bool) (i : int) : bool :=
  match m with
  | O => true
  | S m' =>
      if all_from n P i
      then all_blocks m' n P (i + of_Z (Z.of_nat n))%uint63
      else false
  end.

Definition rises (i : int) : bool := (pf63 i <? pf63 (i + 1)%uint63)%float.

Definition doubles (i : int) : bool :=
  (pf63 (2 * i)%uint63 =? 2 * pf63 i)%float.

(** ** What reaches the adapter *)

(** A call on bus index 0, to the chip's write address 0x90 or its read
    address 0x91, or the red indicator. *)
Definition addressed (c : call) : Prop :=
  match c with
  | StartI2C i a => i = 0 /\ a = 0x90
  | WriteByteI2C i _ => i = 0
  | EndI2C i _ => i = 0
  | ReadBytesI2C i a _ => i = 0 /\ a = 0x91
  | SetLEDRGB r g b => r = 255 /\ g = 0 /\ b = 0
  end.

(** A call that is no end of a write transaction: [write_byte] closes with
    [endI2C(0, False)], [read_byte] with [endI2C(0, True)]. *)
Definition no_write (c : call) : Prop :=
  match c with
  | EndI2C _ repeat => repeat = true
  | _ => True
  end.

(** [m] leaves [cont_conv] alone and extends the call log by calls that
    all satisfy [P]. *)
Definition emits {B A} (P : call -> Prop) (m : M B A) : Prop :=
  forall d,
    cont_conv (snd (m d)) = cont_conv d /\
    exists l, calls (snd (m d)) = calls d ++ l /\ Forall P l.

Definition chip_read (c : call) : Prop := addressed c /\ no_write c.

(** The two errors [_check_device_success] raises. *)
Definition refused {A} (o : outcome A) : Prop :=
  o = Raise (RuntimeError "Binho returned NG!") \/
  o = Raise (RuntimeError "Binho returned Unknown command!").

(** The byte [cap_input] writes to the configuration register when it has
    read [byte]: the mode bits become continuous conversion, or single
    conversion for the differential CIN2 setting with [cont_conv] off. *)
Definition remoded (single : bool) (byte : Z) : Z :=
  configuration_encode
    (if single then mode_single (configuration_decode byte)
     else mode_continuous (configuration_decode byte)).

(** The capacitance-setup and excitation-setup bytes of each input
    setting, as the datasheet numbers the bits. *)
Definition input_cap_setup (i : CapInput) : Z :=
  match i with
  | CAP1_EXC1 | CAP_DIFF_CIN1 => 0x80
  | CAP2_EXC2 | CAP_DIFF_CIN2 => 0xC0
  end.

Definition input_exc_setup (i : CapInput) : Z :=
  match i with
  | CAP1_EXC1 => 0x0B
  | CAP2_EXC2 => 0x23
  | CAP_DIFF_CIN1 | CAP_DIFF_CIN2 => 0x1B
  end.

Definition input_single (i : CapInput) (cont : bool) : bool :=
  match i with
  | CAP_DIFF_CIN2 => negb cont
  | _ => false
  end.

(** Equality of two DAC B values, as a test. *)
Definition dacb_eqb (x y : cap_dacb_reg) : bool :=
  Bool.eqb (DACBENB x) (DACBENB y) && (DACB7bit x =? DACB7bit y).

(** *** Polling

    One pass of the polling loop that goes round again reads the status
    and then the clock.  [waiting] says that the pass made in state [s]
    goes round: no data ready, no fault, and the time elapsed since
    [start_time] not above [timeout]. *)
Definition wait (s : device) : device :=
  snd (wall_clock (fetch STATUS_ADDR 1 s)).

Fixpoint waited (n : nat) (s : device) : device :=
  match n with
  | O => s
  | S n' => waited n' (wait s)
  end.

Definition waiting (start_time timeout : float) (s : device) : Prop :=
  RDYCAP (status_decode (status_byte (model s) (polls s))) = true /\
  EXCERR (status_decode (status_byte (model s) (polls s))) = false /\
  (timeout <? clock s - start_time)%float = false.

(** The calls of [n] status reads. *)
Definition status_reads (n : nat) : list call :=
  List.concat (repeat (read_calls STATUS_ADDR 1) n).

(** [dac_lsb_of_gain] on a 63-bit machine integer, and the test that it
    rises from one gain value to the next. *)
Definition lsb63 (i : int) : float :=
  ((4.096 * (of_uint63 (65536 + i)%uint63 / of_uint63 65536) * 3.2)
   / of_uint63 127)%float.

Definition lsb_rises (i : int) : bool := (lsb63 i <? lsb63 (i + 1)%uint63)%float.

(** [d'] comes after [d] on the same device and in the same conversion
    mode, [k] conversion results further on, with the indicator and DAC A
    as they were. *)
Definition follows (k : nat) (d d' : driver device) : Prop :=
  model (i2cbus d') = model (i2cbus d) /\
  cont_conv d' = cont_conv d /\
  samples (i2cbus d') = (samples (i2cbus d) + k)%nat /\
  lamp (i2cbus d') = lamp (i2cbus d) /\
  regs (i2cbus d') CAP_DAC_A_ADDR = regs (i2cbus d) CAP_DAC_A_ADDR.

(** *** Devices used as concrete inputs *)

(** Data always ready, no fault; readings nonzero for codes 0..49 and zero
    from code 50 on. *)
Definition readings_50 : behaviour :=
  {| status_byte := fun _ => 0x00;
     cap_sample := fun code _ => if code <? 50 then 0x400000 else 0;
     tick := 1 |}.

(** Data always ready, no fault; the reading never reaches zero. *)
Definition steady : behaviour :=
  {| status_byte := fun _ => 0x00;
     cap_sample := fun _ _ => 1;
     tick := 1 |}.

(** Data always ready, no fault; every reading is full scale. *)
Definition saturated : behaviour :=
  {| status_byte := fun _ => 0x00;
     cap_sample := fun _ _ => 0xFFFFFF;
     tick := 1 |}.

(** Every status read reports the excitation fault, with data ready
    (EXCERR set, RDYCAP clear): status byte 0x08. *)
Definition fault_with_data : behaviour :=
  {| status_byte := fun _ => 0x08;
     cap_sample := fun _ _ => 0x00ABCD;
     tick := 1 |}.

(** Every status read reports the excitation fault and no data ready
    (EXCERR and RDYCAP set): status byte 0x09. *)
Definition fault_no_data : behaviour :=
  {| status_byte := fun _ => 0x09;
     cap_sample := fun _ _ => 0x00ABCD;
     tick := 1 |}.

(** Register contents: every register holds its own address; every
    register holds zero; the configuration register holds 0xA1. *)
Definition own_address : Z -> Z := fun a => a.

Definition zeroed : Z -> Z := fun _ => 0.

Definition config_a1 : Z -> Z :=
  fun a => if a =? CONFIG_ADDR then 0xA1 else 0.

(** No data ready and no fault, ever; three seconds pass per clock query. *)
Definition never_ready : behaviour :=
  {| status_byte := fun _ => 0x01;
     cap_sample := fun _ _ => 0;
     tick := 3 |}.

(** No data ready on the first two status reads, ready from the third. *)
Definition slow_start : behaviour :=
  {| status_byte := fun n => if (n <? 2)%nat then 0x01 else 0x00;
     cap_sample := fun _ _ => 0x123456;
     tick := 1 |}.

(** Data always ready, no fault; every reading is zero. *)
Definition all_zero : behaviour :=
  {| status_byte := fun _ => 0x00;
     cap_sample := fun _ _ => 0;
     tick := 1 |}.

(** The simulated adapter accepts the three set-up calls; [clock_reply] is
    what it answers to [setClockI2C]. *)
Definition accepting (clock_reply : string) : HostSetup device :=
  {| setOperationMode := fun _ _ s => ("-OK", s);
     setPullUpStateI2C := fun _ _ s => ("-OK", s);
     setClockI2C := fun _ _ s => (clock_reply, s) |}.

(** A simulated device before any call. *)
Definition fresh (b : behaviour) (r : Z -> Z) : device :=
  {| model := b; regs := r; pointer := 0; stage := Idle;
     polls := 0; samples := 0; clock := 0; lamp := None |}.

(** An adapter that accepts every call and answers every read with a
    line that holds a piece that is no number, such as
    [-I2C0 RXD 0x12 zz]. *)
Definition garbled : HostAdapter unit :=
  {| startI2C := fun _ _ b => ("-OK", b);
     writeByteI2C := fun _ _ b => ("-OK", b);
     endI2C := fun _ _ b => ("-OK", b);
     readBytesI2C := fun _ _ _ b => (RxMalformed "zz", b);
     setLEDRGB := fun _ _ _ b => b;
     time_time := fun b => (0%float, b) |}.

(** ** Stepping through the monad *)

Lemma bind_run {B A C} (m : M B A) (k : A -> M B C) d a d' :
  m d = (Return a, d') -> bind m k d = k a d'.
Proof. intros E. unfold bind. rewrite E. reflexivity. Qed.

Ltac run_by tac := erewrite bind_run; [ | solve [ tac ] ].
Ltac run := run_by ltac:(reflexivity).

(** ** The bus transactions on the simulated device *)

Lemma sim_write_byte (a v : Z) (d : driver device) :
  write_byte a v d = (Return tt, on (poke a v) (write_calls a v) d).
Proof.
  destruct d as [s c l o]. unfold write_byte, bind, on_bus, on. cbn.
  rewrite <- !app_assoc. reflexivity.
Qed.

Lemma sim_read_byte (a n : Z) (d : driver device) :
  read_byte a n d = (Return (peek a n (i2cbus d)), on (fetch a n) (read_calls a n) d).
Proof.
  destruct d as [s c l o]. unfold read_byte, bind, on_bus, on. cbn.
  rewrite <- !app_assoc. reflexivity.
Qed.

Lemma be24_join (v : Z) :
  0 <= v < 0x1000000 ->
  Z.shiftl ((v / 0x10000) mod 0x100) 16 + Z.shiftl ((v / 0x100) mod 0x100) 8 + v mod 0x100 = v.
Proof.
  intros Hv. rewrite !Z.shiftl_mul_pow2 by lia.
  change (2 ^ 16) with 65536. change (2 ^ 8) with 256.
  pose proof (Z.div_mod v 256 ltac:(lia)).
  pose proof (Z.div_mod (v / 256) 256 ltac:(lia)).
  pose proof (Z.mod_pos_bound v 256 ltac:(lia)).
  pose proof (Z.mod_pos_bound (v / 256) 256 ltac:(lia)).
  assert (v / 65536 = v / 256 / 256) by (rewrite Z.div_div by lia; reflexivity).
  assert ((v / 65536) mod 256 = v / 65536).
  { apply Z.mod_small. split. apply Z.div_pos; lia. apply Z.div_lt_upper_bound; lia. }
  lia.
Qed.

Lemma sample_range (s : device) : 0 <= sample s < 0x1000000.
Proof. unfold sample. apply Z.mod_pos_bound. lia. Qed.

Lemma peek_cap_data (s : device) :
  peek CAP_DATA_H_ADDR 3 s =
  [(sample s / 0x10000) mod 0x100; (sample s / 0x100) mod 0x100; sample s mod 0x100].
Proof. reflexivity. Qed.

Lemma peek_status (s : device) :
  peek STATUS_ADDR 1 s = [status_byte (model s) (polls s)].
Proof. reflexivity. Qed.

Lemma sim_cap_data (d : driver device) :
  cap_data d =
  (Return (sample (i2cbus d)),
   on (fetch CAP_DATA_H_ADDR 3) (read_calls CAP_DATA_H_ADDR 3) d).
Proof.
  unfold cap_data, bind. rewrite sim_read_byte, peek_cap_data.
  unfold item, nth_error, ret.
  rewrite be24_join by apply sample_range. reflexivity.
Qed.

Lemma sim_status (d : driver device) :
  status d =
  (Return (status_decode (status_byte (model (i2cbus d)) (polls (i2cbus d)))),
   on (fetch STATUS_ADDR 1) (read_calls STATUS_ADDR 1) d).
Proof.
  unfold status, bind. rewrite sim_read_byte, peek_status. reflexivity.
Qed.

Lemma on_on f g l k (d : driver device) :
  on g k (on f l d) = on (fun s => g (f s)) (l ++ k) d.
Proof. unfold on. cbn. rewrite app_assoc. reflexivity. Qed.

Lemma sim_now (d : driver device) :
  now d = (Return (clock (i2cbus d)), on (fun s => snd (wall_clock s)) [] d).
Proof. unfold now, on. cbn. rewrite app_nil_r. reflexivity. Qed.

Lemma sim_get_raw_ready (fuel : nat) (timeout : float) (d : driver device) :
  always_ready (model (i2cbus d)) ->
  cont_conv d = true ->
  get_raw_cap_val (S fuel) timeout d =
  (Return (sample (i2cbus d)), on acquire acquire_calls d).
Proof.
  intros Hr Hc. unfold get_raw_cap_val.
  run_by ltac:(unfold get_cont_conv; rewrite Hc; reflexivity).
  cbn [negb]. run. run_by ltac:(apply sim_now).
  cbn [poll]. run_by ltac:(apply sim_status).
  cbn [on i2cbus model polls snd wall_clock]. rewrite Hr. cbn [negb].
  rewrite sim_cap_data, on_on, on_on. reflexivity.
Qed.

(** ** The DAC A register *)

Lemma daca_in_range (c : Z) : 0 <= c <= 127 -> (c >? 127) || (c <? 0) = false.
Proof.
  intros Hc. apply orb_false_iff. split.
  - rewrite Z.gtb_ltb. apply Z.ltb_ge. lia.
  - apply Z.ltb_ge. lia.
Qed.

Lemma sim_set_cap_daca (e : bool) (c : Z) (d : driver device) :
  0 <= c <= 127 ->
  set_cap_daca {| DACAENA := e; DACA7bit := c |} d =
  (Return tt,
   on (poke CAP_DAC_A_ADDR (cap_daca_encode {| DACAENA := e; DACA7bit := c |}))
      (write_calls CAP_DAC_A_ADDR (cap_daca_encode {| DACAENA := e; DACA7bit := c |})) d).
Proof.
  intros Hc. unfold set_cap_daca, cap_daca_encode. cbn [DACA7bit DACAENA].
  rewrite daca_in_range by assumption.
  destruct e; apply sim_write_byte.
Qed.

(** Checking a property of every integer below a bound by evaluation. *)
Lemma forall_below (P : Z -> bool) (n : nat) :
  forallb P (map Z.of_nat (seq 0 n)) = true ->
  forall z, 0 <= z < Z.of_nat n -> P z = true.
Proof.
  intros Hall z Hz. rewrite forallb_forall in Hall. apply Hall.
  apply in_map_iff. exists (Z.to_nat z). split; [lia|].
  apply in_seq. lia.
Qed.

Lemma daca_code_back (e : bool) (c : Z) :
  0 <= c <= 127 ->
  Z.land (cap_daca_encode {| DACAENA := e; DACA7bit := c |}) CAP_DAC_A_DACA7bit = c.
Proof.
  intros Hc.
  assert (Hall : forall z, 0 <= z < Z.of_nat 128 ->
            (Z.land (cap_daca_encode {| DACAENA := e; DACA7bit := z |}) CAP_DAC_A_DACA7bit =? z) = true).
  { apply forall_below. destruct e; vm_compute; reflexivity. }
  apply Z.eqb_eq, Hall. lia.
Qed.

Lemma daca_enable_back (e : bool) (c : Z) :
  0 <= c <= 127 ->
  flag (cap_daca_encode {| DACAENA := e; DACA7bit := c |}) CAP_DAC_A_DACAENA = e.
Proof.
  intros Hc.
  assert (Hall : forall z, 0 <= z < Z.of_nat 128 ->
            Bool.eqb (flag (cap_daca_encode {| DACAENA := e; DACA7bit := z |}) CAP_DAC_A_DACAENA) e = true).
  { apply forall_below. destruct e; vm_compute; reflexivity. }
  apply Bool.eqb_prop, Hall. lia.
Qed.

(** ** The calibration scan on a ready device *)

Lemma nth_sample_range s code i : 0 <= nth_sample s code i < 0x1000000.
Proof. unfold nth_sample. apply Z.mod_pos_bound. lia. Qed.

Lemma probe_model c s : model (probe c s) = model s.
Proof. reflexivity. Qed.

Lemma probe_samples c s : samples (probe c s) = S (S (samples s)).
Proof. reflexivity. Qed.

Lemma probe_code c s : 0 <= c <= 127 -> dac_code (probe c s) = c.
Proof. intros Hc. apply (daca_code_back true c Hc). Qed.

Lemma sample_probed (c : Z) (d : driver device) :
  0 <= c <= 127 ->
  sample (i2cbus (on acquire acquire_calls
    (on (poke CAP_DAC_A_ADDR (cap_daca_encode {| DACAENA := true; DACA7bit := c |}))
        (write_calls CAP_DAC_A_ADDR (cap_daca_encode {| DACAENA := true; DACA7bit := c |})) d)))
  = nth_sample (i2cbus d) c 1.
Proof.
  intros Hrange. unfold sample, nth_sample. cbn [on i2cbus]. f_equal. f_equal.
  - apply (daca_code_back true c Hrange).
  - cbn. lia.
Qed.

Lemma sim_probe {C} (fuel : nat) (c : Z) (k : Z -> M device C) (d : driver device) :
  always_ready (model (i2cbus d)) ->
  cont_conv d = true ->
  0 <= c <= 127 ->
  (set_cap_daca {| DACAENA := true; DACA7bit := c |};;
   get_raw_cap_val (S fuel) 10;;
   v <- get_raw_cap_val (S fuel) 10;;
   k v) d = k (nth_sample (i2cbus d) c 1) (probed c d).
Proof.
  intros Hr Hc Hrange.
  run_by ltac:(apply sim_set_cap_daca; assumption).
  run_by ltac:(apply sim_get_raw_ready; assumption).
  run_by ltac:(apply sim_get_raw_ready; assumption).
  rewrite sample_probed by assumption. reflexivity.
Qed.

Lemma scan_unfold {B} `{HostAdapter B} (n fuel : nat) (start : Z) :
  scan n fuel start =
  if start <=? 127 then
    match n with
    | O => out_of_fuel
    | S n' =>
        print_cal start;;
        set_cap_daca {| DACAENA := true; DACA7bit := start |};;
        get_raw_cap_val fuel 10;;
        v <- get_raw_cap_val fuel 10;;
        if v >? 0 then scan n' fuel (start + 1)
        else ret start
    end
  else ret start.
Proof. destruct n; reflexivity. Qed.

Lemma sim_print_cal (st : Z) (d : driver device) :
  print_cal st d = (Return tt, printed st d).
Proof. reflexivity. Qed.

Lemma nth_sample_probed (c code : Z) (i : nat) (d : driver device) :
  nth_sample (i2cbus (probed c (printed c d))) code i =
  nth_sample (i2cbus d) code (2 + i).
Proof.
  unfold nth_sample.
  change (model (i2cbus (probed c (printed c d)))) with (model (i2cbus d)).
  change (samples (i2cbus (probed c (printed c d))))
    with (S (S (samples (i2cbus d)))).
  f_equal. f_equal. lia.
Qed.

Lemma sim_scan (fuel : nat) :
  forall (n : nat) (st stop : Z) (d : driver device),
    always_ready (model (i2cbus d)) ->
    cont_conv d = true ->
    0 <= st <= stop -> stop <= 128 -> 128 - st <= Z.of_nat n ->
    (forall c, st <= c < stop ->
       nth_sample (i2cbus d) c (1 + 2 * Z.to_nat (c - st)) <> 0) ->
    (stop <= 127 ->
       nth_sample (i2cbus d) stop (1 + 2 * Z.to_nat (stop - st)) = 0) ->
    exists d',
      scan n (S fuel) st d = (Return stop, d') /\
      model (i2cbus d') = model (i2cbus d) /\
      cont_conv d' = true /\
      lamp (i2cbus d') = lamp (i2cbus d) /\
      samples (i2cbus d') =
        (samples (i2cbus d) + 2 * Z.to_nat (Z.min stop 127 - st + 1))%nat.
Proof.
  induction n as [|n IH]; intros st stop d Hr Hc Hst Hstop Hn Hnz Hz;
    rewrite scan_unfold.
  - assert (st = 128) by lia. assert (stop = 128) by lia. subst.
    exists d. repeat split; auto; cbn; lia.
  - destruct (Z.leb_spec st 127) as [Hle|Hgt].
    + cbv iota. run_by ltac:(apply sim_print_cal).
      rewrite sim_probe by (auto; lia).
      cbn [printed i2cbus].
      destruct (Z.eq_dec st stop) as [->|Hne].
      * replace (1 + 2 * Z.to_nat (stop - stop))%nat with 1%nat in Hz by lia.
        rewrite Hz by lia. cbn [Z.gtb Z.compare].
        eexists. split; [reflexivity|]. repeat split; auto.
        cbn. lia.
      * pose proof (Hnz st ltac:(lia)) as Hv.
        replace (1 + 2 * Z.to_nat (st - st))%nat with 1%nat in Hv by lia.
        pose proof (nth_sample_range (i2cbus d) st 1) as Hrg.
        assert (Hgt : (nth_sample (i2cbus d) st 1 >? 0) = true)
          by (rewrite Z.gtb_ltb; apply Z.ltb_lt; lia).
        rewrite Hgt.
        destruct (IH (st + 1) stop (probed st (printed st d))) as (d' & Erun & Hm & Hc' & Hl & Hs);
          auto; try lia.
        -- intros c Hcr. rewrite nth_sample_probed.
           replace (2 + (1 + 2 * Z.to_nat (c - (st + 1))))%nat
             with (1 + 2 * Z.to_nat (c - st))%nat by lia.
           apply Hnz. lia.
        -- intros Hs127. rewrite nth_sample_probed.
           replace (2 + (1 + 2 * Z.to_nat (stop - (st + 1))))%nat
             with (1 + 2 * Z.to_nat (stop - st))%nat by lia.
           apply Hz. exact Hs127.
        -- exists d'. split; [exact Erun|]. repeat split; auto.
           rewrite Hs. cbn. lia.
    + assert (st = 128) by lia. assert (stop = 128) by lia. subst.
      exists d. repeat split; auto; cbn; lia.
Qed.

Lemma probed_bus (c : Z) (d : driver device) :
  i2cbus (probed c d) = probe c (i2cbus d).
Proof. reflexivity. Qed.

Lemma sample_light (r g b : Z) (s : device) : sample (light r g b s) = sample s.
Proof. reflexivity. Qed.

Lemma sample_probe (c : Z) (s : device) :
  0 <= c <= 127 -> sample (probe c s) = nth_sample s c 2.
Proof.
  intros Hc. unfold sample, nth_sample. rewrite probe_code by assumption.
  rewrite probe_model, probe_samples. f_equal. f_equal. lia.
Qed.

Lemma sample_acquire_probe (c : Z) (s : device) :
  0 <= c <= 127 -> sample (acquire (probe c s)) = nth_sample s c 3.
Proof.
  intros Hc. unfold sample, nth_sample.
  change (dac_code (acquire (probe c s))) with (dac_code (probe c s)).
  change (model (acquire (probe c s))) with (model s).
  change (samples (acquire (probe c s))) with (S (S (S (samples s)))).
  rewrite probe_code by assumption. f_equal. f_equal. lia.
Qed.

Lemma dac_code_on_acquire (l : list call) (d : driver device) :
  dac_code (i2cbus (on acquire l d)) = dac_code (i2cbus d).
Proof. reflexivity. Qed.

Lemma dac_code_on_light (r g b : Z) (l : list call) (d : driver device) :
  dac_code (i2cbus (on (light r g b) l d)) = dac_code (i2cbus d).
Proof. reflexivity. Qed.

Lemma dac_code_probed (c : Z) (d : driver device) :
  0 <= c <= 127 -> dac_code (i2cbus (probed c d)) = c.
Proof. intros Hc. rewrite probed_bus. apply probe_code. exact Hc. Qed.

Lemma nth_sample_shift (s s' : device) (k : nat) (code : Z) (i : nat) :
  model s' = model s -> samples s' = (samples s + k)%nat ->
  nth_sample s' code i = nth_sample s code (k + i).
Proof.
  intros Hm Hs. unfold nth_sample. rewrite Hm, Hs. f_equal. f_equal. lia.
Qed.

Lemma sim_led (r g b : Z) (d : driver device) :
  led r g b d = (Return tt, on (light r g b) [SetLEDRGB r g b] d).
Proof. reflexivity. Qed.

(** The calibration on a ready device whose scan is left at [stop]: at the
    first code that measures zero, or at 128 when none does. *)
Lemma sim_cal_low_val (fuel : nat) (st stop : Z) (d : driver device) :
  always_ready (model (i2cbus d)) ->
  cont_conv d = true ->
  0 <= st < stop -> stop <= 128 ->
  (forall c, st <= c < stop ->
     nth_sample (i2cbus d) c (3 + 2 * Z.to_nat (c - st)) <> 0) ->
  (stop <= 127 ->
     nth_sample (i2cbus d) stop (3 + 2 * Z.to_nat (stop - st)) = 0) ->
  let n := (2 + 2 * Z.to_nat (Z.min stop 127 - st + 1))%nat in
  let v1 := nth_sample (i2cbus d) (stop - 1) (n + 1) in
  let v2 := nth_sample (i2cbus d) (stop - 1) (n + 2) in
  let ok := negb (v1 =? 0) && negb (v2 =? 0xFFFFFF) in
  exists d',
    cal_low_val (S fuel) st d =
      (if ok then Return stop
       else Raise (IOError (CalibrationFailed stop
              (nth_sample (i2cbus d) (stop - 1)
                 (if v1 =? 0 then n + 2 else n + 3)))), d') /\
    dac_code (i2cbus d') = stop - 1 /\
    lamp (i2cbus d') = if ok then lamp (i2cbus d) else Some (255, 0, 0).
Proof.
  intros Hr Hc Hst Hstop Hnz Hz n v1 v2 ok. subst ok v1 v2.
  unfold cal_low_val.
  run_by ltac:(apply sim_get_raw_ready; assumption).
  run_by ltac:(apply sim_get_raw_ready; assumption).
  set (d0 := on acquire acquire_calls (on acquire acquire_calls d)).
  assert (Hm0 : model (i2cbus d0) = model (i2cbus d)) by reflexivity.
  assert (Hs0 : samples (i2cbus d0) = (samples (i2cbus d) + 2)%nat)
    by (change (samples (i2cbus d0)) with (S (S (samples (i2cbus d)))); lia).
  destruct (sim_scan fuel (Z.to_nat (128 - st)) st stop d0)
    as (d1 & Erun & Hm1 & Hc1 & Hl1 & Hs1); auto; try lia.
  { intros c Hcr. rewrite (nth_sample_shift (i2cbus d) _ 2) by assumption.
    replace (2 + (1 + 2 * Z.to_nat (c - st)))%nat
      with (3 + 2 * Z.to_nat (c - st))%nat by lia.
    apply Hnz. exact Hcr. }
  { intros H127. rewrite (nth_sample_shift (i2cbus d) _ 2) by assumption.
    replace (2 + (1 + 2 * Z.to_nat (stop - st)))%nat
      with (3 + 2 * Z.to_nat (stop - st))%nat by lia.
    apply Hz. exact H127. }
  run_by ltac:(exact Erun).
  assert (Hrange : 0 <= stop - 1 <= 127) by lia.
  assert (Hm : model (i2cbus d1) = model (i2cbus d)) by congruence.
  assert (Hs : samples (i2cbus d1) = (samples (i2cbus d) + n)%nat)
    by (rewrite Hs1, Hs0; unfold n; lia).
  assert (Hr1 : always_ready (model (i2cbus d1))) by (rewrite Hm; exact Hr).
  rewrite sim_probe by assumption.
  rewrite (nth_sample_shift (i2cbus d) _ n) by assumption.
  set (v1 := nth_sample (i2cbus d) (stop - 1) (n + 1)).
  set (v2 := nth_sample (i2cbus d) (stop - 1) (n + 2)).
  destruct (Z.eqb_spec v1 0) as [E1|N1].
  - (* the confirmation reads zero *)
    cbn [negb]. run. cbv iota.
    run_by ltac:(apply sim_led).
    run_by ltac:(apply sim_get_raw_ready; [exact Hr1 | exact Hc1]).
    cbn [on i2cbus]. rewrite probed_bus, sample_light.
    rewrite sample_probe by assumption.
    rewrite (nth_sample_shift (i2cbus d) _ n) by assumption.
    cbn [negb andb].
    eexists. split; [reflexivity|]. split.
    + rewrite dac_code_on_acquire, dac_code_on_light.
      apply dac_code_probed. assumption.
    + reflexivity.
  - cbn [negb].
    run_by ltac:(erewrite bind_run;
                 [ reflexivity | apply sim_get_raw_ready; [exact Hr1 | exact Hc1] ]).
    rewrite probed_bus, sample_probe by assumption.
    rewrite (nth_sample_shift (i2cbus d) _ n) by assumption.
    fold v2.
    destruct (Z.eqb_spec v2 0xFFFFFF) as [E2|N2]; cbn [negb andb].
    + run_by ltac:(apply sim_led).
      run_by ltac:(apply sim_get_raw_ready; [exact Hr1 | exact Hc1]).
      cbn [on i2cbus]. rewrite probed_bus, sample_light.
      rewrite sample_acquire_probe by assumption.
      rewrite (nth_sample_shift (i2cbus d) _ n) by assumption.
      eexists. split; [reflexivity|]. split.
      * rewrite dac_code_on_acquire, dac_code_on_light, dac_code_on_acquire.
        apply dac_code_probed. assumption.
      * reflexivity.
    + eexists. split; [reflexivity|]. split.
      * rewrite dac_code_on_acquire.
        apply dac_code_probed. assumption.
      * cbn [on i2cbus]. exact Hl1.
Qed.

(** ** The conversion over the 24-bit range *)

Lemma float_of_int_uint63 (i : int) : float_of_int (to_Z i) = of_uint63 i.
Proof.
  unfold float_of_int. rewrite <- of_uint63_spec. apply SF2Prim_Prim2SF.
Qed.

Lemma cap_val_to_pf_uint63 (i : int) : cap_val_to_pf (to_Z i) = pf63 i.
Proof.
  unfold cap_val_to_pf, pf63. rewrite float_of_int_uint63.
  change 0x800000 with (to_Z 8388608). rewrite float_of_int_uint63. reflexivity.
Qed.

Lemma all_from_spec (P : int -> bool) :
  forall (n : nat) (i : int),
    to_Z i + Z.of_nat n <= wB ->
    all_from n P i = true ->
    forall j : int, to_Z i <= to_Z j < to_Z i + Z.of_nat n -> P j = true.
Proof.
  induction n as [|n IH]; intros i Hb Hall j Hj; [lia|].
  cbn [all_from] in Hall. destruct (P i) eqn:HP; [|discriminate].
  destruct (Z.eq_dec (to_Z j) (to_Z i)) as [E|N].
  - apply to_Z_inj in E. subst j. exact HP.
  - apply (IH (i + 1)%uint63); [lia | exact Hall | lia].
Qed.

Lemma all_blocks_spec (P : int -> bool) (n : nat) :
  forall (m : nat) (i : int),
    to_Z i + Z.of_nat m * Z.of_nat n <= wB ->
    all_blocks m n P i = true ->
    forall j : int, to_Z i <= to_Z j < to_Z i + Z.of_nat m * Z.of_nat n -> P j = true.
Proof.
  induction m as [|m IH]; intros i Hb Hall j Hj; [lia|].
  cbn [all_blocks] in Hall. destruct (all_from n P i) eqn:HF; [|discriminate].
  destruct (Z_lt_dec (to_Z j) (to_Z i + Z.of_nat n)) as [L|G].
  - apply (all_from_spec P n i); [nia | exact HF | lia].
  - assert (En : to_Z (of_Z (Z.of_nat n)) = Z.of_nat n).
    { rewrite of_Z_spec. apply Z.mod_small. nia. }
    apply (IH (i + of_Z (Z.of_nat n))%uint63); [nia | exact Hall | nia].
Qed.

Lemma SFltb_trans (x y z : spec_float) :
  SFltb x y = true -> SFltb y z = true -> SFltb x z = true.
Proof.
  unfold SFltb, SFcompare.
  destruct x as [sx|sx| |sx mx ex], y as [sy|sy| |sy my ey], z as [sz|sz| |sz mz ez];
    try discriminate; try reflexivity;
    try (destruct sx; try discriminate; try reflexivity);
    try (destruct sy; try discriminate; try reflexivity);
    try (destruct sz; try discriminate; try reflexivity).
  all: rewrite ?Pos.compare_cont_spec; cbn [Pos.switch_Eq].
  all: fold (Pos.compare mx my) (Pos.compare my mz) (Pos.compare mx mz).
  all: destruct (Z.compare_spec ex ey), (Z.compare_spec ey ez), (Z.compare_spec ex ez);
    try discriminate; try reflexivity; try lia; subst.
  all: destruct (Pos.compare_spec mx my), (Pos.compare_spec my mz), (Pos.compare_spec mx mz);
    cbn; try discriminate; try reflexivity; try lia.
Qed.

Lemma ltb_trans (x y z : float) :
  (x <? y)%float = true -> (y <? z)%float = true -> (x <? z)%float = true.
Proof. rewrite !FloatAxioms.ltb_spec. apply SFltb_trans. Qed.

Lemma rises_all : all_blocks 4096 4096 rises 0%uint63 = true.
Proof. vm_cast_no_check (eq_refl true). Qed.

Lemma doubles_all : all_blocks 2048 4096 doubles 0%uint63 = true.
Proof. vm_cast_no_check (eq_refl true). Qed.

Lemma to_Z_of_Z_small (z : Z) : 0 <= z < wB -> to_Z (of_Z z) = z.
Proof. intros Hz. rewrite of_Z_spec. apply Z.mod_small. exact Hz. Qed.

Lemma pf_step (a : Z) :
  0 <= a < 0x1000000 ->
  (cap_val_to_pf a <? cap_val_to_pf (a + 1))%float = true.
Proof.
  intros Ha.
  assert (W : wB = 9223372036854775808) by reflexivity.
  pose proof (all_blocks_spec rises 4096 4096 0%uint63 ltac:(cbn; lia) rises_all (of_Z a)) as Hr.
  rewrite to_Z_of_Z_small in Hr by lia.
  specialize (Hr ltac:(cbn; lia)). unfold rises in Hr.
  rewrite <- !cap_val_to_pf_uint63 in Hr.
  replace (to_Z (of_Z a + 1)) with (a + 1) in Hr.
  - rewrite to_Z_of_Z_small in Hr by lia. exact Hr.
  - rewrite Uint63.add_spec, to_Z_of_Z_small by lia.
    change (to_Z 1) with 1. rewrite Z.mod_small by lia. reflexivity.
Qed.

Lemma pf_monotone (a b : Z) :
  0 <= a -> a < b -> b <= 0xFFFFFF ->
  (cap_val_to_pf a <? cap_val_to_pf b)%float = true.
Proof.
  intros Ha Hab Hb.
  replace b with (a + 1 + Z.of_nat (Z.to_nat (b - a - 1))) by lia.
  assert (Hk : a + 1 + Z.of_nat (Z.to_nat (b - a - 1)) <= 0xFFFFFF) by lia.
  induction (Z.to_nat (b - a - 1)) as [|k IH].
  - rewrite Z.add_0_r. apply pf_step. lia.
  - eapply ltb_trans; [apply IH; lia|].
    replace (a + 1 + Z.of_nat (S k)) with (a + 1 + Z.of_nat k + 1) by lia.
    apply pf_step. lia.
Qed.

Lemma pf_doubling (r : Z) :
  0 <= r -> 2 * r <= 0xFFFFFF ->
  (cap_val_to_pf (2 * r) =? 2 * cap_val_to_pf r)%float = true.
Proof.
  intros Hr H2.
  assert (W : wB = 9223372036854775808) by reflexivity.
  pose proof (all_blocks_spec doubles 4096 2048 0%uint63 ltac:(cbn; lia) doubles_all (of_Z r)) as Hd.
  rewrite to_Z_of_Z_small in Hd by lia.
  specialize (Hd ltac:(cbn; lia)). unfold doubles in Hd.
  rewrite <- !cap_val_to_pf_uint63 in Hd.
  replace (to_Z (2 * of_Z r)) with (2 * r) in Hd.
  - rewrite to_Z_of_Z_small in Hd by lia. exact Hd.
  - rewrite Uint63.mul_spec, to_Z_of_Z_small by lia.
    change (to_Z 2) with 2. rewrite Z.mod_small by lia. reflexivity.
Qed.

Lemma pf_zero : cap_val_to_pf 0 = 0%float.
Proof. vm_compute. reflexivity. Qed.

Lemma pf_full : cap_val_to_pf 0x800000 = 4.096%float.
Proof. vm_compute. reflexivity. Qed.

(** ** Rewriting the configuration register *)

Lemma peek_configuration (s : device) :
  peek CONFIG_ADDR 3 s =
  [regs s CONFIG_ADDR; regs s CAP_DAC_A_ADDR; regs s CAP_DAC_B_ADDR].
Proof. reflexivity. Qed.

Lemma sim_configuration (d : driver device) :
  configuration d =
  (Return (configuration_decode (regs (i2cbus d) CONFIG_ADDR)),
   on (fetch CONFIG_ADDR 3) (read_calls CONFIG_ADDR 3) d).
Proof.
  unfold configuration. run_by ltac:(apply sim_read_byte).
  rewrite peek_configuration. reflexivity.
Qed.

Lemma sim_cap_filter (f : CapFilter) (d : driver device) :
  cap_filter f d =
  (Return tt,
   on (fun s => poke CONFIG_ADDR (refiltered f (regs s CONFIG_ADDR)) (fetch CONFIG_ADDR 3 s))
      (read_calls CONFIG_ADDR 3 ++
       write_calls CONFIG_ADDR (refiltered f (regs (i2cbus d) CONFIG_ADDR))) d).
Proof.
  unfold cap_filter. run_by ltac:(apply sim_configuration).
  unfold refiltered. destruct (filter_fields f) as [[fs2 fs1] fs0].
  unfold set_configuration. rewrite sim_write_byte, on_on. reflexivity.
Qed.

Lemma refiltered_bits (f : CapFilter) (byte : Z) :
  0 <= byte < 256 ->
  Z.land (refiltered f byte) (Z.lnot CAPFS_MASK) = Z.land byte (Z.lnot CAPFS_MASK) /\
  Z.land (refiltered f byte) CAPFS_MASK = filter_bits f /\
  0 <= refiltered f byte < 256.
Proof.
  intros Hb.
  assert (Hall : forall z, 0 <= z < Z.of_nat 256 ->
    ((Z.land (refiltered f z) (Z.lnot CAPFS_MASK) =? Z.land z (Z.lnot CAPFS_MASK)) &&
     (Z.land (refiltered f z) CAPFS_MASK =? filter_bits f) &&
     (0 <=? refiltered f z) && (refiltered f z <? 256)) = true).
  { apply forall_below. destruct f; vm_compute; reflexivity. }
  specialize (Hall byte ltac:(lia)).
  rewrite !andb_true_iff in Hall. destruct Hall as (((H1 & H2) & H3) & H4).
  apply Z.eqb_eq in H1, H2. apply Z.leb_le in H3. apply Z.ltb_lt in H4. auto.
Qed.

Lemma single_shot_bits (byte : Z) :
  0 <= byte < 256 ->
  Z.land (single_shot byte) (Z.lnot MD_MASK) = Z.land byte (Z.lnot MD_MASK) /\
  Z.land (single_shot byte) MD_MASK = CONFIG_MD1 /\
  0 <= single_shot byte < 256.
Proof.
  intros Hb.
  assert (Hall : forall z, 0 <= z < Z.of_nat 256 ->
    ((Z.land (single_shot z) (Z.lnot MD_MASK) =? Z.land z (Z.lnot MD_MASK)) &&
     (Z.land (single_shot z) MD_MASK =? CONFIG_MD1) &&
     (0 <=? single_shot z) && (single_shot z <? 256)) = true).
  { apply forall_below. vm_compute. reflexivity. }
  specialize (Hall byte ltac:(lia)).
  rewrite !andb_true_iff in Hall. destruct Hall as (((H1 & H2) & H3) & H4).
  apply Z.eqb_eq in H1, H2. apply Z.leb_le in H3. apply Z.ltb_lt in H4. auto.
Qed.

Lemma sim_get_raw_single_shot (fuel : nat) (timeout : float) (d : driver device) :
  always_ready (model (i2cbus d)) ->
  cont_conv d = false ->
  get_raw_cap_val (S fuel) timeout d =
  (Return (sample (i2cbus d)),
   on (fun s => acquire (poke CONFIG_ADDR (single_shot (regs s CONFIG_ADDR)) (fetch CONFIG_ADDR 3 s)))
      (read_calls CONFIG_ADDR 3 ++
       write_calls CONFIG_ADDR (single_shot (regs (i2cbus d) CONFIG_ADDR)) ++
       acquire_calls) d).
Proof.
  intros Hr Hc. unfold get_raw_cap_val.
  run_by ltac:(unfold get_cont_conv; rewrite Hc; reflexivity).
  cbn [negb].
  run_by ltac:(erewrite bind_run; [ apply sim_write_byte | apply sim_configuration ]).
  run_by ltac:(apply sim_now).
  cbn [poll]. run_by ltac:(apply sim_status).
  cbn [on i2cbus model polls snd wall_clock fetch poke]. rewrite Hr. cbn [negb].
  rewrite sim_cap_data, !on_on.
  reflexivity.
Qed.


Lemma upd_other (f : Z -> Z) (a v x : Z) : x <> a -> upd f a v x = f x.
Proof. intros Hx. unfold upd. apply Z.eqb_neq in Hx. rewrite Hx. reflexivity. Qed.

Lemma upd_same (f : Z -> Z) (a v : Z) : upd f a v a = v.
Proof. unfold upd. rewrite Z.eqb_refl. reflexivity. Qed.

Lemma sim_cap_daca (d : driver device) :
  cap_daca d =
  (Return (cap_daca_decode (regs (i2cbus d) CAP_DAC_A_ADDR)),
   on (fetch CAP_DAC_A_ADDR 1) (read_calls CAP_DAC_A_ADDR 1) d).
Proof.
  unfold cap_daca. run_by ltac:(apply sim_read_byte). reflexivity.
Qed.

Lemma daca_encode_sum (e : bool) (c : Z) :
  0 <= c <= 127 ->
  cap_daca_encode {| DACAENA := e; DACA7bit := c |} = (if e then 128 else 0) + c /\
  Z.testbit (cap_daca_encode {| DACAENA := e; DACA7bit := c |}) 7 = e.
Proof.
  intros Hc.
  assert (Hall : forall z, 0 <= z < Z.of_nat 128 ->
    ((cap_daca_encode {| DACAENA := e; DACA7bit := z |} =? (if e then 128 else 0) + z) &&
     Bool.eqb (Z.testbit (cap_daca_encode {| DACAENA := e; DACA7bit := z |}) 7) e) = true).
  { apply forall_below. destruct e; vm_compute; reflexivity. }
  specialize (Hall c ltac:(lia)). apply andb_true_iff in Hall.
  destruct Hall as [H1 H2]. apply Z.eqb_eq in H1. apply Bool.eqb_prop in H2. auto.
Qed.

Lemma readings_50_ready : always_ready readings_50.
Proof. intros n. reflexivity. Qed.

Lemma steady_ready : always_ready steady.
Proof. intros n. reflexivity. Qed.

(** ** The calibration scan in either conversion mode *)

Lemma follows_trans (j k : nat) (d d' d'' : driver device) :
  follows j d d' -> follows k d' d'' -> follows (j + k) d d''.
Proof.
  intros (M1 & C1 & S1 & L1 & R1) (M2 & C2 & S2 & L2 & R2).
  unfold follows. rewrite M2, C2, S2, L2, R2, S1. repeat split; auto. lia.
Qed.

Lemma sample_follows (k : nat) (d d' : driver device) :
  follows k d d' ->
  sample (i2cbus d') = nth_sample (i2cbus d) (dac_code (i2cbus d)) k.
Proof.
  intros (M & _ & S & _ & R). unfold sample, nth_sample, dac_code.
  rewrite M, S, R. reflexivity.
Qed.

(** One acquisition on a ready device, with [cont_conv] on or off. *)
Lemma get_raw_either_mode (fuel : nat) (timeout : float) (d : driver device) :
  always_ready (model (i2cbus d)) ->
  exists d',
    get_raw_cap_val (S fuel) timeout d = (Return (sample (i2cbus d)), d') /\
    follows 1 d d'.
Proof.
  intros Hr. destruct (cont_conv d) eqn:Hc.
  - rewrite sim_get_raw_ready by assumption. eexists. split; [reflexivity|].
    unfold follows. cbn [on i2cbus cont_conv]. repeat split; try reflexivity.
    change (samples (acquire (i2cbus d))) with (S (samples (i2cbus d))). lia.
  - rewrite sim_get_raw_single_shot by assumption. eexists. split; [reflexivity|].
    unfold follows. cbn [on i2cbus cont_conv]. repeat split; try reflexivity.
    change (samples (acquire (poke CONFIG_ADDR
              (single_shot (regs (i2cbus d) CONFIG_ADDR))
              (fetch CONFIG_ADDR 3 (i2cbus d)))))
      with (S (samples (i2cbus d))). lia.
Qed.

(** One step of the calibration: DAC A is set to [c] with the enable bit,
    one result is thrown away, the next is handed on. *)
Lemma probe_either_mode {C} (fuel : nat) (c : Z) (k : Z -> M device C)
    (d : driver device) :
  always_ready (model (i2cbus d)) ->
  0 <= c <= 127 ->
  exists d',
    (set_cap_daca {| DACAENA := true; DACA7bit := c |};;
     get_raw_cap_val (S fuel) 10;;
     v <- get_raw_cap_val (S fuel) 10;;
     k v) d = k (nth_sample (i2cbus d) c 1) d' /\
    model (i2cbus d') = model (i2cbus d) /\
    cont_conv d' = cont_conv d /\
    samples (i2cbus d') = (samples (i2cbus d) + 2)%nat /\
    lamp (i2cbus d') = lamp (i2cbus d) /\
    regs (i2cbus d') CAP_DAC_A_ADDR =
      cap_daca_encode {| DACAENA := true; DACA7bit := c |}.
Proof.
  intros Hr Hc.
  run_by ltac:(apply sim_set_cap_daca; assumption).
  set (d1 := on (poke CAP_DAC_A_ADDR (cap_daca_encode {| DACAENA := true; DACA7bit := c |}))
                (write_calls CAP_DAC_A_ADDR
                   (cap_daca_encode {| DACAENA := true; DACA7bit := c |})) d).
  assert (F1 : model (i2cbus d1) = model (i2cbus d) /\
               cont_conv d1 = cont_conv d /\
               samples (i2cbus d1) = samples (i2cbus d) /\
               lamp (i2cbus d1) = lamp (i2cbus d) /\
               regs (i2cbus d1) CAP_DAC_A_ADDR =
                 cap_daca_encode {| DACAENA := true; DACA7bit := c |}).
  { repeat split. }
  destruct F1 as (M1 & C1 & S1 & L1 & R1).
  destruct (get_raw_either_mode fuel 10 d1) as (d2 & E2 & F2);
    [rewrite M1; exact Hr|].
  run_by ltac:(exact E2).
  destruct (get_raw_either_mode fuel 10 d2) as (d3 & E3 & F3).
  { destruct F2 as (M2 & _). rewrite M2, M1. exact Hr. }
  run_by ltac:(exact E3).
  rewrite (sample_follows 1 d1 d2 F2).
  pose proof (follows_trans 1 1 d1 d2 d3 F2 F3) as (M & Cc & Ss & L & R).
  exists d3. split.
  - f_equal. unfold nth_sample, dac_code. rewrite M1, S1, R1.
    rewrite (daca_code_back true c Hc). reflexivity.
  - rewrite M, Cc, Ss, L, R, M1, C1, S1, L1, R1. repeat split. 
Qed.

(** A scan in which every code up to 127 measures nonzero runs to 128. *)
Lemma scan_exhausted_either_mode (fuel : nat) :
  forall (n : nat) (st : Z) (d : driver device),
    always_ready (model (i2cbus d)) ->
    0 <= st <= 128 -> 128 - st <= Z.of_nat n ->
    (forall c, st <= c <= 127 ->
       nth_sample (i2cbus d) c (1 + 2 * Z.to_nat (c - st)) <> 0) ->
    exists d',
      scan n (S fuel) st d = (Return 128, d') /\
      model (i2cbus d') = model (i2cbus d) /\
      cont_conv d' = cont_conv d /\
      samples (i2cbus d') = (samples (i2cbus d) + 2 * Z.to_nat (128 - st))%nat /\
      lamp (i2cbus d') = lamp (i2cbus d).
Proof.
  induction n as [|n IH]; intros st d Hr Hst Hn Hnz.
  - assert (st = 128) by lia. subst st. exists d. rewrite scan_unfold.
    repeat split. cbn. lia.
  - rewrite scan_unfold. destruct (Z.leb_spec st 127) as [Hle|Hgt].
    + run_by ltac:(apply sim_print_cal).
      destruct (probe_either_mode fuel st
                  (fun v => if v >? 0 then scan n (S fuel) (st + 1) else ret st)
                  (printed st d) Hr ltac:(lia))
        as (d1 & E1 & M1 & C1 & S1 & L1 & _).
      rewrite E1.
      change (i2cbus (printed st d)) with (i2cbus d) in *.
      change (cont_conv (printed st d)) with (cont_conv d) in *.
      pose proof (Hnz st ltac:(lia)) as H0.
      replace (1 + 2 * Z.to_nat (st - st))%nat with 1%nat in H0 by lia.
      pose proof (nth_sample_range (i2cbus d) st 1) as Hrg.
      destruct (Z.gtb_spec (nth_sample (i2cbus d) st 1) 0) as [_|Hle0]; [|lia].
      destruct (IH (st + 1) d1) as (d2 & E2 & M2 & C2 & S2 & L2).
      * rewrite M1. exact Hr.
      * lia.
      * lia.
      * intros c Hc. rewrite (nth_sample_shift (i2cbus d) _ 2) by assumption.
        replace (2 + (1 + 2 * Z.to_nat (c - (st + 1))))%nat
          with (1 + 2 * Z.to_nat (c - st))%nat by lia.
        apply Hnz. lia.
      * exists d2. split; [exact E2|].
        rewrite M2, C2, S2, L2, M1, C1, S1, L1. repeat split. lia.
    + assert (st = 128) by lia. subst st. exists d. repeat split. cbn. lia.
Qed.

(** The calibration when the scan runs out, in either conversion mode. *)
Lemma cal_low_val_exhausted_either_mode (fuel : nat) (st : Z) (d : driver device) :
  always_ready (model (i2cbus d)) ->
  0 <= st <= 127 ->
  (forall c, st <= c <= 127 ->
     nth_sample (i2cbus d) c (3 + 2 * Z.to_nat (c - st)) <> 0) ->
  let n := (2 + 2 * Z.to_nat (128 - st))%nat in
  let v1 := nth_sample (i2cbus d) 127 (n + 1) in
  let v2 := nth_sample (i2cbus d) 127 (n + 2) in
  let ok := negb (v1 =? 0) && negb (v2 =? 0xFFFFFF) in
  exists d',
    cal_low_val (S fuel) st d =
      (if ok then Return 128
       else Raise (IOError (CalibrationFailed 128
              (nth_sample (i2cbus d) 127 (if v1 =? 0 then n + 2 else n + 3)))), d') /\
    regs (i2cbus d') CAP_DAC_A_ADDR =
      cap_daca_encode {| DACAENA := true; DACA7bit := 127 |} /\
    lamp (i2cbus d') = if ok then lamp (i2cbus d) else Some (255, 0, 0).
Proof.
  intros Hr Hst Hnz n v1 v2 ok. subst ok v1 v2.
  unfold cal_low_val.
  destruct (get_raw_either_mode fuel 10 d Hr) as (da & Ea & Fa).
  run_by ltac:(exact Ea).
  assert (Hra : always_ready (model (i2cbus da)))
    by (destruct Fa as (M & _); rewrite M; exact Hr).
  destruct (get_raw_either_mode fuel 10 da Hra) as (d0 & Eb & Fb).
  run_by ltac:(exact Eb).
  pose proof (follows_trans 1 1 d da d0 Fa Fb) as (M0 & C0 & S0 & L0 & _).
  cbn [Nat.add] in S0.
  assert (Hr0 : always_ready (model (i2cbus d0))) by (rewrite M0; exact Hr).
  destruct (scan_exhausted_either_mode fuel (Z.to_nat (128 - st)) st d0 Hr0)
    as (d1 & Erun & M1 & C1 & S1 & L1); [lia | lia | |].
  { intros c Hc. rewrite (nth_sample_shift (i2cbus d) _ 2) by assumption.
    replace (2 + (1 + 2 * Z.to_nat (c - st)))%nat
      with (3 + 2 * Z.to_nat (c - st))%nat by lia.
    apply Hnz. exact Hc. }
  run_by ltac:(exact Erun).
  change (128 - 1) with 127.
  assert (Hm : model (i2cbus d1) = model (i2cbus d)) by congruence.
  assert (Hs : samples (i2cbus d1) = (samples (i2cbus d) + n)%nat)
    by (rewrite S1, S0; unfold n; lia).
  assert (Hl : lamp (i2cbus d1) = lamp (i2cbus d)) by congruence.
  assert (Hr1 : always_ready (model (i2cbus d1))) by (rewrite Hm; exact Hr).
  match goal with
  | |- context [bind (set_cap_daca ?v) (fun _ => bind ?g1 (fun _ => bind ?g2 ?k))] =>
      destruct (probe_either_mode fuel 127 k d1 Hr1 ltac:(lia))
        as (d2 & E2 & M2 & C2 & S2 & L2 & R2)
  end.
  rewrite E2. clear E2.
  rewrite (nth_sample_shift (i2cbus d) _ n) by assumption.
  set (v1 := nth_sample (i2cbus d) 127 (n + 1)).
  set (v2 := nth_sample (i2cbus d) 127 (n + 2)).
  assert (Hcode : forall e : driver device,
            regs (i2cbus e) CAP_DAC_A_ADDR =
              cap_daca_encode {| DACAENA := true; DACA7bit := 127 |} ->
            dac_code (i2cbus e) = 127) by (intros e He; unfold dac_code; rewrite He; reflexivity).
  assert (Hr2 : always_ready (model (i2cbus d2))) by (rewrite M2; exact Hr1).
  destruct (Z.eqb_spec v1 0) as [E1|N1].
  - (* the confirmation reads zero *)
    cbn [negb andb]. run. cbv iota.
    run_by ltac:(apply sim_led).
    set (d3 := on (light 255 0 0) [SetLEDRGB 255 0 0] d2).
    destruct (get_raw_either_mode fuel 10 d3 Hr2) as (d4 & E4 & (M4 & C4 & S4 & L4 & R4)).
    run_by ltac:(exact E4).
    eexists. split; [|split].
    + unfold raise. do 4 f_equal. unfold sample, nth_sample.
      change (model (i2cbus d3)) with (model (i2cbus d2)).
      change (samples (i2cbus d3)) with (samples (i2cbus d2)).
      change (dac_code (i2cbus d3)) with (dac_code (i2cbus d2)).
      rewrite (Hcode d2 R2), M2, S2, Hm, Hs. do 2 f_equal. lia.
    + cbn [snd]. rewrite R4. exact R2.
    + cbn [snd]. rewrite L4. reflexivity.
  - cbn [negb andb].
    destruct (get_raw_either_mode fuel 10 d2 Hr2) as (d3 & E3 & (M3 & C3 & S3 & L3 & R3)).
    run_by ltac:(erewrite bind_run; [ reflexivity | exact E3 ]).
    assert (Esam : sample (i2cbus d2) = v2).
    { unfold sample, nth_sample, v2, nth_sample.
      rewrite (Hcode d2 R2), M2, S2, Hm, Hs. do 2 f_equal. lia. }
    rewrite Esam.
    assert (Hr3 : always_ready (model (i2cbus d3))) by (rewrite M3; exact Hr2).
    destruct (Z.eqb_spec v2 0xFFFFFF) as [E2|N2]; cbn [negb andb].
    + run_by ltac:(apply sim_led).
      set (d4 := on (light 255 0 0) [SetLEDRGB 255 0 0] d3).
      destruct (get_raw_either_mode fuel 10 d4 Hr3) as (d5 & E5 & (M5 & C5 & S5 & L5 & R5)).
      run_by ltac:(exact E5).
      eexists. split; [|split].
      * unfold raise. do 4 f_equal. unfold sample, nth_sample.
        change (model (i2cbus d4)) with (model (i2cbus d3)).
        change (samples (i2cbus d4)) with (samples (i2cbus d3)).
        change (dac_code (i2cbus d4)) with (dac_code (i2cbus d3)).
        rewrite (Hcode d3 ltac:(rewrite R3; exact R2)), M3, S3, M2, S2, Hm, Hs.
        do 2 f_equal. lia.
      * cbn [snd]. rewrite R5. change (regs (i2cbus d4)) with (regs (i2cbus d3)).
        rewrite R3. exact R2.
      * cbn [snd]. rewrite L5. reflexivity.
    + eexists. split; [reflexivity|]. split.
      * cbn [snd]. rewrite R3. exact R2.
      * cbn [snd]. rewrite L3, L2. exact Hl.
Qed.

(** * The calibration scan *)

(** C1 (the code departs from the property).  On a device that reports data
    ready, take a scan from [st_val] whose measured sample is nonzero for
    every code from [st_val] up to [k - 1] and zero at code [k], with
    [st_val + 1 <= k <= 127], and whose two samples read after stepping back
    are not 0 and not 0xFFFFFF.  [cal_low_val] then leaves DAC A holding
    [k - 1] and returns [k]: the position the scan stopped at, one more than
    the code it has just written and confirmed.  The property, like the
    docstring ("returns the value that the capdac was set to"), asks for
    [k - 1]. *)
Theorem cal_low_val_returns_scan_position
    (fuel : nat) (st_val k : Z) (d : driver device) :
  always_ready (model (i2cbus d)) ->
  cont_conv d = true ->
  0 <= st_val -> st_val + 1 <= k -> k <= 127 ->
  (forall c, st_val <= c < k ->
     nth_sample (i2cbus d) c (3 + 2 * Z.to_nat (c - st_val)) <> 0) ->
  nth_sample (i2cbus d) k (3 + 2 * Z.to_nat (k - st_val)) = 0 ->
  nth_sample (i2cbus d) (k - 1) (5 + 2 * Z.to_nat (k - st_val)) <> 0 ->
  nth_sample (i2cbus d) (k - 1) (6 + 2 * Z.to_nat (k - st_val)) <> 0xFFFFFF ->
  exists d',
    cal_low_val (S fuel) st_val d = (Return k, d') /\
    dac_code (i2cbus d') = k - 1.
Proof.
  intros Hr Hc H0 Hk H127 Hnz Hz Hv1 Hv2.
  destruct (sim_cal_low_val fuel st_val k d Hr Hc ltac:(lia) ltac:(lia) Hnz (fun _ => Hz))
    as (d' & Erun & Hcode & _).
  replace (2 + 2 * Z.to_nat (Z.min k 127 - st_val + 1) + 1)%nat
    with (5 + 2 * Z.to_nat (k - st_val))%nat in Erun by lia.
  replace (2 + 2 * Z.to_nat (Z.min k 127 - st_val + 1) + 2)%nat
    with (6 + 2 * Z.to_nat (k - st_val))%nat in Erun by lia.
  apply Z.eqb_neq in Hv1, Hv2. rewrite Hv1, Hv2 in Erun. cbn [negb andb] in Erun.
  exists d'. split; [exact Erun | exact Hcode].
Qed.

(** Readings nonzero for codes 0..49 and zero from code 50 on: the call
    returns 50 and leaves DAC A at 49. *)
Lemma cal_low_val_returns_scan_position_witness :
  exists d',
    cal_low_val 1 0 (boot readings_50 zeroed true) = (Return 50, d') /\
    dac_code (i2cbus d') = 50 - 1.
Proof.
  apply (cal_low_val_returns_scan_position 0 0 50 (boot readings_50 zeroed true)).
  - exact readings_50_ready.
  - reflexivity.
  - lia.
  - lia.
  - lia.
  - intros c Hc. unfold nth_sample. cbn [boot i2cbus model readings_50 cap_sample].
    destruct (Z.ltb_spec c 50) as [_|Hge]; [discriminate | lia].
  - reflexivity.
  - discriminate.
  - discriminate.
Defined.

(** The same run by evaluation. *)
Example cal_low_val_50_by_evaluation :
  fst (cal_low_val 1 0 (boot readings_50 zeroed true)) = Return 50 /\
  dac_code (i2cbus (snd (cal_low_val 1 0 (boot readings_50 zeroed true)))) = 49.
Proof. split; vm_compute; reflexivity. Qed.

(** C3, as stated, fails: with a reading of 1 at every code the measured
    sample is nonzero from code 0 through 127, and the call returns a value
    (128) without raising and without signalling the fault indicator. *)
Lemma cal_low_val_never_zero_succeeds :
  (forall c, 0 <= c <= 127 ->
     nth_sample (i2cbus (boot steady zeroed true)) c (3 + 2 * Z.to_nat (c - 0)) <> 0) /\
  fst (cal_low_val 1 0 (boot steady zeroed true)) = Return 128 /\
  lamp (i2cbus (snd (cal_low_val 1 0 (boot steady zeroed true)))) = None.
Proof.
  split; [|split].
  - intros c _. discriminate.
  - vm_compute. reflexivity.
  - vm_compute. reflexivity.
Qed.

(** C3 (amended).  On a device that reports data ready, with [cont_conv]
    on or off, take a scan from [st_val] in 0..127 whose measured sample
    is nonzero at every code from [st_val] through 127.  [cal_low_val]
    then leaves DAC A holding {enabled, 127}; it has thrown one sample
    away and read the confirmation sample [v1]; it raises the calibration
    error, with the fault indicator set to red, exactly when [v1] is zero
    or the sample [v2] read after it is 0xFFFFFF, and the error carries
    the scan position 128 and the sample read next; otherwise it returns a
    value and raises nothing. *)
Theorem cal_low_val_scan_exhausted (fuel : nat) (st_val : Z) (d : driver device) :
  always_ready (model (i2cbus d)) ->
  0 <= st_val <= 127 ->
  (forall c, st_val <= c <= 127 ->
     nth_sample (i2cbus d) c (3 + 2 * Z.to_nat (c - st_val)) <> 0) ->
  let n := (2 + 2 * Z.to_nat (128 - st_val))%nat in
  let v1 := nth_sample (i2cbus d) 127 (n + 1) in
  let v2 := nth_sample (i2cbus d) 127 (n + 2) in
  let run := cal_low_val (S fuel) st_val d in
  cap_daca_decode (regs (i2cbus (snd run)) CAP_DAC_A_ADDR) =
    {| DACAENA := true; DACA7bit := 127 |} /\
  dac_code (i2cbus (snd run)) = 127 /\
  (v1 <> 0 /\ v2 <> 0xFFFFFF ->
     (exists code, fst run = Return code) /\
     lamp (i2cbus (snd run)) = lamp (i2cbus d)) /\
  (v1 = 0 \/ v2 = 0xFFFFFF ->
     fst run =
       Raise (IOError (CalibrationFailed 128
                (nth_sample (i2cbus d) 127 (if v1 =? 0 then n + 2 else n + 3)))) /\
     lamp (i2cbus (snd run)) = Some (255, 0, 0)).
Proof.
  intros Hr Hst Hnz n v1 v2 run.
  destruct (cal_low_val_exhausted_either_mode fuel st_val d Hr Hst Hnz)
    as (d' & Erun & Hreg & Hlamp).
  fold n v1 v2 in Erun, Hlamp.
  unfold run. rewrite Erun. cbn [fst snd].
  split; [rewrite Hreg; reflexivity|].
  split; [unfold dac_code; rewrite Hreg; reflexivity|].
  split.
  - intros [H1 H2]. apply Z.eqb_neq in H1, H2.
    rewrite H1, H2 in *. cbn [negb andb] in *.
    split; [eexists; reflexivity | exact Hlamp].
  - intros Hbad.
    assert (E : negb (v1 =? 0) && negb (v2 =? 16777215) = false).
    { destruct Hbad as [H|H]; rewrite H; cbn; [reflexivity | apply andb_false_r]. }
    rewrite E in Hlamp. rewrite E. split; [reflexivity | exact Hlamp].
Qed.

(** Single-conversion mode, a reading of 1 at every code. *)
Lemma cal_low_val_scan_exhausted_witness :
  let d := boot steady zeroed false in
  let run := cal_low_val 1 0 d in
  cap_daca_decode (regs (i2cbus (snd run)) CAP_DAC_A_ADDR) =
    {| DACAENA := true; DACA7bit := 127 |} /\
  dac_code (i2cbus (snd run)) = 127 /\
  (nth_sample (i2cbus d) 127 (2 + 2 * Z.to_nat (128 - 0) + 1) <> 0 /\
   nth_sample (i2cbus d) 127 (2 + 2 * Z.to_nat (128 - 0) + 2) <> 0xFFFFFF ->
     (exists code, fst run = Return code) /\
     lamp (i2cbus (snd run)) = lamp (i2cbus d)) /\
  (nth_sample (i2cbus d) 127 (2 + 2 * Z.to_nat (128 - 0) + 1) = 0 \/
   nth_sample (i2cbus d) 127 (2 + 2 * Z.to_nat (128 - 0) + 2) = 0xFFFFFF ->
     fst run =
       Raise (IOError (CalibrationFailed 128
                (nth_sample (i2cbus d) 127
                   (if nth_sample (i2cbus d) 127 (2 + 2 * Z.to_nat (128 - 0) + 1) =? 0
                    then 2 + 2 * Z.to_nat (128 - 0) + 2
                    else 2 + 2 * Z.to_nat (128 - 0) + 3)))) /\
     lamp (i2cbus (snd run)) = Some (255, 0, 0)).
Proof.
  apply (cal_low_val_scan_exhausted 0 0 (boot steady zeroed false)).
  - exact steady_ready.
  - lia.
  - intros c _. discriminate.
Defined.

(** The failing side of the same statement: when every reading is full
    scale the scan also runs to 127, and the confirmation is refused, in
    continuous and in single-conversion mode. *)
Example cal_low_val_saturated_fails :
  fst (cal_low_val 1 0 (boot saturated zeroed true)) =
    Raise (IOError (CalibrationFailed 128 0xFFFFFF)) /\
  lamp (i2cbus (snd (cal_low_val 1 0 (boot saturated zeroed true)))) =
    Some (255, 0, 0) /\
  fst (cal_low_val 1 0 (boot saturated zeroed false)) =
    Raise (IOError (CalibrationFailed 128 0xFFFFFF)) /\
  lamp (i2cbus (snd (cal_low_val 1 0 (boot saturated zeroed false)))) =
    Some (255, 0, 0).
Proof. repeat split; vm_compute; reflexivity. Qed.

(** C6 (the code departs from the property).  The call log of a
    calibration run starts with the two flushing acquisitions, each a status
    read and a read of the capacitance data registers; the first write to
    the DAC A register comes after them and carries the enable bit with the
    first scan code: 5 when the scan starts at 5.  The value
    [cap_daca_reg(DACAENA=True, DACA7bit=0)] built under the comment
    "Reset cap reg" is never assigned to [cap_daca], so no reset to code 0
    reaches the bus. *)
Theorem cal_low_val_first_bus_traffic :
  firstn 20 (calls (snd (cal_low_val 1 5 (boot readings_50 zeroed true)))) =
    [StartI2C 0 0x90; WriteByteI2C 0 STATUS_ADDR; EndI2C 0 true; ReadBytesI2C 0 0x91 1;
     StartI2C 0 0x90; WriteByteI2C 0 CAP_DATA_H_ADDR; EndI2C 0 true; ReadBytesI2C 0 0x91 3;
     StartI2C 0 0x90; WriteByteI2C 0 STATUS_ADDR; EndI2C 0 true; ReadBytesI2C 0 0x91 1;
     StartI2C 0 0x90; WriteByteI2C 0 CAP_DATA_H_ADDR; EndI2C 0 true; ReadBytesI2C 0 0x91 3;
     StartI2C 0 0x90; WriteByteI2C 0 CAP_DAC_A_ADDR; WriteByteI2C 0 (0x80 + 5);
     EndI2C 0 false] /\
  firstn 16 (calls (snd (cal_low_val 1 0 (boot readings_50 zeroed true)))) =
    [StartI2C 0 0x90; WriteByteI2C 0 STATUS_ADDR; EndI2C 0 true; ReadBytesI2C 0 0x91 1;
     StartI2C 0 0x90; WriteByteI2C 0 CAP_DATA_H_ADDR; EndI2C 0 true; ReadBytesI2C 0 0x91 3;
     StartI2C 0 0x90; WriteByteI2C 0 STATUS_ADDR; EndI2C 0 true; ReadBytesI2C 0 0x91 1;
     StartI2C 0 0x90; WriteByteI2C 0 CAP_DATA_H_ADDR; EndI2C 0 true; ReadBytesI2C 0 0x91 3].
Proof. split; vm_compute; reflexivity. Qed.

(** * Acquisition *)

(** C2 (the code departs from the property).  A device whose every status
    read reports the excitation fault, with the data-ready bit clear (status
    byte 0x08): [get_raw_cap_val] tests the ready bit before the fault bit,
    so the first status read is followed by a read of the capacitance data
    registers, the data is returned, nothing is raised and the fault
    indicator is left alone.  The docstring ("Raises an exception if the
    sensor's EXCERR bit is set") and the property ask for the fault error. *)
Theorem get_raw_cap_val_returns_data_despite_fault :
  (forall n, EXCERR (status_decode (status_byte fault_with_data n)) = true) /\
  let run := get_raw_cap_val 1 10 (boot fault_with_data zeroed true) in
  fst run = Return 0x00ABCD /\
  calls (snd run) =
    [StartI2C 0 0x90; WriteByteI2C 0 STATUS_ADDR; EndI2C 0 true; ReadBytesI2C 0 0x91 1;
     StartI2C 0 0x90; WriteByteI2C 0 CAP_DATA_H_ADDR; EndI2C 0 true; ReadBytesI2C 0 0x91 3] /\
  lamp (i2cbus (snd run)) = None.
Proof.
  split; [intros n; reflexivity|]. vm_compute. repeat split.
Qed.

(** * The device controller *)

(** C4 (the code departs from the property).  [vt_data] is the same
    program as [cap_data] and [cap_gain] the same as [cap_offset], on every
    adapter: the voltage/temperature getter selects register 0x01, not
    0x04, and the capacitance gain getter selects 0x0D, not 0x0F.  On a
    device whose registers hold their own addresses the gain getter returns
    0x0D0E, the content of the offset registers. *)
Theorem vt_data_and_cap_gain_addresses :
  (forall (B : Type) (H : HostAdapter B),
     @vt_data B H = @cap_data B H /\ @cap_gain B H = @cap_offset B H) /\
  (forall d : driver device,
     calls (snd (vt_data d)) = calls d ++
       [StartI2C 0 0x90; WriteByteI2C 0 0x01; EndI2C 0 true; ReadBytesI2C 0 0x91 3] /\
     calls (snd (cap_gain d)) = calls d ++
       [StartI2C 0 0x90; WriteByteI2C 0 0x0D; EndI2C 0 true; ReadBytesI2C 0 0x91 2]) /\
  fst (cap_gain (boot steady own_address true)) = Return 0x0D0E.
Proof.
  split; [|split].
  - intros B H. split; reflexivity.
  - intros d. split.
    + change (@vt_data device adapter) with (@cap_data device adapter).
      rewrite sim_cap_data. reflexivity.
    + unfold cap_gain. erewrite bind_run; [|apply sim_read_byte]. reflexivity.
  - vm_compute. reflexivity.
Qed.

(** C5 (the code departs from the property).  The DAC B setter compares
    the code with 177 where the DAC A setter compares it with 127: for
    every code above 127 and up to 177 it raises nothing and writes the
    code, with the enable bit or-ed in when set, to the DAC B register. *)
Theorem set_cap_dacb_accepts_up_to_177 (e : bool) (c : Z) (d : driver device) :
  127 < c <= 177 ->
  exists d',
    set_cap_dacb {| DACBENB := e; DACB7bit := c |} d = (Return tt, d') /\
    calls d' =
      calls d ++ write_calls CAP_DAC_B_ADDR (if e then Z.lor 128 c else c) /\
    regs (i2cbus d') CAP_DAC_B_ADDR = (if e then Z.lor 128 c else c).
Proof.
  intros Hc. unfold set_cap_dacb. cbn [DACB7bit DACBENB].
  assert (E : (c >? 177) || (c <? 0) = false).
  { apply orb_false_iff. split.
    - rewrite Z.gtb_ltb. apply Z.ltb_ge. lia.
    - apply Z.ltb_ge. lia. }
  rewrite E. destruct e; rewrite sim_write_byte; eexists;
    (split; [reflexivity|]); (split; [reflexivity|]);
    cbn [on i2cbus poke regs]; apply upd_same.
Qed.

Lemma set_cap_dacb_accepts_up_to_177_witness :
  127 < 150 <= 177 /\
  exists d',
    set_cap_dacb {| DACBENB := false; DACB7bit := 150 |} (boot steady zeroed true)
      = (Return tt, d') /\
    calls d' =
      [] ++ [StartI2C 0 0x90; WriteByteI2C 0 0x0C; WriteByteI2C 0 150; EndI2C 0 false] /\
    regs (i2cbus d') CAP_DAC_B_ADDR = 150.
Proof.
  split; [lia|].
  apply (set_cap_dacb_accepts_up_to_177 false 150 (boot steady zeroed true)). lia.
Defined.

(** The polling loop writes no register, whatever the device reports and
    however the loop ends. *)
Lemma poll_keeps_registers (start_time timeout : float) :
  forall (fuel : nat) (d : driver device),
    regs (i2cbus (snd (poll fuel start_time timeout d))) = regs (i2cbus d).
Proof.
  induction fuel as [|fuel IH]; intros d; [reflexivity|].
  cbn [poll]. run_by ltac:(apply sim_status).
  destruct (RDYCAP (status_decode (status_byte (model (i2cbus d)) (polls (i2cbus d)))));
    cbn [negb].
  - destruct (EXCERR (status_decode (status_byte (model (i2cbus d)) (polls (i2cbus d))))).
    + run_by ltac:(apply sim_led). reflexivity.
    + run_by ltac:(apply sim_now).
      match goal with
      | |- context [if ?c then _ else _] => destruct c
      end.
      * run_by ltac:(apply sim_led). reflexivity.
      * rewrite IH. reflexivity.
  - rewrite sim_cap_data. reflexivity.
Qed.

Lemma single_shot_registers (fuel : nat) (timeout : float) (d : driver device) :
  cont_conv d = false ->
  regs (i2cbus (snd (get_raw_cap_val fuel timeout d))) =
  upd (regs (i2cbus d)) CONFIG_ADDR (single_shot (regs (i2cbus d) CONFIG_ADDR)).
Proof.
  intros Hc. unfold get_raw_cap_val.
  run_by ltac:(unfold get_cont_conv; rewrite Hc; reflexivity).
  cbn [negb].
  run_by ltac:(erewrite bind_run; [ apply sim_write_byte | apply sim_configuration ]).
  run_by ltac:(apply sim_now).
  rewrite poll_keeps_registers. reflexivity.
Qed.

(** C9.  A read-modify-write of the mode-configuration register changes
    the targeted bits only.  Whatever byte (0..255) the register holds:
    [cap_filter] leaves it holding a byte that agrees with the old one
    outside the three capacitance-filter bits and carries the bits of the
    requested setting inside them; an acquisition with [cont_conv] off,
    whatever the device reports and however the acquisition ends, leaves
    it holding a byte that agrees with the old one outside the three mode
    bits and carries single conversion (MD1) inside them.  No other
    register changes. *)
Theorem configuration_rewrite_frame (d : driver device) (byte : Z) :
  0 <= byte < 256 ->
  regs (i2cbus d) CONFIG_ADDR = byte ->
  (forall f : CapFilter,
     exists d',
       cap_filter f d = (Return tt, d') /\
       Z.land (regs (i2cbus d') CONFIG_ADDR) (Z.lnot CAPFS_MASK) =
         Z.land byte (Z.lnot CAPFS_MASK) /\
       Z.land (regs (i2cbus d') CONFIG_ADDR) CAPFS_MASK = filter_bits f /\
       forall a, a <> CONFIG_ADDR -> regs (i2cbus d') a = regs (i2cbus d) a) /\
  (forall (fuel : nat) (timeout : float),
     cont_conv d = false ->
     let d' := snd (get_raw_cap_val fuel timeout d) in
     Z.land (regs (i2cbus d') CONFIG_ADDR) (Z.lnot MD_MASK) =
       Z.land byte (Z.lnot MD_MASK) /\
     Z.land (regs (i2cbus d') CONFIG_ADDR) MD_MASK = CONFIG_MD1 /\
     forall a, a <> CONFIG_ADDR -> regs (i2cbus d') a = regs (i2cbus d) a) /\
  (forall (fuel : nat) (timeout : float),
     always_ready (model (i2cbus d)) ->
     cont_conv d = false ->
     exists v, fst (get_raw_cap_val (S fuel) timeout d) = Return v).
Proof.
  intros Hb Hreg. split; [|split].
  - intros f. eexists. split; [apply sim_cap_filter|].
    cbn [on i2cbus poke fetch regs]. rewrite upd_same, Hreg.
    destruct (refiltered_bits f byte Hb) as (H1 & H2 & _).
    repeat split; auto. intros a Ha. apply upd_other. exact Ha.
  - intros fuel timeout Hc. cbv zeta.
    rewrite single_shot_registers by exact Hc. rewrite upd_same, Hreg.
    destruct (single_shot_bits byte Hb) as (H1 & H2 & _).
    repeat split; auto. intros a Ha. apply upd_other. exact Ha.
  - intros fuel timeout Hr Hc. eexists.
    rewrite sim_get_raw_single_shot by assumption. reflexivity.
Qed.

(** With 0xA1 in the configuration register (voltage filter bits 10,
    capacitance filter bits 100, continuous conversion), on a device that
    is busy for two status reads after the trigger. *)
Lemma configuration_rewrite_frame_witness :
  0 <= 0xA1 < 256 /\
  regs (i2cbus (boot slow_start config_a1 false)) CONFIG_ADDR = 0xA1 /\
  (forall f : CapFilter,
     exists d',
       cap_filter f (boot slow_start config_a1 false) = (Return tt, d') /\
       Z.land (regs (i2cbus d') CONFIG_ADDR) (Z.lnot CAPFS_MASK) =
         Z.land 0xA1 (Z.lnot CAPFS_MASK) /\
       Z.land (regs (i2cbus d') CONFIG_ADDR) CAPFS_MASK = filter_bits f /\
       forall a, a <> CONFIG_ADDR ->
         regs (i2cbus d') a = regs (i2cbus (boot slow_start config_a1 false)) a) /\
  (let d' := snd (get_raw_cap_val 3 10 (boot slow_start config_a1 false)) in
   fst (get_raw_cap_val 3 10 (boot slow_start config_a1 false)) = Return 0x123456 /\
   Z.land (regs (i2cbus d') CONFIG_ADDR) (Z.lnot MD_MASK) =
     Z.land 0xA1 (Z.lnot MD_MASK) /\
   Z.land (regs (i2cbus d') CONFIG_ADDR) MD_MASK = CONFIG_MD1 /\
   forall a, a <> CONFIG_ADDR ->
     regs (i2cbus d') a = regs (i2cbus (boot slow_start config_a1 false)) a).
Proof.
  split; [lia|]. split; [reflexivity|].
  destruct (configuration_rewrite_frame (boot slow_start config_a1 false) 0xA1
              ltac:(lia) eq_refl) as (Hf & Hs & _).
  split; [exact Hf|].
  cbv zeta. split; [vm_compute; reflexivity|].
  exact (Hs 3%nat 10%float eq_refl).
Defined.

(** The same rewrites by evaluation: 0xA1 becomes 0x89 under the 79 Hz
    filter setting, and 0xA2 at the start of a single-shot acquisition,
    on a device that is ready at once, on one that is busy first, and on
    one that lets the acquisition time out. *)
Example configuration_rewrites_of_0xA1 :
  regs (i2cbus (snd (cap_filter CONV79Hz (boot steady config_a1 false)))) CONFIG_ADDR
    = 0x89 /\
  regs (i2cbus (snd (get_raw_cap_val 1 10 (boot steady config_a1 false)))) CONFIG_ADDR
    = 0xA2 /\
  regs (i2cbus (snd (get_raw_cap_val 3 10 (boot slow_start config_a1 false)))) CONFIG_ADDR
    = 0xA2 /\
  regs (i2cbus (snd (get_raw_cap_val 4 10 (boot never_ready config_a1 false)))) CONFIG_ADDR
    = 0xA2.
Proof. repeat split; vm_compute; reflexivity. Qed.

(** * The register codec *)

(** C7.  For each of the four bitfield registers (capacitance setup,
    voltage/temperature setup, excitation setup, mode configuration) and
    every value [S] of its structure, decoding the byte that encoding [S]
    produces gives [S] back. *)
Theorem bitfield_round_trip :
  (forall S : cap_setup_reg, cap_setup_decode (cap_setup_encode S) = S) /\
  (forall S : vt_setup_reg, vt_setup_decode (vt_setup_encode S) = S) /\
  (forall S : exc_setup_reg, exc_setup_decode (exc_setup_encode S) = S) /\
  (forall S : configuration_reg,
     configuration_decode (configuration_encode S) = S).
Proof.
  repeat split.
  - intros [[] [] [] []]; reflexivity.
  - intros [[] [] [] [] [] []]; reflexivity.
  - intros [[] [] [] [] [] [] [] []]; reflexivity.
  - intros [[] [] [] [] [] [] [] []]; reflexivity.
Qed.

(** C10.  For the DAC A register and every enable flag [e] and code [c] in
    0..127: the byte the setter writes is [c] plus 128 when [e] is set, so
    bit 7 is the flag and bits 0..6 are the code; the setter writes that
    byte to register 0x0B, and the getter, reading the register back from a
    device that returns the byte last written, yields [e] and [c] again. *)
Theorem cap_daca_round_trip (e : bool) (c : Z) (d : driver device) :
  0 <= c <= 127 ->
  let val := {| DACAENA := e; DACA7bit := c |} in
  let byte := cap_daca_encode val in
  byte = (if e then 128 else 0) + c /\
  Z.testbit byte 7 = e /\
  Z.land byte 0x7F = c /\
  exists d1 d2,
    set_cap_daca val d = (Return tt, d1) /\
    calls d1 = calls d ++ write_calls CAP_DAC_A_ADDR byte /\
    regs (i2cbus d1) CAP_DAC_A_ADDR = byte /\
    cap_daca d1 = (Return val, d2).
Proof.
  intros Hc val byte.
  destruct (daca_encode_sum e c Hc) as [Hsum Hbit].
  split; [exact Hsum|]. split; [exact Hbit|].
  split; [apply (daca_code_back e c Hc)|].
  eexists. eexists. split; [apply sim_set_cap_daca; exact Hc|].
  split; [reflexivity|]. split; [reflexivity|].
  rewrite sim_cap_daca. f_equal.
  cbn [on i2cbus poke regs]. unfold upd. rewrite Z.eqb_refl.
  unfold cap_daca_decode.
  rewrite (daca_code_back e c Hc), (daca_enable_back e c Hc). reflexivity.
Qed.

Lemma cap_daca_round_trip_witness :
  0 <= 100 <= 127 /\
  let val := {| DACAENA := true; DACA7bit := 100 |} in
  let byte := cap_daca_encode val in
  byte = 128 + 100 /\
  Z.testbit byte 7 = true /\
  Z.land byte 0x7F = 100 /\
  exists d1 d2,
    set_cap_daca val (boot steady zeroed true) = (Return tt, d1) /\
    calls d1 = [] ++ write_calls CAP_DAC_A_ADDR byte /\
    regs (i2cbus d1) CAP_DAC_A_ADDR = byte /\
    cap_daca d1 = (Return val, d2).
Proof.
  split; [lia|].
  apply (cap_daca_round_trip true 100 (boot steady zeroed true)); lia.
Defined.

(** * Unit conversion *)

(** C8.  [cap_val_to_pf] is the raw count, converted to binary64, times
    the constant 4.096 / 0x800000, for every raw count.  Count 0 maps to
    0.0 and count 0x800000 to 4.096, exactly.  Over the 24-bit range the
    map is strictly increasing, and doubling the count doubles the result
    exactly ([=?] and [<?] are the binary64 comparisons). *)
Theorem cap_val_to_pf_linear_scale :
  (forall raw : Z,
     cap_val_to_pf raw = (float_of_int raw * (4.096 / float_of_int 0x800000))%float) /\
  cap_val_to_pf 0 = 0%float /\
  cap_val_to_pf 0x800000 = 4.096%float /\
  (forall a b : Z, 0 <= a -> a < b -> b <= 0xFFFFFF ->
     (cap_val_to_pf a <? cap_val_to_pf b)%float = true) /\
  (forall raw : Z, 0 <= raw -> 2 * raw <= 0xFFFFFF ->
     (cap_val_to_pf (2 * raw) =? 2 * cap_val_to_pf raw)%float = true).
Proof.
  split; [intros raw; reflexivity|].
  split; [exact pf_zero|]. split; [exact pf_full|].
  split; [exact pf_monotone | exact pf_doubling].
Qed.

(** * Further properties *)

(** X1.  The DAC A setter, on every adapter: a code below 0 or above 127
    raises the value error and leaves the driver, its call log included, as
    it was: nothing reaches the bus. *)
Theorem set_cap_daca_rejects_out_of_range
    (B : Type) (H : HostAdapter B) (val : cap_daca_reg) (d : driver B) :
  DACA7bit val < 0 \/ 127 < DACA7bit val ->
  set_cap_daca val d = (Raise (ValueError "DACA7bit" (DACA7bit val)), d).
Proof.
  intros Hc. unfold set_cap_daca.
  assert (E : (DACA7bit val >? 127) || (DACA7bit val <? 0) = true).
  { apply orb_true_iff. destruct Hc as [Hc|Hc].
    - right. apply Z.ltb_lt. exact Hc.
    - left. rewrite Z.gtb_ltb. apply Z.ltb_lt. exact Hc. }
  rewrite E. reflexivity.
Qed.

Lemma set_cap_daca_rejects_out_of_range_witness :
  (128 < 0 \/ 127 < 128) /\
  set_cap_daca {| DACAENA := true; DACA7bit := 128 |} (boot steady zeroed true) =
    (Raise (ValueError "DACA7bit" 128), boot steady zeroed true).
Proof.
  split; [right; lia|].
  apply (set_cap_daca_rejects_out_of_range device adapter
           {| DACAENA := true; DACA7bit := 128 |} (boot steady zeroed true)).
  right. cbn. lia.
Defined.

(** X2.  An acquisition in continuous mode whose first status read reports
    the excitation fault and no data ready raises the fault error on that
    read: the log holds the status read and the red indicator, and no read
    of the capacitance data registers. *)
Theorem get_raw_cap_val_fault_without_data
    (fuel : nat) (timeout : float) (d : driver device) :
  cont_conv d = true ->
  EXCERR (status_decode (status_byte (model (i2cbus d)) (polls (i2cbus d)))) = true ->
  RDYCAP (status_decode (status_byte (model (i2cbus d)) (polls (i2cbus d)))) = true ->
  exists d',
    get_raw_cap_val (S fuel) timeout d = (Raise (IOError ExcitationError), d') /\
    calls d' = calls d ++ read_calls STATUS_ADDR 1 ++ [SetLEDRGB 255 0 0] /\
    lamp (i2cbus d') = Some (255, 0, 0).
Proof.
  intros Hc He Hn. unfold get_raw_cap_val.
  run_by ltac:(unfold get_cont_conv; rewrite Hc; reflexivity).
  cbn [negb]. run. run_by ltac:(apply sim_now).
  cbn [poll]. run_by ltac:(apply sim_status).
  cbn [on i2cbus model polls snd wall_clock]. rewrite Hn, He. cbn [negb].
  run_by ltac:(apply sim_led).
  eexists. split; [reflexivity|]. split.
  - cbn [on calls]. rewrite app_nil_r, <- app_assoc. reflexivity.
  - reflexivity.
Qed.

Lemma get_raw_cap_val_fault_without_data_witness :
  exists d',
    get_raw_cap_val 1 10 (boot fault_no_data zeroed true) =
      (Raise (IOError ExcitationError), d') /\
    calls d' = [] ++ read_calls STATUS_ADDR 1 ++ [SetLEDRGB 255 0 0] /\
    lamp (i2cbus d') = Some (255, 0, 0).
Proof.
  apply (get_raw_cap_val_fault_without_data 0 10 (boot fault_no_data zeroed true));
    reflexivity.
Defined.

(** X5.  The four bitfield registers through the bus: on a device that
    returns the byte last written, each setter followed by its getter
    yields the structure that was set. *)
Theorem bitfield_round_trip_on_bus (d : driver device) :
  (forall S : cap_setup_reg,
     exists d1 d2,
       set_cap_setup S d = (Return tt, d1) /\ cap_setup d1 = (Return S, d2)) /\
  (forall S : vt_setup_reg,
     exists d1 d2,
       set_vt_setup S d = (Return tt, d1) /\ vt_setup d1 = (Return S, d2)) /\
  (forall S : exc_setup_reg,
     exists d1 d2,
       set_exc_setup S d = (Return tt, d1) /\ exc_setup d1 = (Return S, d2)) /\
  (forall S : configuration_reg,
     exists d1 d2,
       set_configuration S d = (Return tt, d1) /\
       configuration d1 = (Return S, d2)).
Proof.
  repeat split.
  - intros [[] [] [] []]; eexists; eexists;
      (split; [apply sim_write_byte|]);
      unfold cap_setup; run_by ltac:(apply sim_read_byte); reflexivity.
  - intros [[] [] [] [] [] []]; eexists; eexists;
      (split; [apply sim_write_byte|]);
      unfold vt_setup; run_by ltac:(apply sim_read_byte); reflexivity.
  - intros [[] [] [] [] [] [] [] []]; eexists; eexists;
      (split; [apply sim_write_byte|]);
      unfold exc_setup; run_by ltac:(apply sim_read_byte); reflexivity.
  - intros [[] [] [] [] [] [] [] []]; eexists; eexists;
      (split; [apply sim_write_byte|]);
      rewrite sim_configuration; reflexivity.
Qed.

(** ** What reaches the adapter, on every adapter *)

Section Emits.

Context {B : Type} `{HostAdapter B}.
Variable P : call -> Prop.

Lemma emits_ret {A} (a : A) : emits P (ret a : M B A).
Proof. intros d. split; [reflexivity|]. exists []. rewrite app_nil_r. auto. Qed.

Lemma emits_raise {A} (e : exn) : emits P (raise e : M B A).
Proof. intros d. split; [reflexivity|]. exists []. rewrite app_nil_r. auto. Qed.

Lemma emits_out_of_fuel {A} : emits P (out_of_fuel : M B A).
Proof. intros d. split; [reflexivity|]. exists []. rewrite app_nil_r. auto. Qed.

Lemma emits_bind {A C} (m : M B A) (k : A -> M B C) :
  emits P m -> (forall a, emits P (k a)) -> emits P (bind m k).
Proof.
  intros Hm Hk d. destruct (Hm d) as (Hc & l & Hl & HP).
  unfold bind. destruct (m d) as [[a|e|] d'] eqn:E; cbn [fst snd] in *.
  - destruct (Hk a d') as (Hc' & l' & Hl' & HP'). split; [congruence|].
    exists (l ++ l'). rewrite Hl', Hl, app_assoc. split; [reflexivity|].
    apply Forall_app. auto.
  - split; [exact Hc|]. exists l. auto.
  - split; [exact Hc|]. exists l. auto.
Qed.

Lemma emits_on_bus {A} (c : call) (f : B -> A * B) :
  P c -> emits P (on_bus c f).
Proof.
  intros Hc d. unfold on_bus. destruct (f (i2cbus d)) as [a b'].
  split; [reflexivity|]. exists [c]. auto.
Qed.

Lemma emits_now : emits P (now : M B float).
Proof.
  intros d. unfold now. destruct (time_time (i2cbus d)) as [t b'].
  split; [reflexivity|]. exists []. rewrite app_nil_r. auto.
Qed.

Lemma emits_get_cont_conv : emits P (get_cont_conv : M B bool).
Proof. intros d. split; [reflexivity|]. exists []. rewrite app_nil_r. auto. Qed.

Lemma emits_print_cal (start : Z) : emits P (print_cal start : M B unit).
Proof. intros d. split; [reflexivity|]. exists []. rewrite app_nil_r. auto. Qed.

Lemma emits_item (l : list Z) (i : nat) : emits P (item l i : M B Z).
Proof. unfold item. destruct (nth_error l i); [apply emits_ret | apply emits_raise]. Qed.

Lemma emits_check (r : string) : emits P (_check_device_success r : M B unit).
Proof.
  unfold _check_device_success.
  destruct (r =? "-OK")%string; [apply emits_ret|].
  destruct (r =? "-NG")%string; apply emits_raise.
Qed.

End Emits.

Ltac emits_step :=
  first
    [ apply emits_ret | apply emits_raise | apply emits_out_of_fuel
    | apply emits_now | apply emits_get_cont_conv | apply emits_print_cal
    | apply emits_item | apply emits_check
    | apply emits_on_bus; cbn; solve [ auto ]
    | apply emits_bind; [ | intros ? ] ].

Section EmitsDriver.

Context {B : Type} `{HostAdapter B}.

Lemma emits_read_byte (P : call -> Prop) (addr byte_len : Z) :
  Forall P (read_calls addr byte_len) -> emits P (read_byte addr byte_len : M B _).
Proof.
  intros HP. unfold read_calls in HP.
  repeat match goal with
         | H : Forall _ (_ :: _) |- _ => apply Forall_cons_iff in H; destruct H
         end.
  unfold read_byte.
  repeat first [ apply emits_bind; [ | intros ? ]
               | apply emits_check
               | apply emits_on_bus; assumption ].
  match goal with
  | |- emits _ (match ?x with _ => _ end) =>
      destruct x; [apply emits_raise | apply emits_raise | apply emits_ret]
  end.
Qed.

Lemma emits_write_byte (P : call -> Prop) (register value : Z) :
  Forall P (write_calls register value) -> emits P (write_byte register value : M B _).
Proof.
  intros HP. unfold write_calls in HP.
  repeat match goal with
         | H : Forall _ (_ :: _) |- _ => apply Forall_cons_iff in H; destruct H
         end.
  unfold write_byte.
  repeat first [ apply emits_bind; [ | intros ? ]
               | apply emits_check
               | apply emits_on_bus; assumption ].
Qed.

End EmitsDriver.

Section EmitsMethods.

Context {B : Type} `{HostAdapter B}.

Lemma addressed_read_calls (a n : Z) : Forall addressed (read_calls a n).
Proof. unfold read_calls. repeat constructor. Qed.

Lemma addressed_write_calls (a v : Z) : Forall addressed (write_calls a v).
Proof. unfold write_calls. repeat constructor. Qed.

Lemma chip_read_read_calls (a n : Z) : Forall chip_read (read_calls a n).
Proof. unfold read_calls, chip_read. repeat constructor. Qed.

Lemma chip_read_led : chip_read (SetLEDRGB 255 0 0).
Proof. unfold chip_read. repeat constructor. Qed.

Ltac emits_all :=
  repeat first
    [ apply emits_ret | apply emits_raise | apply emits_out_of_fuel
    | apply emits_now | apply emits_get_cont_conv | apply emits_print_cal
    | apply emits_item | apply emits_check
    | apply emits_read_byte; first [ apply addressed_read_calls | apply chip_read_read_calls ]
    | apply emits_write_byte; apply addressed_write_calls
    | apply emits_on_bus; first [ apply chip_read_led | repeat constructor ]
    | apply emits_bind; [ | intros ? ] ].

Lemma emits_status (P : call -> Prop) :
  Forall P (read_calls STATUS_ADDR 1) -> emits P (status : M B _).
Proof.
  intros HP. unfold status.
  apply emits_bind; [apply emits_read_byte; exact HP | intros l].
  apply emits_bind; [apply emits_item | intros b]. apply emits_ret.
Qed.

Lemma emits_cap_data (P : call -> Prop) :
  Forall P (read_calls CAP_DATA_H_ADDR 3) -> emits P (cap_data : M B _).
Proof.
  intros HP. unfold cap_data.
  apply emits_bind; [apply emits_read_byte; exact HP | intros l].
  repeat (apply emits_bind; [apply emits_item | intros ?]). apply emits_ret.
Qed.

Lemma emits_poll (P : call -> Prop) (start_time timeout : float) :
  Forall P (read_calls STATUS_ADDR 1) ->
  Forall P (read_calls CAP_DATA_H_ADDR 3) ->
  P (SetLEDRGB 255 0 0) ->
  forall fuel, emits P (poll fuel start_time timeout : M B _).
Proof.
  intros Hs Hd Hl. induction fuel as [|fuel IH]; cbn [poll].
  - apply emits_out_of_fuel.
  - apply emits_bind; [apply emits_status; exact Hs | intros st].
    destruct (negb (RDYCAP st)); [apply emits_cap_data; exact Hd|].
    destruct (EXCERR st).
    + apply emits_bind; [apply emits_on_bus; exact Hl | intros _].
      apply emits_raise.
    + apply emits_bind; [apply emits_now | intros t].
      destruct (timeout <? t - start_time)%float; [|exact IH].
      apply emits_bind; [apply emits_on_bus; exact Hl | intros _].
      apply emits_raise.
Qed.

Lemma emits_get_raw_cap_val (fuel : nat) (timeout : float) :
  emits addressed (get_raw_cap_val fuel timeout : M B _).
Proof.
  unfold get_raw_cap_val.
  apply emits_bind; [apply emits_get_cont_conv | intros c].
  apply emits_bind.
  - destruct (negb c); [|apply emits_ret].
    unfold configuration, set_configuration. emits_all.
  - intros _. apply emits_bind; [apply emits_now | intros t].
    apply emits_poll; try apply addressed_read_calls. repeat constructor.
Qed.

Lemma emits_set_cap_daca (val : cap_daca_reg) :
  emits addressed (set_cap_daca val : M B _).
Proof.
  unfold set_cap_daca.
  destruct ((DACA7bit val >? 127) || (DACA7bit val <? 0)); [apply emits_raise|].
  destruct (DACAENA val); emits_all.
Qed.

Lemma emits_scan (fuel : nat) :
  forall (n : nat) (start : Z), emits addressed (scan n fuel start : M B _).
Proof.
  induction n as [|n IH]; intros start; rewrite scan_unfold;
    destruct (start <=? 127); try apply emits_ret; [apply emits_out_of_fuel|].
  apply emits_bind; [apply emits_print_cal | intros _].
  apply emits_bind; [apply emits_set_cap_daca | intros _].
  apply emits_bind; [apply emits_get_raw_cap_val | intros _].
  apply emits_bind; [apply emits_get_raw_cap_val | intros v].
  destruct (v >? 0); [apply IH | apply emits_ret].
Qed.

Lemma emits_cal_low_val (fuel : nat) (st_val : Z) :
  emits addressed (cal_low_val fuel st_val : M B _).
Proof.
  unfold cal_low_val.
  apply emits_bind; [apply emits_get_raw_cap_val | intros _].
  apply emits_bind; [apply emits_get_raw_cap_val | intros _].
  apply emits_bind; [apply emits_scan | intros start].
  apply emits_bind; [apply emits_set_cap_daca | intros _].
  apply emits_bind; [apply emits_get_raw_cap_val | intros _].
  apply emits_bind; [apply emits_get_raw_cap_val | intros v].
  apply emits_bind.
  - destruct (negb (v =? 0)); [|apply emits_ret].
    apply emits_bind; [apply emits_get_raw_cap_val | intros v']. apply emits_ret.
  - intros ok. destruct ok; [apply emits_ret|].
    apply emits_bind; [apply emits_on_bus; repeat constructor | intros _].
    apply emits_bind; [apply emits_get_raw_cap_val | intros raw]. apply emits_raise.
Qed.

Lemma emits_cap_input (input_setting : CapInput) :
  emits addressed (cap_input input_setting : M B _).
Proof.
  unfold cap_input, configuration, set_cap_setup, set_exc_setup, set_configuration.
  apply emits_bind; [emits_all | intros conf].
  destruct input_setting; emits_all.
Qed.

Lemma emits_cap_filter (filter_setting : CapFilter) :
  emits addressed (cap_filter filter_setting : M B _).
Proof.
  unfold cap_filter, configuration, set_configuration.
  apply emits_bind; [emits_all | intros conf].
  destruct (filter_fields filter_setting) as [[fs2 fs1] fs0]. emits_all.
Qed.

End EmitsMethods.

(** X6.  On every adapter, whatever it answers: every call that
    [write_byte], [read_byte], [get_raw_cap_val], [cap_filter],
    [cap_input] and [cal_low_val] make goes to bus index 0, every start
    condition carries the write address 0x90 and every read the read
    address 0x91, the only indicator colour ever set is red (255, 0, 0),
    and none of them changes [cont_conv]. *)
Theorem driver_addresses_only_the_chip (B : Type) (H : HostAdapter B) :
  (forall register value, emits addressed (write_byte register value : M B _)) /\
  (forall addr byte_len, emits addressed (read_byte addr byte_len : M B _)) /\
  (forall fuel timeout, emits addressed (get_raw_cap_val fuel timeout : M B _)) /\
  (forall filter_setting, emits addressed (cap_filter filter_setting : M B _)) /\
  (forall input_setting, emits addressed (cap_input input_setting : M B _)) /\
  (forall fuel st_val, emits addressed (cal_low_val fuel st_val : M B _)).
Proof.
  split; [intros; apply emits_write_byte, addressed_write_calls|].
  split; [intros; apply emits_read_byte, addressed_read_calls|].
  split; [intros; apply emits_get_raw_cap_val|].
  split; [intros; apply emits_cap_filter|].
  split; [intros; apply emits_cap_input | intros; apply emits_cal_low_val].
Qed.

(** X7.  On every adapter, an acquisition in continuous mode writes no
    register: each call it makes belongs to a read of the status register
    or to a read of the three capacitance data registers, or sets the
    indicator to red, and no transaction is closed the way [write_byte]
    closes one (endI2C with repeat False). *)
Theorem acquisition_never_writes
    (B : Type) (H : HostAdapter B) (fuel : nat) (timeout : float) (d : driver B) :
  cont_conv d = true ->
  exists l,
    calls (snd (get_raw_cap_val fuel timeout d)) = calls d ++ l /\
    Forall chip_read l /\
    forall c, In c l ->
      In c (read_calls STATUS_ADDR 1 ++ read_calls CAP_DATA_H_ADDR 3 ++
            [SetLEDRGB 255 0 0]).
Proof.
  intros Hc.
  set (P := fun c => chip_read c /\
            In c (read_calls STATUS_ADDR 1 ++ read_calls CAP_DATA_H_ADDR 3 ++
                  [SetLEDRGB 255 0 0])).
  assert (E : emits P (start_time <- now;; poll fuel start_time timeout : M B _)).
  { apply emits_bind; [apply emits_now | intros t].
    apply emits_poll.
    - apply Forall_forall. intros c Hin. split.
      + pose proof (chip_read_read_calls STATUS_ADDR 1) as Hr.
        rewrite Forall_forall in Hr. apply Hr. exact Hin.
      + apply in_or_app. left. exact Hin.
    - apply Forall_forall. intros c Hin. split.
      + pose proof (chip_read_read_calls CAP_DATA_H_ADDR 3) as Hr.
        rewrite Forall_forall in Hr. apply Hr. exact Hin.
      + apply in_or_app. right. apply in_or_app. left. exact Hin.
    - split; [apply chip_read_led|].
      apply in_or_app. right. apply in_or_app. right. left. reflexivity. }
  destruct (E d) as (_ & l & Hl & HP).
  exists l. split.
  - rewrite <- Hl. unfold get_raw_cap_val, bind at 1, get_cont_conv.
    rewrite Hc. reflexivity.
  - split.
    + eapply Forall_impl; [|exact HP]. intros c [Hc' _]. exact Hc'.
    + intros c Hin. rewrite Forall_forall in HP. apply (HP c Hin).
Qed.

Section Refusal.

Context {B : Type} `{HostAdapter B}.





End Refusal.


(** A read on an adapter whose reply does not parse: all four calls are
    made, and the value error of [int] comes out of [read_byte], and so
    out of the getter that asked. *)
Example read_byte_on_a_garbled_reply :
  let d := {| i2cbus := tt; cont_conv := true; calls := []; console := [] |} in
  @read_byte unit garbled 0x00 1 d =
    (Raise (InvalidLiteral "zz"),
     {| i2cbus := tt; cont_conv := true; calls := read_calls 0x00 1; console := [] |}) /\
  fst (@status unit garbled d) = Raise (InvalidLiteral "zz").
Proof. split; reflexivity. Qed.

(** ** The 16-bit calibration registers *)

Lemma split_join_16 (v : Z) :
  Z.shiftl (Z.shiftr v 8) 8 + Z.land v 0xFF = v.
Proof.
  rewrite Z.shiftl_mul_pow2, Z.shiftr_div_pow2 by lia.
  change 0xFF with (Z.ones 8). rewrite Z.land_ones by lia.
  change (2 ^ 8) with 256. pose proof (Z.div_mod v 256 ltac:(lia)). lia.
Qed.

Lemma split_bytes_16 (v : Z) :
  0 <= v <= 0xFFFF ->
  0 <= Z.shiftr v 8 < 256 /\ 0 <= Z.land v 0xFF < 256.
Proof.
  intros Hv. rewrite Z.shiftr_div_pow2 by lia.
  change 0xFF with (Z.ones 8). rewrite Z.land_ones by lia.
  change (2 ^ 8) with 256. split.
  - split; [apply Z.div_pos; lia | apply Z.div_lt_upper_bound; lia].
  - apply Z.mod_pos_bound. lia.
Qed.

Lemma sim_set_cap_offset (val : Z) (d : driver device) :
  set_cap_offset val d =
  (Return tt,
   on (fun s => poke CAP_OFFSET_L_ADDR (Z.land val 0xFF)
                  (poke CAP_OFFSET_H_ADDR (Z.shiftr val 8) s))
      (write_calls CAP_OFFSET_H_ADDR (Z.shiftr val 8) ++
       write_calls CAP_OFFSET_L_ADDR (Z.land val 0xFF)) d).
Proof.
  unfold set_cap_offset. cbv zeta. run_by ltac:(apply sim_write_byte).
  rewrite sim_write_byte, on_on. reflexivity.
Qed.

Lemma sim_set_cap_gain (val : Z) (d : driver device) :
  set_cap_gain val d =
  (Return tt,
   on (fun s => poke CAP_GRAIN_L_ADDR (Z.land val 0xFF)
                  (poke CAP_GRAIN_H_ADDR (Z.shiftr val 8) s))
      (write_calls CAP_GRAIN_H_ADDR (Z.shiftr val 8) ++
       write_calls CAP_GRAIN_L_ADDR (Z.land val 0xFF)) d).
Proof.
  unfold set_cap_gain. cbv zeta. run_by ltac:(apply sim_write_byte).
  rewrite sim_write_byte, on_on. reflexivity.
Qed.

Lemma sim_set_volt_gain (val : Z) (d : driver device) :
  set_volt_gain val d =
  (Return tt,
   on (fun s => poke VOLT_GRAIN_L_ADDR (Z.land val 0xFF)
                  (poke VOLT_GRAIN_H_ADDR (Z.shiftr val 8) s))
      (write_calls VOLT_GRAIN_H_ADDR (Z.shiftr val 8) ++
       write_calls VOLT_GRAIN_L_ADDR (Z.land val 0xFF)) d).
Proof.
  unfold set_volt_gain. cbv zeta. run_by ltac:(apply sim_write_byte).
  rewrite sim_write_byte, on_on. reflexivity.
Qed.

Lemma sim_cap_offset (d : driver device) :
  cap_offset d =
  (Return (Z.shiftl (regs (i2cbus d) CAP_OFFSET_H_ADDR) 8 +
           regs (i2cbus d) CAP_OFFSET_L_ADDR),
   on (fetch CAP_OFFSET_H_ADDR 2) (read_calls CAP_OFFSET_H_ADDR 2) d).
Proof. unfold cap_offset. run_by ltac:(apply sim_read_byte). reflexivity. Qed.

Lemma sim_volt_gain (d : driver device) :
  volt_gain d =
  (Return (Z.shiftl (regs (i2cbus d) VOLT_GRAIN_H_ADDR) 8 +
           regs (i2cbus d) VOLT_GRAIN_L_ADDR),
   on (fetch VOLT_GRAIN_H_ADDR 2) (read_calls VOLT_GRAIN_H_ADDR 2) d).
Proof. unfold volt_gain. run_by ltac:(apply sim_read_byte). reflexivity. Qed.

(** X9.  The 16-bit calibration registers on the simulated device, for
    every value 0..0xFFFF.  The setters of the capacitance offset and of
    the voltage gain write the high byte and then the low byte, both in
    0..255, to 0x0D/0x0E and to 0x11/0x12, and the getter then returns the
    value written.  The capacitance gain setter writes 0x0F/0x10, and
    [cap_gain] afterwards returns what [cap_offset] returned before the
    write: it reads 0x0D/0x0E. *)
Theorem calibration_registers_round_trip (val : Z) (d : driver device) :
  0 <= val <= 0xFFFF ->
  (0 <= Z.shiftr val 8 < 256 /\ 0 <= Z.land val 0xFF < 256) /\
  (exists d1 d2,
     set_cap_offset val d = (Return tt, d1) /\
     calls d1 = calls d ++ write_calls 0x0D (Z.shiftr val 8) ++
                           write_calls 0x0E (Z.land val 0xFF) /\
     cap_offset d1 = (Return val, d2)) /\
  (exists d1 d2,
     set_volt_gain val d = (Return tt, d1) /\
     calls d1 = calls d ++ write_calls 0x11 (Z.shiftr val 8) ++
                           write_calls 0x12 (Z.land val 0xFF) /\
     volt_gain d1 = (Return val, d2)) /\
  (exists d1 d2,
     set_cap_gain val d = (Return tt, d1) /\
     calls d1 = calls d ++ write_calls 0x0F (Z.shiftr val 8) ++
                           write_calls 0x10 (Z.land val 0xFF) /\
     cap_gain d1 = (fst (cap_offset d), d2)).
Proof.
  intros Hv. split; [apply split_bytes_16; exact Hv|].
  split; [|split].
  - eexists. eexists. split; [apply sim_set_cap_offset|]. split; [reflexivity|].
    rewrite sim_cap_offset. f_equal.
    cbn [on i2cbus poke regs]. unfold upd. cbn [Z.eqb CAP_OFFSET_H_ADDR CAP_OFFSET_L_ADDR Pos.eqb].
    rewrite split_join_16. reflexivity.
  - eexists. eexists. split; [apply sim_set_volt_gain|]. split; [reflexivity|].
    rewrite sim_volt_gain. f_equal.
    cbn [on i2cbus poke regs]. unfold upd. cbn [Z.eqb VOLT_GRAIN_H_ADDR VOLT_GRAIN_L_ADDR Pos.eqb].
    rewrite split_join_16. reflexivity.
  - eexists. eexists. split; [apply sim_set_cap_gain|]. split; [reflexivity|].
    change (@cap_gain device adapter) with (@cap_offset device adapter).
    rewrite !sim_cap_offset. reflexivity.
Qed.

Lemma calibration_registers_round_trip_witness :
  0 <= 0xABCD <= 0xFFFF /\
  (exists d1 d2,
     set_cap_offset 0xABCD (boot steady own_address true) = (Return tt, d1) /\
     cap_offset d1 = (Return 0xABCD, d2)) /\
  (exists d1 d2,
     set_cap_gain 0xABCD (boot steady own_address true) = (Return tt, d1) /\
     cap_gain d1 = (Return 0x0D0E, d2)).
Proof.
  split; [lia|].
  destruct (calibration_registers_round_trip 0xABCD (boot steady own_address true)
              ltac:(lia)) as (_ & (o1 & o2 & Ho & _ & Hr) & _ & (g1 & g2 & Hg & _ & Hgr)).
  split.
  - exists o1, o2. split; assumption.
  - exists g1, g2. split; [assumption|]. exact Hgr.
Defined.

(** ** The DAC B register *)

Lemma sim_cap_dacb (d : driver device) :
  cap_dacb d =
  (Return (cap_dacb_decode (regs (i2cbus d) CAP_DAC_B_ADDR)),
   on (fetch CAP_DAC_B_ADDR 1) (read_calls CAP_DAC_B_ADDR 1) d).
Proof. unfold cap_dacb. run_by ltac:(apply sim_read_byte). reflexivity. Qed.

Lemma dacb_in_range (c : Z) : 0 <= c <= 177 -> (c >? 177) || (c <? 0) = false.
Proof.
  intros Hc. apply orb_false_iff. split.
  - rewrite Z.gtb_ltb. apply Z.ltb_ge. lia.
  - apply Z.ltb_ge. lia.
Qed.

Lemma sim_set_cap_dacb (e : bool) (c : Z) (d : driver device) :
  0 <= c <= 177 ->
  set_cap_dacb {| DACBENB := e; DACB7bit := c |} d =
  (Return tt,
   on (poke CAP_DAC_B_ADDR (if e then Z.lor (Z.shiftl 1 7) c else c))
      (write_calls CAP_DAC_B_ADDR (if e then Z.lor (Z.shiftl 1 7) c else c)) d).
Proof.
  intros Hc. unfold set_cap_dacb. cbn [DACB7bit DACBENB].
  rewrite dacb_in_range by assumption.
  destruct e; apply sim_write_byte.
Qed.

Lemma dacb_eqb_eq (x y : cap_dacb_reg) : dacb_eqb x y = true -> x = y.
Proof.
  destruct x, y. unfold dacb_eqb. cbn. intros E.
  apply andb_true_iff in E. destruct E as [E1 E2].
  apply Bool.eqb_prop in E1. apply Z.eqb_eq in E2. congruence.
Qed.

Lemma dacb_read_back (e : bool) (c : Z) :
  0 <= c <= 177 ->
  cap_dacb_decode (if e then Z.lor (Z.shiftl 1 7) c else c) =
  if c <=? 127 then {| DACBENB := e; DACB7bit := c |}
  else {| DACBENB := true; DACB7bit := c - 128 |}.
Proof.
  intros Hc.
  assert (Hall : forall z, 0 <= z < Z.of_nat 178 ->
    dacb_eqb (cap_dacb_decode (if e then Z.lor (Z.shiftl 1 7) z else z))
             (if z <=? 127 then {| DACBENB := e; DACB7bit := z |}
              else {| DACBENB := true; DACB7bit := z - 128 |}) = true).
  { apply forall_below. destruct e; vm_compute; reflexivity. }
  apply dacb_eqb_eq, Hall. lia.
Qed.

(** X10.  DAC B on the simulated device, for every flag and every code
    the setter accepts (0..177): a code up to 127 reads back as it was
    set; a code in 128..177 reads back with the enable flag set and the
    code lowered by 128, whatever flag was given. *)
Theorem cap_dacb_read_back (e : bool) (c : Z) (d : driver device) :
  0 <= c <= 177 ->
  exists d1 d2,
    set_cap_dacb {| DACBENB := e; DACB7bit := c |} d = (Return tt, d1) /\
    cap_dacb d1 =
      (Return (if c <=? 127 then {| DACBENB := e; DACB7bit := c |}
               else {| DACBENB := true; DACB7bit := c - 128 |}), d2).
Proof.
  intros Hc. eexists. eexists. split; [apply sim_set_cap_dacb; exact Hc|].
  rewrite sim_cap_dacb. cbn [on i2cbus poke regs].
  rewrite upd_same, dacb_read_back by exact Hc. reflexivity.
Qed.

Lemma cap_dacb_read_back_witness :
  0 <= 150 <= 177 /\
  exists d1 d2,
    set_cap_dacb {| DACBENB := false; DACB7bit := 150 |} (boot steady zeroed true) =
      (Return tt, d1) /\
    cap_dacb d1 = (Return {| DACBENB := true; DACB7bit := 22 |}, d2).
Proof.
  split; [lia|].
  exact (cap_dacb_read_back false 150 (boot steady zeroed true) ltac:(lia)).
Defined.

(** ** What the codec keeps of a byte *)

Lemma byte_cases (P : Z -> bool) :
  forallb P (map Z.of_nat (seq 0 256)) = true ->
  forall b, 0 <= b <= 255 -> P b = true.
Proof. intros Hall b Hb. apply (forall_below P 256 Hall). lia. Qed.

(** X11.  What the codec keeps of a register byte 0..255 when the value
    a getter decoded is encoded again by the setter: capacitance setup
    keeps bits 7, 6, 5 and 0 (mask 0xE1) and clears the others;
    voltage/temperature setup keeps the mask 0xF3; excitation setup,
    configuration and DAC A keep every bit. *)
Theorem codec_keeps_named_bits (b : Z) :
  0 <= b <= 255 ->
  cap_setup_encode (cap_setup_decode b) = Z.land b 0xE1 /\
  vt_setup_encode (vt_setup_decode b) = Z.land b 0xF3 /\
  exc_setup_encode (exc_setup_decode b) = b /\
  configuration_encode (configuration_decode b) = b /\
  cap_daca_encode (cap_daca_decode b) = b.
Proof.
  intros Hb.
  assert (Hall : forall z, 0 <= z <= 255 ->
    ((cap_setup_encode (cap_setup_decode z) =? Z.land z 0xE1) &&
     (vt_setup_encode (vt_setup_decode z) =? Z.land z 0xF3) &&
     (exc_setup_encode (exc_setup_decode z) =? z) &&
     (configuration_encode (configuration_decode z) =? z) &&
     (cap_daca_encode (cap_daca_decode z) =? z)) = true).
  { apply byte_cases. vm_compute. reflexivity. }
  specialize (Hall b Hb). rewrite !andb_true_iff in Hall.
  destruct Hall as ((((H1 & H2) & H3) & H4) & H5).
  apply Z.eqb_eq in H1, H2, H3, H4, H5. auto.
Qed.

Lemma codec_keeps_named_bits_witness :
  0 <= 0xFF <= 255 /\
  cap_setup_encode (cap_setup_decode 0xFF) = 0xE1 /\
  vt_setup_encode (vt_setup_decode 0xFF) = 0xF3.
Proof.
  split; [lia|].
  destruct (codec_keeps_named_bits 0xFF ltac:(lia)) as (H1 & H2 & _).
  split; [exact H1 | exact H2].
Defined.

(** ** The status flags *)

Lemma flag_testbit (x : Z) (k : Z) :
  0 <= k -> flag x (Z.shiftl 1 k) = Z.testbit x k.
Proof.
  intros Hk. unfold flag.
  rewrite Z.shiftl_1_l.
  destruct (Z.testbit x k) eqn:E.
  - apply negb_true_iff, Z.eqb_neq. intros Hz.
    assert (T : Z.testbit (Z.land x (2 ^ k)) k = true).
    { rewrite Z.land_spec, E, Z.pow2_bits_true by lia. reflexivity. }
    rewrite Hz, Z.bits_0 in T. discriminate.
  - apply negb_false_iff, Z.eqb_eq. apply Z.bits_inj'. intros n Hn.
    rewrite Z.land_spec, Z.bits_0.
    destruct (Z.eq_dec n k) as [->|Hne].
    + rewrite E. reflexivity.
    + rewrite (Z.pow2_bits_false k n) by lia. apply andb_false_r.
Qed.

(** X3.  The four status flags are the four low bits of the status byte,
    for every integer the adapter hands back: EXCERR is bit 3, RDY bit 2,
    RDYVT bit 1 and RDYCAP bit 0; the bits above them are not looked at.
    On the simulated device [status] makes one read of register 0x00 and
    yields these flags. *)
Theorem status_flags_are_bits (d : driver device) :
  (forall x : Z,
     status_decode x =
       {| EXCERR := Z.testbit x 3; RDY := Z.testbit x 2;
          RDYVT := Z.testbit x 1; RDYCAP := Z.testbit x 0 |}) /\
  (let x := status_byte (model (i2cbus d)) (polls (i2cbus d)) in
   exists d',
     status d =
       (Return {| EXCERR := Z.testbit x 3; RDY := Z.testbit x 2;
                  RDYVT := Z.testbit x 1; RDYCAP := Z.testbit x 0 |}, d') /\
     calls d' = calls d ++ read_calls 0x00 1).
Proof.
  assert (Hd : forall x : Z,
     status_decode x =
       {| EXCERR := Z.testbit x 3; RDY := Z.testbit x 2;
          RDYVT := Z.testbit x 1; RDYCAP := Z.testbit x 0 |}).
  { intros x. unfold status_decode, STATUS_EXCERR, STATUS_RDY, STATUS_RDYVT,
      STATUS_RDYCAP. rewrite !flag_testbit by lia. reflexivity. }
  split; [exact Hd|].
  cbv zeta. eexists. split.
  - rewrite sim_status, Hd. reflexivity.
  - reflexivity.
Qed.

(** ** Composing filter selections *)

Lemma refiltered_twice (f g : CapFilter) (b : Z) :
  0 <= b <= 255 ->
  refiltered g (refiltered f b) = refiltered g b.
Proof.
  intros Hb.
  assert (Hall : forall z, 0 <= z <= 255 ->
            (refiltered g (refiltered f z) =? refiltered g z) = true).
  { apply byte_cases. destruct f, g; vm_compute; reflexivity. }
  apply Z.eqb_eq, Hall, Hb.
Qed.

(** X12.  Two filter selections in a row on the simulated device, the
    configuration register holding a byte: every register ends as after
    the second selection alone, and the configuration register decodes to
    the three filter bits of the second selection. *)
Theorem cap_filter_last_selection_wins (f g : CapFilter) (d : driver device) :
  0 <= regs (i2cbus d) CONFIG_ADDR <= 255 ->
  exists d1 d2 d3,
    cap_filter f d = (Return tt, d1) /\
    cap_filter g d1 = (Return tt, d2) /\
    cap_filter g d = (Return tt, d3) /\
    (forall a, regs (i2cbus d2) a = regs (i2cbus d3) a) /\
    CAPFS2 (configuration_decode (regs (i2cbus d2) CONFIG_ADDR)) = fst (fst (filter_fields g)) /\
    CAPFS1 (configuration_decode (regs (i2cbus d2) CONFIG_ADDR)) = snd (fst (filter_fields g)) /\
    CAPFS0 (configuration_decode (regs (i2cbus d2) CONFIG_ADDR)) = snd (filter_fields g).
Proof.
  intros Hb. eexists. eexists. eexists.
  split; [apply sim_cap_filter|]. split; [apply sim_cap_filter|].
  split; [apply sim_cap_filter|].
  cbn [on i2cbus poke fetch regs]. rewrite !upd_same.
  rewrite refiltered_twice by exact Hb.
  split.
  - intros a. unfold upd. destruct (a =? CONFIG_ADDR); reflexivity.
  - assert (Hall : forall z, 0 <= z <= 255 ->
      (Bool.eqb (CAPFS2 (configuration_decode (refiltered g z))) (fst (fst (filter_fields g))) &&
       Bool.eqb (CAPFS1 (configuration_decode (refiltered g z))) (snd (fst (filter_fields g))) &&
       Bool.eqb (CAPFS0 (configuration_decode (refiltered g z))) (snd (filter_fields g))) = true).
    { apply byte_cases. destruct g; vm_compute; reflexivity. }
    specialize (Hall _ Hb). rewrite !andb_true_iff in Hall.
    destruct Hall as ((H1 & H2) & H3).
    apply Bool.eqb_prop in H1, H2, H3. auto.
Qed.

Lemma cap_filter_last_selection_wins_witness :
  0 <= regs (i2cbus (boot steady config_a1 true)) CONFIG_ADDR <= 255 /\
  exists d1 d2,
    cap_filter CONV8Hz (boot steady config_a1 true) = (Return tt, d1) /\
    cap_filter CONV79Hz d1 = (Return tt, d2) /\
    regs (i2cbus d2) CONFIG_ADDR = 0x89.
Proof.
  assert (Hb : 0 <= regs (i2cbus (boot steady config_a1 true)) CONFIG_ADDR <= 255)
    by (vm_compute; split; discriminate).
  split; [exact Hb|].
  destruct (cap_filter_last_selection_wins CONV8Hz CONV79Hz
              (boot steady config_a1 true) Hb)
    as (d1 & d2 & d3 & H1 & H2 & H3 & Hr & _).
  exists d1, d2. split; [exact H1|]. split; [exact H2|].
  rewrite Hr. rewrite sim_cap_filter in H3.
  injection H3 as <-. reflexivity.
Defined.

(** ** Selecting the input *)

Lemma sim_set_cap_setup (v : cap_setup_reg) (d : driver device) :
  set_cap_setup v d =
  (Return tt, on (poke CAP_SETUP_ADDR (cap_setup_encode v))
                 (write_calls CAP_SETUP_ADDR (cap_setup_encode v)) d).
Proof. apply sim_write_byte. Qed.

Lemma sim_set_exc_setup (v : exc_setup_reg) (d : driver device) :
  set_exc_setup v d =
  (Return tt, on (poke EXC_SETUP_ADDR (exc_setup_encode v))
                 (write_calls EXC_SETUP_ADDR (exc_setup_encode v)) d).
Proof. apply sim_write_byte. Qed.

Lemma sim_set_configuration (v : configuration_reg) (d : driver device) :
  set_configuration v d =
  (Return tt, on (poke CONFIG_ADDR (configuration_encode v))
                 (write_calls CONFIG_ADDR (configuration_encode v)) d).
Proof. apply sim_write_byte. Qed.

Lemma sim_cap_input (i : CapInput) (d : driver device) :
  cap_input i d =
  (Return tt,
   on (fun s =>
         poke CONFIG_ADDR (remoded (input_single i (cont_conv d)) (regs s CONFIG_ADDR))
           (poke EXC_SETUP_ADDR (input_exc_setup i)
              (poke CAP_SETUP_ADDR (input_cap_setup i) (fetch CONFIG_ADDR 3 s))))
      (read_calls CONFIG_ADDR 3 ++
       write_calls CAP_SETUP_ADDR (input_cap_setup i) ++
       write_calls EXC_SETUP_ADDR (input_exc_setup i) ++
       write_calls CONFIG_ADDR
         (remoded (input_single i (cont_conv d)) (regs (i2cbus d) CONFIG_ADDR))) d).
Proof.
  unfold cap_input. run_by ltac:(apply sim_configuration).
  destruct i.
  - run_by ltac:(apply sim_set_cap_setup). run_by ltac:(apply sim_set_exc_setup).
    rewrite sim_set_configuration, !on_on. reflexivity.
  - run_by ltac:(apply sim_set_cap_setup). run_by ltac:(apply sim_set_exc_setup).
    rewrite sim_set_configuration, !on_on. reflexivity.
  - run_by ltac:(apply sim_set_cap_setup). run_by ltac:(apply sim_set_exc_setup).
    rewrite sim_set_configuration, !on_on. reflexivity.
  - run_by ltac:(apply sim_set_cap_setup). run_by ltac:(apply sim_set_exc_setup).
    run. rewrite sim_set_configuration, !on_on.
    cbn [on cont_conv input_single]. destruct (cont_conv d); reflexivity.
Qed.

Lemma remoded_bits (single : bool) (b : Z) :
  0 <= b <= 255 ->
  Z.land (remoded single b) 0xF8 = Z.land b 0xF8 /\
  Z.land (remoded single b) 0x07 = (if single then 2 else 1).
Proof.
  intros Hb.
  assert (Hall : forall z, 0 <= z <= 255 ->
    ((Z.land (remoded single z) 0xF8 =? Z.land z 0xF8) &&
     (Z.land (remoded single z) 0x07 =? (if single then 2 else 1))) = true).
  { apply byte_cases. destruct single; vm_compute; reflexivity. }
  specialize (Hall b Hb). apply andb_true_iff in Hall. destruct Hall as [H1 H2].
  apply Z.eqb_eq in H1, H2. auto.
Qed.

(** X13.  [cap_input] on the simulated device, the configuration
    register holding a byte.  It reads the configuration and then writes
    capacitance setup, excitation setup and configuration, in that order.
    Capacitance setup becomes 0x80 for the CIN1 settings and 0xC0 for the
    CIN2 settings: CAPDIFF is never set, also not by the two differential
    settings.  Excitation setup becomes 0x0B, 0x23 or 0x1B.  In the
    configuration register the upper five bits are kept and the mode bits
    become 001 (continuous conversion); only the differential CIN2 setting
    looks at [cont_conv], and writes 010 (single conversion) when it is
    off.  No other register changes. *)
Theorem cap_input_registers (i : CapInput) (d : driver device) :
  0 <= regs (i2cbus d) CONFIG_ADDR <= 255 ->
  exists d',
    cap_input i d = (Return tt, d') /\
    calls d' = calls d ++ read_calls 0x0A 3 ++
                 write_calls 0x07 (regs (i2cbus d') 0x07) ++
                 write_calls 0x09 (regs (i2cbus d') 0x09) ++
                 write_calls 0x0A (regs (i2cbus d') 0x0A) /\
    regs (i2cbus d') 0x07 = input_cap_setup i /\
    CAPDIFF (cap_setup_decode (regs (i2cbus d') 0x07)) = false /\
    regs (i2cbus d') 0x09 = input_exc_setup i /\
    Z.land (regs (i2cbus d') 0x0A) 0xF8 = Z.land (regs (i2cbus d) 0x0A) 0xF8 /\
    Z.land (regs (i2cbus d') 0x0A) 0x07 =
      (match i with
       | CAP_DIFF_CIN2 => if cont_conv d then 1 else 2
       | _ => 1
       end) /\
    (forall a, a <> 0x07 -> a <> 0x09 -> a <> 0x0A ->
               regs (i2cbus d') a = regs (i2cbus d) a).
Proof.
  intros Hb. eexists. split; [apply sim_cap_input|].
  cbn [on i2cbus calls poke fetch regs].
  destruct (remoded_bits (input_single i (cont_conv d)) _ Hb) as [Hk Hm].
  split; [|split; [|split; [|split; [|split; [|split]]]]].
  - reflexivity.
  - reflexivity.
  - destruct i; reflexivity.
  - reflexivity.
  - exact Hk.
  - change (upd _ CONFIG_ADDR _ 0x0A) with
      (remoded (input_single i (cont_conv d)) (regs (i2cbus d) CONFIG_ADDR)).
    rewrite Hm. destruct i; cbn [input_single]; try reflexivity.
    destruct (cont_conv d); reflexivity.
  - intros a H7 H9 HA. unfold upd.
    destruct (a =? CONFIG_ADDR) eqn:E1; [apply Z.eqb_eq in E1; contradiction|].
    destruct (a =? EXC_SETUP_ADDR) eqn:E2; [apply Z.eqb_eq in E2; contradiction|].
    destruct (a =? CAP_SETUP_ADDR) eqn:E3; [apply Z.eqb_eq in E3; contradiction|].
    reflexivity.
Qed.

Lemma cap_input_registers_witness :
  0 <= regs (i2cbus (boot steady config_a1 false)) CONFIG_ADDR <= 255 /\
  exists d',
    cap_input CAP_DIFF_CIN2 (boot steady config_a1 false) = (Return tt, d') /\
    regs (i2cbus d') 0x07 = 0xC0 /\
    regs (i2cbus d') 0x09 = 0x1B /\
    Z.land (regs (i2cbus d') 0x0A) 0x07 = 2.
Proof.
  assert (Hb : 0 <= regs (i2cbus (boot steady config_a1 false)) CONFIG_ADDR <= 255)
    by (vm_compute; split; discriminate).
  split; [exact Hb|].
  destruct (cap_input_registers CAP_DIFF_CIN2 (boot steady config_a1 false) Hb)
    as (d' & H1 & _ & H2 & _ & H3 & _ & H4 & _).
  exists d'. split; [exact H1|]. split; [exact H2|]. split; [exact H3 | exact H4].
Defined.

(** ** The polling loop *)

Lemma on_nothing (d : driver device) : on (fun s => s) [] d = d.
Proof. destruct d. unfold on. cbn. rewrite app_nil_r. reflexivity. Qed.

Lemma poll_waits (start_time timeout : float) (fuel : nat) :
  forall (n : nat) (d : driver device),
    (forall j, (j < n)%nat -> waiting start_time timeout (waited j (i2cbus d))) ->
    poll (n + fuel) start_time timeout d =
    poll fuel start_time timeout (on (waited n) (status_reads n) d).
Proof.
  induction n as [|n IH]; intros d Hw.
  - cbn [waited Nat.add]. unfold status_reads. cbn [repeat List.concat].
    change (fun s : device => s) with (fun s : device => s).
    rewrite on_nothing. reflexivity.
  - destruct (Hw 0%nat ltac:(lia)) as (Hr & He & Ht). cbn [waited] in Hr, He, Ht.
    cbn [Nat.add poll]. run_by ltac:(apply sim_status).
    rewrite Hr, He. cbn [negb]. run_by ltac:(apply sim_now).
    cbn [on i2cbus fetch clock]. rewrite Ht.
    rewrite on_on. rewrite IH.
    + rewrite on_on. unfold status_reads. cbn [repeat List.concat].
      rewrite app_nil_r. reflexivity.
    + intros j Hj. apply (Hw (S j)). lia.
Qed.

Lemma sim_get_raw_waits (fuel n : nat) (timeout : float) (d : driver device) :
  cont_conv d = true ->
  (forall j, (j < n)%nat ->
     waiting (clock (i2cbus d)) timeout (waited j (snd (wall_clock (i2cbus d))))) ->
  get_raw_cap_val (n + fuel) timeout d =
  poll fuel (clock (i2cbus d)) timeout
    (on (fun s => waited n (snd (wall_clock s))) (status_reads n) d).
Proof.
  intros Hc Hw. unfold get_raw_cap_val.
  run_by ltac:(unfold get_cont_conv; rewrite Hc; reflexivity).
  cbn [negb]. run. run_by ltac:(apply sim_now).
  rewrite poll_waits by exact Hw. rewrite on_on. reflexivity.
Qed.

(** X4.  The timeout of an acquisition in continuous mode.  Take [n]
    passes of the polling loop that find no data ready, no fault and an
    elapsed time not above [timeout], and after them a pass that finds no
    data ready, no fault and an elapsed time above [timeout].  The
    acquisition raises the not-ready error on that pass: it has read the
    status [n + 1] times, has set the indicator to red, and has not read
    the capacitance data registers. *)
Theorem get_raw_cap_val_times_out
    (fuel n : nat) (timeout : float) (d : driver device) :
  let start_time := clock (i2cbus d) in
  let s := waited n (snd (wall_clock (i2cbus d))) in
  cont_conv d = true ->
  (forall j, (j < n)%nat ->
     waiting start_time timeout (waited j (snd (wall_clock (i2cbus d))))) ->
  RDYCAP (status_decode (status_byte (model s) (polls s))) = true ->
  EXCERR (status_decode (status_byte (model s) (polls s))) = false ->
  (timeout <? clock s - start_time)%float = true ->
  exists d',
    get_raw_cap_val (n + S fuel) timeout d = (Raise (IOError SensorNotReady), d') /\
    calls d' = calls d ++ status_reads (S n) ++ [SetLEDRGB 255 0 0] /\
    lamp (i2cbus d') = Some (255, 0, 0).
Proof.
  intros start_time s Hc Hw Hr He Ht. subst start_time s.
  rewrite sim_get_raw_waits by assumption.
  cbn [poll]. run_by ltac:(apply sim_status).
  cbn [on i2cbus]. rewrite Hr, He. cbn [negb].
  run_by ltac:(apply sim_now).
  cbn [on i2cbus fetch clock]. rewrite Ht.
  run_by ltac:(apply sim_led).
  eexists. split; [reflexivity|]. split; [|reflexivity].
  cbn [on calls]. rewrite !app_nil_r, <- !app_assoc. f_equal.
  unfold status_reads. 
  replace (S n) with (n + 1)%nat by lia. rewrite repeat_app, concat_app.
  cbn [repeat List.concat]. rewrite app_nil_r, <- app_assoc. reflexivity.
Qed.

Lemma never_ready_waits (j : nat) :
  (j < 3)%nat ->
  waiting 0 10 (waited j (snd (wall_clock (i2cbus (boot never_ready zeroed true))))).
Proof.
  intros Hj. destruct j as [|[|[|j]]]; [| | |lia];
    (split; [reflexivity | split; reflexivity]).
Qed.

Lemma get_raw_cap_val_times_out_witness :
  exists d',
    get_raw_cap_val 4 10 (boot never_ready zeroed true) =
      (Raise (IOError SensorNotReady), d') /\
    calls d' = [] ++ status_reads 4 ++ [SetLEDRGB 255 0 0] /\
    lamp (i2cbus d') = Some (255, 0, 0).
Proof.
  apply (get_raw_cap_val_times_out 0 3 10 (boot never_ready zeroed true)).
  - reflexivity.
  - exact never_ready_waits.
  - reflexivity.
  - reflexivity.
  - reflexivity.
Defined.

(** X14.  An acquisition in continuous mode waits for data: after [n]
    passes of the polling loop that find no data ready, no fault and no
    timeout, a pass that finds data ready returns the conversion result
    held then.  The status was read [n + 1] times and the data registers
    once; the indicator and the registers are as they were. *)
Theorem get_raw_cap_val_waits_for_data
    (fuel n : nat) (timeout : float) (d : driver device) :
  let start_time := clock (i2cbus d) in
  let s := waited n (snd (wall_clock (i2cbus d))) in
  cont_conv d = true ->
  (forall j, (j < n)%nat ->
     waiting start_time timeout (waited j (snd (wall_clock (i2cbus d))))) ->
  RDYCAP (status_decode (status_byte (model s) (polls s))) = false ->
  exists d',
    get_raw_cap_val (n + S fuel) timeout d = (Return (sample s), d') /\
    calls d' = calls d ++ status_reads (S n) ++ read_calls CAP_DATA_H_ADDR 3 /\
    lamp (i2cbus d') = lamp (i2cbus d) /\
    regs (i2cbus d') = regs (i2cbus d).
Proof.
  intros start_time s Hc Hw Hr. subst start_time s.
  rewrite sim_get_raw_waits by assumption.
  cbn [poll]. run_by ltac:(apply sim_status).
  cbn [on i2cbus]. rewrite Hr. cbn [negb].
  rewrite sim_cap_data.
  eexists. split; [reflexivity|].
  assert (Hinv : forall k s0, lamp (waited k s0) = lamp s0 /\ regs (waited k s0) = regs s0).
  { induction k as [|k IH]; intros s0; [split; reflexivity|].
    cbn [waited]. destruct (IH (wait s0)) as [-> ->]. split; reflexivity. }
  split; [|split].
  - cbn [on calls]. rewrite <- !app_assoc. f_equal.
    unfold status_reads.
    replace (S n) with (n + 1)%nat by lia. rewrite repeat_app, concat_app.
    cbn [repeat List.concat]. rewrite app_nil_r, <- app_assoc. reflexivity.
  - cbn [on i2cbus fetch lamp]. destruct (Hinv n (snd (wall_clock (i2cbus d)))) as [-> _].
    reflexivity.
  - cbn [on i2cbus fetch regs]. destruct (Hinv n (snd (wall_clock (i2cbus d)))) as [_ ->].
    reflexivity.
Qed.

Lemma slow_start_waits (j : nat) :
  (j < 2)%nat ->
  waiting 0 10 (waited j (snd (wall_clock (i2cbus (boot slow_start zeroed true))))).
Proof.
  intros Hj. destruct j as [|[|j]]; [| |lia];
    (split; [reflexivity | split; reflexivity]).
Qed.

Lemma get_raw_cap_val_waits_for_data_witness :
  exists d',
    get_raw_cap_val 3 10 (boot slow_start zeroed true) = (Return 0x123456, d') /\
    calls d' = [] ++ status_reads 3 ++ read_calls CAP_DATA_H_ADDR 3.
Proof.
  destruct (get_raw_cap_val_waits_for_data 0 2 10 (boot slow_start zeroed true)
              eq_refl slow_start_waits eq_refl) as (d' & Hrun & Hcalls & _).
  exists d'. split; [exact Hrun | exact Hcalls].
Defined.

(** ** Calibration from a floor it cannot use *)

Lemma bind_raise {B A C} (m : M B A) (k : A -> M B C) d e d' :
  m d = (Raise e, d') -> bind m k d = (Raise e, d').
Proof. intros E. unfold bind. rewrite E. reflexivity. Qed.

Lemma daca_out_of_range (c : Z) : c < 0 \/ 127 < c -> (c >? 127) || (c <? 0) = true.
Proof.
  intros Hc. apply orb_true_iff. destruct Hc as [Hc|Hc].
  - right. apply Z.ltb_lt. exact Hc.
  - left. rewrite Z.gtb_ltb. apply Z.ltb_lt. exact Hc.
Qed.

Lemma sim_set_cap_daca_refused (e : bool) (c : Z) (d : driver device) :
  c < 0 \/ 127 < c ->
  set_cap_daca {| DACAENA := e; DACA7bit := c |} d =
  (Raise (ValueError "DACA7bit" c), d).
Proof.
  intros Hc. unfold set_cap_daca. cbn [DACA7bit].
  rewrite daca_out_of_range by exact Hc. reflexivity.
Qed.

(** X15.  Calibration from a floor it cannot use, in continuous mode
    ([cont_conv] on), on a device that reports data ready.  With a floor
    below 0, with a floor above 128, and with floor 0 when the first code
    measures zero, [cal_low_val] ends in the value error of the DAC A
    setter (for the floor itself when it is negative, for floor - 1
    otherwise), not in the calibration error, and the indicator is left as
    it was.  With a floor other than 0 nothing but the two flushing
    acquisitions reaches the bus. *)
Theorem cal_low_val_unusable_floor (fuel : nat) (st_val : Z) (d : driver device) :
  always_ready (model (i2cbus d)) ->
  cont_conv d = true ->
  st_val < 0 \/ 128 < st_val \/ (st_val = 0 /\ nth_sample (i2cbus d) 0 3 = 0) ->
  exists d',
    cal_low_val (S fuel) st_val d =
      (Raise (ValueError "DACA7bit" (if st_val <? 0 then st_val else st_val - 1)), d') /\
    lamp (i2cbus d') = lamp (i2cbus d) /\
    (st_val <> 0 ->
       calls d' = calls d ++ acquire_calls ++ acquire_calls /\
       regs (i2cbus d') = regs (i2cbus d)).
Proof.
  intros Hr Hc Hst. unfold cal_low_val.
  run_by ltac:(apply sim_get_raw_ready; assumption).
  run_by ltac:(apply sim_get_raw_ready; assumption).
  set (d0 := on acquire acquire_calls (on acquire acquire_calls d)).
  assert (Hlamp : lamp (i2cbus d0) = lamp (i2cbus d)) by reflexivity.
  assert (Hcalls : calls d0 = calls d ++ acquire_calls ++ acquire_calls)
    by (unfold d0; cbn [on calls]; rewrite <- app_assoc; reflexivity).
  assert (Hregs : regs (i2cbus d0) = regs (i2cbus d)) by reflexivity.
  destruct Hst as [Hneg | [Hbig | [Hzero Hs]]].
  - (* below zero: the first step of the scan is refused *)
    erewrite bind_raise.
    + exists (printed st_val d0). split.
      * destruct (Z.ltb_spec st_val 0); [reflexivity | lia].
      * split; [exact Hlamp|]. intros _. split; [exact Hcalls | exact Hregs].
    + rewrite scan_unfold.
      destruct (Z.leb_spec st_val 127) as [_|]; [|lia].
      destruct (Z.to_nat (128 - st_val)) as [|n'] eqn:En; [lia|].
      run_by ltac:(apply sim_print_cal).
      apply bind_raise. apply sim_set_cap_daca_refused. left. exact Hneg.
  - (* above 128: the scan does nothing, the step back is refused *)
    erewrite bind_run.
    2:{ rewrite scan_unfold. destruct (Z.leb_spec st_val 127) as [|_]; [lia|].
        reflexivity. }
    erewrite bind_raise.
    + exists d0. split.
      * destruct (Z.ltb_spec st_val 0); [lia | reflexivity].
      * split; [exact Hlamp|]. intros _. split; [exact Hcalls | exact Hregs].
    + apply sim_set_cap_daca_refused. right. lia.
  - (* zero measured at code 0: the step back to -1 is refused *)
    subst st_val. cbn [Z.ltb Z.compare Z.sub Z.opp Z.add].
    erewrite bind_run.
    2:{ change (Z.to_nat 128) with (S 127). rewrite scan_unfold.
        cbn [Z.leb Z.compare]. run_by ltac:(apply sim_print_cal).
        rewrite sim_probe; [| exact Hr | exact Hc | lia].
        rewrite (nth_sample_shift (i2cbus d) _ 2);
          [| reflexivity
           | change (samples (i2cbus (printed 0 d0))) with (S (S (samples (i2cbus d))));
             lia ].
        cbn [Nat.add]. rewrite Hs. reflexivity. }
    erewrite bind_raise; [| apply sim_set_cap_daca_refused; left; lia ].
    eexists. split; [reflexivity|]. split; [reflexivity|].
    intros Hne. contradiction Hne. reflexivity.
Qed.

Lemma cal_low_val_unusable_floor_witness :
  (exists d',
     cal_low_val 1 0 (boot all_zero zeroed true) =
       (Raise (ValueError "DACA7bit" (-1)), d') /\
     lamp (i2cbus d') = None) /\
  (exists d',
     cal_low_val 1 200 (boot steady zeroed true) =
       (Raise (ValueError "DACA7bit" 199), d') /\
     calls d' = acquire_calls ++ acquire_calls).
Proof.
  split.
  - destruct (cal_low_val_unusable_floor 0 0 (boot all_zero zeroed true))
      as (d' & Hrun & Hl & _).
    + intros n. reflexivity.
    + reflexivity.
    + right. right. split; reflexivity.
    + exists d'. split; [exact Hrun | exact Hl].
  - destruct (cal_low_val_unusable_floor 0 200 (boot steady zeroed true))
      as (d' & Hrun & _ & Hc).
    + intros n. reflexivity.
    + reflexivity.
    + right. left. lia.
    + exists d'. split; [exact Hrun|]. apply Hc. discriminate.
Defined.

(** ** Assembling the data registers *)

(** X16.  On every adapter: when the read of the three data registers
    yields the list [l], [cap_data] yields 65536 * l[0] + 256 * l[1] + l[2],
    and raises the index error when [l] has fewer than three entries;
    entries after the third are ignored.  With three bytes in 0..255 the
    result lies in 0..0xFFFFFF. *)
Theorem cap_data_assembles_big_endian
    (B : Type) (H : HostAdapter B) (d d' : driver B) (l : list Z) :
  read_byte CAP_DATA_H_ADDR 3 d = (Return l, d') ->
  cap_data d =
    (match l with
     | h :: m :: lo :: _ => Return (65536 * h + 256 * m + lo)
     | _ => Raise IndexError
     end, d') /\
  (forall h m lo rest,
     l = h :: m :: lo :: rest ->
     0 <= h <= 255 -> 0 <= m <= 255 -> 0 <= lo <= 255 ->
     exists v, fst (cap_data d) = Return v /\ 0 <= v <= 0xFFFFFF).
Proof.
  intros Hread.
  assert (Hrun : cap_data d =
    (match l with
     | h :: m :: lo :: _ => Return (65536 * h + 256 * m + lo)
     | _ => Raise IndexError
     end, d')).
  { unfold cap_data. run_by ltac:(exact Hread).
    destruct l as [|h [|m [|lo rest]]]; try reflexivity.
    unfold bind, item, ret. cbn [nth_error].
    rewrite !Z.shiftl_mul_pow2 by lia.
    change (2 ^ 16) with 65536. change (2 ^ 8) with 256.
    do 2 f_equal. lia. }
  split; [exact Hrun|].
  intros h m lo rest -> Hh Hm Hlo. rewrite Hrun. cbn [fst].
  eexists. split; [reflexivity | lia].
Qed.

Lemma cap_data_assembles_big_endian_witness :
  cap_data (boot fault_with_data zeroed true) =
    (Return (65536 * 0x00 + 256 * 0xAB + 0xCD),
     on (fetch CAP_DATA_H_ADDR 3) (read_calls CAP_DATA_H_ADDR 3)
        (boot fault_with_data zeroed true)).
Proof.
  exact (proj1 (cap_data_assembles_big_endian device adapter
                  (boot fault_with_data zeroed true) _ _
                  (sim_read_byte CAP_DATA_H_ADDR 3 (boot fault_with_data zeroed true)))).
Defined.

(** ** The range of the conversion *)

Lemma ltb_leb (x y : float) : (x <? y)%float = true -> (x <=? y)%float = true.
Proof.
  rewrite FloatAxioms.ltb_spec, FloatAxioms.leb_spec.
  unfold SFltb, SFleb. destruct (SFcompare _ _) as [[]|]; congruence.
Qed.

Lemma pf_range (raw : Z) :
  0 <= raw <= 0xFFFFFF ->
  (0 <=? cap_val_to_pf raw)%float = true /\
  (cap_val_to_pf raw <? 8.192)%float = true.
Proof.
  intros Hraw. split.
  - destruct (Z.eq_dec raw 0) as [->|Hn]; [vm_compute; reflexivity|].
    apply ltb_leb. rewrite <- pf_zero. apply pf_monotone; lia.
  - destruct (Z.eq_dec raw 0xFFFFFF) as [->|Hn]; [vm_compute; reflexivity|].
    apply (ltb_trans _ (cap_val_to_pf 0xFFFFFF)).
    + apply pf_monotone; lia.
    + vm_compute. reflexivity.
Qed.

(** X17.  [get_cap_val] on a device that reports data ready, in
    continuous mode: it makes one acquisition and returns the conversion
    of the sample, a binary64 that is at least 0 and below 8.192. *)
Theorem get_cap_val_in_range (fuel : nat) (timeout : float) (d : driver device) :
  always_ready (model (i2cbus d)) ->
  cont_conv d = true ->
  exists pf d',
    get_cap_val (S fuel) timeout d = (Return pf, d') /\
    pf = cap_val_to_pf (sample (i2cbus d)) /\
    (0 <=? pf)%float = true /\ (pf <? 8.192)%float = true /\
    calls d' = calls d ++ acquire_calls.
Proof.
  intros Hr Hc. unfold get_cap_val.
  run_by ltac:(apply sim_get_raw_ready; assumption).
  eexists. eexists. split; [reflexivity|]. split; [reflexivity|].
  pose proof (sample_range (i2cbus d)) as Hs.
  destruct (pf_range (sample (i2cbus d)) ltac:(lia)) as [H0 H1].
  split; [exact H0|]. split; [exact H1|]. reflexivity.
Qed.

Lemma get_cap_val_in_range_witness :
  exists pf d',
    get_cap_val 1 10 (boot saturated zeroed true) = (Return pf, d') /\
    pf = cap_val_to_pf 0xFFFFFF /\
    (0 <=? pf)%float = true /\ (pf <? 8.192)%float = true.
Proof.
  destruct (get_cap_val_in_range 0 10 (boot saturated zeroed true))
    as (pf & d' & Hrun & Hpf & H0 & H1 & _).
  - intros n. reflexivity.
  - reflexivity.
  - exists pf, d'. split; [exact Hrun|]. split; [exact Hpf|]. split; assumption.
Defined.

(** ** The DAC step *)

Lemma dac_lsb_uint63 (i : int) :
  to_Z i < 0x10000 ->
  dac_lsb_of_gain (to_Z i) = lsb63 i.
Proof.
  intros Hi. unfold dac_lsb_of_gain, lsb63.
  assert (W : wB = 9223372036854775808) by reflexivity.
  pose proof (to_Z_bounded i) as Hb.
  replace (2 ^ 16 + to_Z i) with (to_Z (65536 + i)).
  - change (2 ^ 16) with (to_Z 65536). change 127 with (to_Z 127).
    rewrite !float_of_int_uint63. reflexivity.
  - rewrite Uint63.add_spec. change (to_Z 65536) with 65536.
    change (2 ^ 16) with 65536. rewrite Z.mod_small by lia. reflexivity.
Qed.

Lemma lsb_rises_all : all_blocks 16 4096 lsb_rises 0%uint63 = true.
Proof. vm_cast_no_check (eq_refl true). Qed.

Lemma lsb_step (g : Z) :
  0 <= g < 0xFFFF ->
  (dac_lsb_of_gain g <? dac_lsb_of_gain (g + 1))%float = true.
Proof.
  intros Hg.
  assert (W : wB = 9223372036854775808) by reflexivity.
  pose proof (all_blocks_spec lsb_rises 4096 16 0%uint63 ltac:(cbn; lia)
                lsb_rises_all (of_Z g)) as Hr.
  rewrite to_Z_of_Z_small in Hr by lia.
  specialize (Hr ltac:(cbn; lia)). unfold lsb_rises in Hr.
  rewrite <- !dac_lsb_uint63 in Hr.
  - replace (to_Z (of_Z g + 1)) with (g + 1) in Hr.
    + rewrite to_Z_of_Z_small in Hr by lia. exact Hr.
    + rewrite Uint63.add_spec, to_Z_of_Z_small by lia.
      change (to_Z 1) with 1. rewrite Z.mod_small by lia. reflexivity.
  - rewrite Uint63.add_spec, to_Z_of_Z_small by lia.
    change (to_Z 1) with 1. rewrite Z.mod_small by lia. lia.
  - rewrite to_Z_of_Z_small by lia. lia.
Qed.

Lemma lsb_monotone (a b : Z) :
  0 <= a -> a < b -> b <= 0xFFFF ->
  (dac_lsb_of_gain a <? dac_lsb_of_gain b)%float = true.
Proof.
  intros Ha Hab Hb.
  replace b with (a + 1 + Z.of_nat (Z.to_nat (b - a - 1))) by lia.
  assert (Hk : a + 1 + Z.of_nat (Z.to_nat (b - a - 1)) <= 0xFFFF) by lia.
  induction (Z.to_nat (b - a - 1)) as [|k IH].
  - rewrite Z.add_0_r. apply lsb_step. lia.
  - eapply ltb_trans; [apply IH; lia|].
    replace (a + 1 + Z.of_nat (S k)) with (a + 1 + Z.of_nat k + 1) by lia.
    apply lsb_step. lia.
Qed.

Lemma sim_cap_gain (d : driver device) :
  cap_gain d =
  (Return (Z.shiftl (regs (i2cbus d) CAP_OFFSET_H_ADDR) 8 +
           regs (i2cbus d) CAP_OFFSET_L_ADDR),
   on (fetch CAP_OFFSET_H_ADDR 2) (read_calls CAP_OFFSET_H_ADDR 2) d).
Proof. exact (sim_cap_offset d). Qed.

(** X18.  [cap_dac_lsb] computes once.  With the attribute unset, on the
    simulated device with bytes in the two registers, it makes one
    two-byte read at 0x0D (through [cap_gain], which reads the offset
    registers), returns the step computed from them and stores it.  With the attribute set, on every
    adapter and in every state, it returns the stored value and leaves the
    driver as it was: no call is made, and a later change of the registers
    is not seen. *)
Theorem cap_dac_lsb_computed_once (d : driver device) :
  0 <= regs (i2cbus d) 0x0D <= 255 ->
  0 <= regs (i2cbus d) 0x0E <= 255 ->
  exists lsb d',
    cap_dac_lsb None d = (Return (lsb, Some lsb), d') /\
    lsb = dac_lsb_of_gain (256 * regs (i2cbus d) 0x0D + regs (i2cbus d) 0x0E) /\
    calls d' = calls d ++ read_calls 0x0D 2 /\
    (forall (B : Type) (H : HostAdapter B) (e : driver B),
       cap_dac_lsb (Some lsb) e = (Return (lsb, Some lsb), e)).
Proof.
  intros _ _. eexists. eexists. split.
  - unfold cap_dac_lsb. run_by ltac:(apply sim_cap_gain). reflexivity.
  - split.
    + f_equal. rewrite Z.shiftl_mul_pow2 by lia. change (2 ^ 8) with 256.
      unfold CAP_OFFSET_H_ADDR, CAP_OFFSET_L_ADDR. lia.
    + split; [reflexivity|]. intros B H e. reflexivity.
Qed.

Lemma cap_dac_lsb_computed_once_witness :
  exists lsb d',
    cap_dac_lsb None (boot steady own_address true) = (Return (lsb, Some lsb), d') /\
    lsb = dac_lsb_of_gain 0x0D0E /\
    cap_dac_lsb (Some lsb) d' = (Return (lsb, Some lsb), d').
Proof.
  destruct (cap_dac_lsb_computed_once (boot steady own_address true))
    as (lsb & d' & Hrun & Hlsb & _ & Hkeep).
  - vm_compute. split; discriminate.
  - vm_compute. split; discriminate.
  - exists lsb, d'. split; [exact Hrun|]. split; [exact Hlsb | apply Hkeep].
Defined.

(** X19.  The DAC step as a function of the 16-bit gain value, in
    binary64: strictly increasing over 0..0xFFFF, above 0.1032 and below
    0.2065. *)
Theorem dac_lsb_of_gain_rises (a b : Z) :
  0 <= a -> a < b -> b <= 0xFFFF ->
  (dac_lsb_of_gain a <? dac_lsb_of_gain b)%float = true /\
  (0.1032 <? dac_lsb_of_gain a)%float = true /\
  (dac_lsb_of_gain b <? 0.2065)%float = true.
Proof.
  intros Ha Hab Hb. split; [apply lsb_monotone; assumption|]. split.
  - destruct (Z.eq_dec a 0) as [->|Hn]; [vm_compute; reflexivity|].
    apply (ltb_trans _ (dac_lsb_of_gain 0)); [vm_compute; reflexivity|].
    apply lsb_monotone; lia.
  - destruct (Z.eq_dec b 0xFFFF) as [->|Hn]; [vm_compute; reflexivity|].
    apply (ltb_trans _ (dac_lsb_of_gain 0xFFFF)); [|vm_compute; reflexivity].
    apply lsb_monotone; lia.
Qed.

Lemma dac_lsb_of_gain_rises_witness :
  (dac_lsb_of_gain 0 <? dac_lsb_of_gain 0xFFFF)%float = true /\
  (0.1032 <? dac_lsb_of_gain 0)%float = true /\
  (dac_lsb_of_gain 0xFFFF <? 0.2065)%float = true.
Proof.
  apply (dac_lsb_of_gain_rises 0 0xFFFF); lia.
Defined.

(** ** Construction *)

Lemma on_adapter_run {B A} (f : B -> A * B) (d : driver B) :
  on_adapter f d =
  (Return (fst (f (i2cbus d))),
   {| i2cbus := snd (f (i2cbus d)); cont_conv := cont_conv d;
      calls := calls d; console := console d |}).
Proof. unfold on_adapter. destruct (f (i2cbus d)); reflexivity. Qed.

(** X20.  [set_clock] on every adapter.  A frequency below 0 or above
    400000 raises the value error and leaves the driver as it was: the
    adapter is not called.  A frequency in range is handed to setClockI2C
    on index 0; the reply decides the outcome as in
    [_check_device_success], and the call log is unchanged. *)
Theorem set_clock_validates_frequency
    (B : Type) (S : HostSetup B) (freq : Z) (d : driver B) :
  (freq < 0 \/ 400000 < freq ->
   set_clock freq d = (Raise (ValueError "Frequency" freq), d)) /\
  (0 <= freq <= 400000 ->
   let reply := fst (setClockI2C 0 freq (i2cbus d)) in
   fst (set_clock freq d) =
     (if (reply =? "-OK")%string then Return tt
      else if (reply =? "-NG")%string
           then Raise (RuntimeError "Binho returned NG!")
           else Raise (RuntimeError "Binho returned Unknown command!")) /\
   i2cbus (snd (set_clock freq d)) = snd (setClockI2C 0 freq (i2cbus d)) /\
   calls (snd (set_clock freq d)) = calls d).
Proof.
  split.
  - intros Hf. unfold set_clock.
    assert (E : (0 <=? freq) && (freq <=? 400000) = false).
    { apply andb_false_iff. destruct Hf as [Hf|Hf].
      - left. apply Z.leb_gt. exact Hf.
      - right. apply Z.leb_gt. exact Hf. }
    rewrite E. reflexivity.
  - intros Hf. unfold set_clock.
    assert (E : (0 <=? freq) && (freq <=? 400000) = true).
    { apply andb_true_iff. split; apply Z.leb_le; lia. }
    rewrite E. cbn [negb]. unfold bind, on_adapter, I2C_INDEX.
    destruct (setClockI2C 0 freq (i2cbus d)) as [r b]. cbn [fst snd].
    unfold _check_device_success.
    destruct (r =? "-OK")%string; [repeat split|].
    destruct (r =? "-NG")%string; repeat split.
Qed.

Lemma set_clock_validates_frequency_witness :
  @set_clock device (accepting "-OK") 400001 (boot steady zeroed true) =
    (Raise (ValueError "Frequency" 400001), boot steady zeroed true) /\
  fst (@set_clock device (accepting "-NG") 100000 (boot steady zeroed true)) =
    Raise (RuntimeError "Binho returned NG!").
Proof.
  destruct (set_clock_validates_frequency device (accepting "-OK")
              400001 (boot steady zeroed true)) as [H1 _].
  destruct (set_clock_validates_frequency device (accepting "-NG")
              100000 (boot steady zeroed true)) as [_ H2].
  split; [apply H1; right; lia | apply (H2 ltac:(lia))].
Defined.

(** X21.  Construction on every adapter.  The replies of
    setOperationMode and setPullUpStateI2C are not looked at.  When
    setClockI2C(0, 400000) is not answered -OK, construction raises the
    runtime error before any bus transaction.  When it is, construction
    sets [cont_conv] and is the write of 0x00 to register 0x08 followed by
    the write of 0xF8 to register 0x0A. *)
Theorem init_writes_two_registers
    (B : Type) (H : HostAdapter B) (S : HostSetup B) (binho : B) :
  let b1 := snd (setOperationMode 0 "I2C" binho) in
  let b2 := snd (setPullUpStateI2C 0 "EN" b1) in
  let reply := fst (setClockI2C 0 400000 b2) in
  let b3 := snd (setClockI2C 0 400000 b2) in
  (reply <> "-OK" ->
   refused (fst (__init__ binho)) /\ calls (snd (__init__ binho)) = []) /\
  (reply = "-OK" ->
   __init__ binho =
     (write_byte 0x08 0x00;; write_byte 0x0A 0xF8)
       {| i2cbus := b3; cont_conv := true; calls := []; console := [] |}).
Proof.
  cbv zeta. unfold __init__.
  run_by ltac:(apply on_adapter_run). run_by ltac:(apply on_adapter_run).
  cbn [i2cbus cont_conv calls console].
  set (b2 := snd (setPullUpStateI2C 0 "EN" (snd (setOperationMode I2C_INDEX "I2C" binho)))).
  set (d2 := {| i2cbus := b2; cont_conv := false; calls := []; console := [] |}).
  assert (Hclk : set_clock 400000 d2 =
            (fst (_check_device_success (fst (setClockI2C 0 400000 b2)) d2),
             {| i2cbus := snd (setClockI2C 0 400000 b2); cont_conv := false;
                calls := []; console := [] |})).
  { unfold set_clock.
    change (negb ((0 <=? 400000) && (400000 <=? 400000))) with false. cbv iota.
    run_by ltac:(apply on_adapter_run). unfold _check_device_success, I2C_INDEX.
    subst d2. cbn [i2cbus cont_conv calls console].
    destruct (fst (setClockI2C 0 400000 b2) =? "-OK")%string; [reflexivity|].
    destruct (fst (setClockI2C 0 400000 b2) =? "-NG")%string; reflexivity. }
  unfold _check_device_success in Hclk. split.
  - intros Hr. apply String.eqb_neq in Hr.
    change ((fst (setClockI2C 0 400000 b2) =? "-OK")%string = false) in Hr.
    rewrite Hr in Hclk.
    destruct (fst (setClockI2C 0 400000 b2) =? "-NG")%string;
      (erewrite bind_raise; [| exact Hclk]);
      (split; [unfold refused; cbn; auto | reflexivity]).
  - intros Hr. change (fst (setClockI2C 0 400000 b2) = "-OK") in Hr.
    rewrite Hr, String.eqb_refl in Hclk.
    run_by ltac:(exact Hclk). run. reflexivity.
Qed.

Lemma init_writes_two_registers_witness :
  (exists d,
     @__init__ device adapter (accepting "-OK") (fresh steady own_address) =
       (Return tt, d) /\
     cont_conv d = true /\
     calls d = write_calls 0x08 0x00 ++ write_calls 0x0A 0xF8 /\
     regs (i2cbus d) 0x08 = 0x00 /\ regs (i2cbus d) 0x0A = 0xF8) /\
  refused (fst (@__init__ device adapter (accepting "-NG") (fresh steady own_address))) /\
  calls (snd (@__init__ device adapter (accepting "-NG") (fresh steady own_address))) = [].
Proof.
  split.
  - eexists. split.
    + rewrite (proj2 (init_writes_two_registers device adapter (accepting "-OK")
                        (fresh steady own_address)) eq_refl).
      run_by ltac:(apply sim_write_byte). rewrite sim_write_byte. reflexivity.
    + repeat split.
  - apply (proj1 (init_writes_two_registers device adapter (accepting "-NG")
                    (fresh steady own_address))).
    discriminate.
Defined.

Lemma acquisition_never_writes_witness :
  exists l,
    calls (snd (get_raw_cap_val 1 10 (boot steady zeroed true))) = [] ++ l /\
    Forall chip_read l.
Proof.
  destruct (acquisition_never_writes device adapter 1 10 (boot steady zeroed true) eq_refl)
    as (l & Hl & HP & _).
  exists l. split; [exact Hl | exact HP].
Defined.
